(** * Social-Media-Usage-Analytics: the aggregation-and-scoring engine

    A shallow embedding of the scoring utilities of the repository
    (analytics engine, digital honesty score, regret analysis and digital
    mirror), with the properties its specification states about them.

    Conventions of the embedding:
    - a JavaScript number holding minutes or a score is an exact rational
      ([Q]); the decimal literals [1.1], [0.9], [0.5], ... are the
      rationals they denote.  Counts and integral scores are [Z] or [nat].
      The thresholds of the weekly trend depend on how the products by
      [1.1] and [0.9] are rounded: the trend is embedded a second time
      over binary64 floats (modules [Double] and [WeeklyTrend]), and the
      rule of the trend is stated of that embedding;
    - a date is its time value, the number of milliseconds since the epoch
      ([Z]); the key [date.toISOString().split('T')[0]] is the UTC day
      number of that time value, which identifies the same calendar day;
    - a [Map] is an association list in insertion order, which is the
      iteration order of a JavaScript [Map] and decides how the daily
      totals are split into halves;
    - an argument that may be [null] or [undefined] is an [option];
    - strings are byte strings, and case mapping acts on the ASCII letters;
      what is stated about the case of the letters is stated of ASCII text;
    - the local hour of a time value depends on the time zone of the host:
      it is a parameter, [getHours], of the digital mirror. *)

From Stdlib Require Import String Ascii.
From Stdlib Require Import ZArith QArith Qround Qminmax List Bool Lia Lqa.
From Stdlib Require Import Permutation Sorted.
From Stdlib Require DecimalString.
From Stdlib Require PrimFloat Uint63 SpecFloat FloatAxioms.
Import ListNotations.

Local Open Scope Z_scope.

(** ** JavaScript primitives *)

Module JS.

(** [Math.round]: the nearest integer, halves going up. *)
Definition Math_round (x : Q) : Z := Qfloor (x + (1 # 2)).

(** [x > y] and [x < y] and [x >= y] on numbers. *)
Definition gt (x y : Q) : bool := negb (Qle_bool x y).
Definition lt (x y : Q) : bool := negb (Qle_bool y x).
Definition ge (x y : Q) : bool := Qle_bool y x.

(** [x || 0] on a number: a falsy number is replaced by [0]. *)
Definition orZero (x : Q) : Q := if Qeq_bool x 0 then 0%Q else x.

(** [Math.max(...xs, last)]. *)
Definition Math_max (xs : list Q) (last : Q) : Q := fold_right Qmax last xs.

(** [xs.reduce((a, b) => a + b, 0)]. *)
Definition sum (xs : list Q) : Q := fold_left Qplus xs 0%Q.

(** [xs.slice(from, to)] and [xs.slice(from)]. *)
Definition slice {A} (xs : list A) (from to : nat) : list A :=
  firstn (to - from) (skipn from xs).
Definition sliceFrom {A} (xs : list A) (from : nat) : list A := skipn from xs.

(** [xs.sort(cmp)]: the sort is stable; [after x y] says that [cmp(x, y)]
    is positive, so that [x] has to come after [y]. *)
Section Sort.
Context {A : Type} (after : A -> A -> bool).

Fixpoint insert (x : A) (l : list A) : list A :=
  match l with
  | [] => [x]
  | y :: r => if after x y then y :: insert x r else x :: y :: r
  end.

Definition sort (l : list A) : list A := fold_right insert [] l.
End Sort.

(** A [Map] in insertion order. *)
Section MapModel.
Context {K V : Type} (eqb : K -> K -> bool).

Fixpoint get (m : list (K * V)) (k : K) : option V :=
  match m with
  | [] => None
  | (k', v) :: r => if eqb k k' then Some v else get r k
  end.

Fixpoint set (m : list (K * V)) (k : K) (v : V) : list (K * V) :=
  match m with
  | [] => [(k, v)]
  | (k', v') :: r => if eqb k k' then (k', v) :: r else (k', v') :: set r k v
  end.

Definition has (m : list (K * V)) (k : K) : bool :=
  match get m k with Some _ => true | None => false end.

Definition values (m : list (K * V)) : list V := map snd m.
Definition size (m : list (K * V)) : nat := length m.
End MapModel.

(** Milliseconds in a day, [1000 * 60 * 60 * 24]. *)
Definition msPerDay : Z := 1000 * 60 * 60 * 24.

End JS.

(** ** Usage records *)

Module Usage.

(** The [foundIt] field: [true], [false], [null], or absent. *)
Inductive FoundIt := FoundTrue | FoundFalse | FoundNull | FoundUndefined.

Record UsageLog := mkLog {
  appName : string;
  minutesSpent : Q;
  date : Z;
  createdAt : option Z;
  intention : option string;
  foundIt : FoundIt
}.

End Usage.

(** ** The analytics engine *)

Module Analytics.
Import JS Usage.

Inductive Trend := increasing | decreasing | stable.

Record App := mkApp { name : string; minutes : Q }.

Record WeeklyStats := mkWeekly {
  totalMinutes : Q;
  averageDailyMinutes : Q;
  daysActive : nat;
  trend : Trend;
  apps : list App
}.

Record RiskScore := mkRisk {
  score : Z;
  category : string;
  level : string
}.

(** [log.date.toISOString().split('T')[0]] *)
Definition dateKey (log : UsageLog) : Z := date log / msPerDay.

(** [map.set(key, (map.get(key) || 0) + minutes)], the body of the
    grouping loops. *)
Definition addMinutes {K} (eqb : K -> K -> bool)
    (m : list (K * Q)) (key : K) (minutes : Q) : list (K * Q) :=
  let existing :=
    match get eqb m key with
    | Some v => orZero v
    | None => 0%Q
    end in
  set eqb m key (existing + minutes)%Q.

(** The [forEach] that groups minutes by date, and its body. *)
Definition dateStep (dateMap : list (Z * Q)) (log : UsageLog) : list (Z * Q) :=
  addMinutes Z.eqb dateMap (dateKey log) (minutesSpent log).

Definition groupByDate (logs : list UsageLog) : list (Z * Q) :=
  fold_left dateStep logs [].

(** The [forEach] that groups minutes by app. *)
Definition groupByApp (logs : list UsageLog) : list (string * Q) :=
  fold_left (fun appMap log =>
               addMinutes String.eqb appMap (appName log) (minutesSpent log))
            logs [].

Definition topApps (logs : list UsageLog) : list App :=
  sort (fun a b => gt (minutes b - minutes a) 0)
       (map (fun e => mkApp (fst e) (snd e)) (groupByApp logs)).

Definition round2 (x : Q) : Q := (inject_Z (Math_round (x * 100)) / 100)%Q.

(** The trend of a list of daily totals (lines 79-87), in exact
    arithmetic; [WeeklyTrend.trendOf] is the same over doubles. *)
Definition trendOf (dailyTotals : list Q) : Trend :=
  if (4 <=? length dailyTotals)%nat then
    let midpoint := (length dailyTotals / 2)%nat in
    let firstHalf :=
      (sum (slice dailyTotals 0 midpoint) / inject_Z (Z.of_nat midpoint))%Q in
    let secondHalf :=
      (sum (sliceFrom dailyTotals midpoint)
         / inject_Z (Z.of_nat (length dailyTotals - midpoint)))%Q in
    if gt secondHalf (firstHalf * (11 # 10)) then increasing
    else if lt secondHalf (firstHalf * (9 # 10)) then decreasing
    else stable
  else stable.

Definition calculateWeeklyStats (logs : option (list UsageLog)) : WeeklyStats :=
  match logs with
  | None | Some [] => mkWeekly 0 0 0 stable []
  | Some logs =>
    let dateMap := groupByDate logs in
    let dailyTotals := values dateMap in
    let totalMinutes := sum dailyTotals in
    let averageDailyMinutes :=
      (totalMinutes / inject_Z (Z.max 1 (Z.of_nat (size dateMap))))%Q in
    let daysActive := size dateMap in
    let trend := trendOf dailyTotals in
    let apps := topApps logs in
    mkWeekly (round2 totalMinutes) (round2 averageDailyMinutes) daysActive trend apps
  end.

(** Factor 1: average daily usage (lines 176-180). *)
Definition avgDailyPoints (avgDaily : Q) : Q :=
  if ge avgDaily 360 then 40
  else if ge avgDaily 240 then 30 + ((avgDaily - 240) / 120) * 5
  else if ge avgDaily 120 then 20 + ((avgDaily - 120) / 120) * 10
  else if ge avgDaily 60 then 10 + ((avgDaily - 60) / 60) * 10
  else (avgDaily / 60) * 10.

(** Factor 2: peak usage day (lines 196-199). *)
Definition peakPoints (peakMinutes : Q) : Q :=
  if ge peakMinutes 360 then 20
  else if ge peakMinutes 240 then 15 + ((peakMinutes - 240) / 120) * 5
  else if ge peakMinutes 120 then 10 + ((peakMinutes - 120) / 120) * 5
  else (peakMinutes / 120) * 5.

(** Factor 4: trend (lines 207-209). *)
Definition trendPoints (t : Trend) : Q :=
  match t with increasing => 20 | stable => 10 | decreasing => 5 end.

Definition calculateRiskScore (weeklyLogs monthlyLogs : option (list UsageLog))
  : RiskScore :=
  match weeklyLogs with
  | None | Some [] => mkRisk 0 "Low" "low"
  | Some logs =>
    let score := 0%Q in
    let weeklyStats := calculateWeeklyStats weeklyLogs in
    let avgDaily := averageDailyMinutes weeklyStats in
    let score := (score + avgDailyPoints avgDaily)%Q in
    let dateMap := groupByDate logs in
    let peakMinutes := Math_max (values dateMap) 0 in
    let score := (score + peakPoints peakMinutes)%Q in
    let daysActive := daysActive weeklyStats in
    let score := (score + (inject_Z (Z.of_nat daysActive) / 7) * 20)%Q in
    let score := (score + trendPoints (trend weeklyStats))%Q in
    let score := Z.max 0 (Z.min 100 (Math_round score)) in
    if score >=? 70 then mkRisk score "High" "high"
    else if score >=? 40 then mkRisk score "Moderate" "moderate"
    else mkRisk score "Low" "low"
  end.

End Analytics.

(** ** The digital honesty score *)

Module Honesty.
Import JS Usage.

(** An entry for reads that the loop bounds keep in range. *)
Definition noEntry : UsageLog := mkLog "" 0 0 None None FoundUndefined.

Definition at_ (sortedEntries : list UsageLog) (i : nat) : UsageLog :=
  nth i sortedEntries noEntry.

(** [for (let i = from; i < to; i++)] over a score. *)
Definition forRange (from to : nat) (body : Z -> nat -> Z) (score : Z) : Z :=
  fold_left body (seq from (to - from)) score.

(** [parseFloat(entry.minutesSpent) || 0] *)
Definition minutesOf (entry : UsageLog) : Q := orZero (minutesSpent entry).

Definition sortByDate (entries : list UsageLog) : list UsageLog :=
  sort (fun a b => date a - date b >? 0) entries.

Definition maxGapDays : Z := 7.
Definition maxRealisticMinutes : Q := 960.

(** 1. Large gaps between logged dates (lines 24-34). *)
Definition gapBody (sortedEntries : list UsageLog) (score : Z) (i : nat) : Z :=
  let prevDate := date (at_ sortedEntries (i - 1)) in
  let currDate := date (at_ sortedEntries i) in
  let daysDiff := (currDate - prevDate) / msPerDay in
  if daysDiff >? maxGapDays then
    let penalty := Z.min 30 ((daysDiff - maxGapDays) * 5) in
    score - penalty
  else score.

Definition gapLoop (sortedEntries : list UsageLog) (score : Z) : Z :=
  forRange 1 (length sortedEntries) (gapBody sortedEntries) score.

(** 2. Unrealistic values (lines 38-44). *)
Definition unrealisticBody (score : Z) (entry : UsageLog) : Z :=
  let minutes := minutesOf entry in
  if gt minutes maxRealisticMinutes then score - 10 else score.

Definition unrealisticLoop (sortedEntries : list UsageLog) (score : Z) : Z :=
  fold_left unrealisticBody sortedEntries score.

(** 3. Sudden spikes (lines 48-71). *)
Definition recentAvgAt (sortedEntries : list UsageLog) (i : nat) : Q :=
  let recentEntries := slice sortedEntries (i - 3) i in
  (fold_left (fun sum e => sum + minutesOf e) recentEntries 0
     / inject_Z (Z.of_nat (length recentEntries)))%Q.

Definition spikeBodyLong (sortedEntries : list UsageLog) (score : Z) (i : nat) : Z :=
  let recentAvg := recentAvgAt sortedEntries i in
  let currentMinutes := minutesOf (at_ sortedEntries i) in
  if gt recentAvg 0 && gt currentMinutes (recentAvg * 3) then score - 5 else score.

Definition spikeBodyShort (sortedEntries : list UsageLog) (score : Z) (i : nat) : Z :=
  let prevMinutes := minutesOf (at_ sortedEntries (i - 1)) in
  let currentMinutes := minutesOf (at_ sortedEntries i) in
  if gt prevMinutes 0 && gt currentMinutes (prevMinutes * 5) then score - 5 else score.

Definition spikeLoop (sortedEntries : list UsageLog) (score : Z) : Z :=
  if (4 <=? length sortedEntries)%nat then
    forRange 3 (length sortedEntries) (spikeBodyLong sortedEntries) score
  else if (2 <=? length sortedEntries)%nat then
    forRange 1 (length sortedEntries) (spikeBodyShort sortedEntries) score
  else score.

Definition calculateDigitalHonestyScore (entries : option (list UsageLog)) : Z :=
  match entries with
  | None | Some [] => 100
  | Some [_] => 100
  | Some entries =>
    let sortedEntries := sortByDate entries in
    let score := 100 in
    let score := gapLoop sortedEntries score in
    let score := unrealisticLoop sortedEntries score in
    let score := spikeLoop sortedEntries score in
    Z.max 0 (Z.min 100 (Math_round (inject_Z score)))
  end.

End Honesty.

(** ** The future regret simulator *)

Module Regret.
Import JS Usage.

Module Key.
(** The keys of [regretTypes], in the order the object literal declares
    them. *)
Inductive t := attentionDrain | burnout | habitualScrolling.

(** The position of a key in that order. *)
Definition index (k : t) : nat :=
  match k with attentionDrain => 0 | burnout => 1 | habitualScrolling => 2 end.
End Key.

Record RegretTypes := mkTypes {
  attentionDrain : Z;
  burnout : Z;
  habitualScrolling : Z
}.

(** [regretTypes[key]] *)
Definition prop (regretTypes : RegretTypes) (key : Key.t) : Z :=
  match key with
  | Key.attentionDrain => attentionDrain regretTypes
  | Key.burnout => burnout regretTypes
  | Key.habitualScrolling => habitualScrolling regretTypes
  end.

(** [Object.keys(regretTypes)]: the three keys of the literal, as the
    first key and the keys after it. *)
Definition Object_keys (_ : RegretTypes) : Key.t * list Key.t :=
  (Key.attentionDrain, [Key.burnout; Key.habitualScrolling]).

Record Data := mkData {
  entries : list UsageLog;
  dailyAvg : Q;
  lateNightFrequency : Q;
  intentDriftFrequency : Q;
  riskScoreTrend : string;
  honestyScore : Q
}.

Record RegretAnalysis := mkAnalysis {
  regretScore : Z;
  regretLevel : string;
  regretTypes : RegretTypes;
  dominantType : Key.t
}.

(** The running state of the five factors: the score and the three
    accumulators. *)
Definition State : Type := Z * RegretTypes.

Definition bump (st : State) (pts dAttention dBurnout dHabitual : Z) : State :=
  let '(regretScore, rt) := st in
  (regretScore + pts,
   mkTypes (attentionDrain rt + dAttention) (burnout rt + dBurnout)
           (habitualScrolling rt + dHabitual)).

(** Factor 1: average daily usage (lines 22-33). *)
Definition factorDailyAvg (dailyAvg : Q) (st : State) : State :=
  if ge dailyAvg 240 then bump st 30 20 10 0
  else if ge dailyAvg 180 then bump st 20 15 5 0
  else if ge dailyAvg 120 then bump st 10 10 0 0
  else st.

(** Factor 2: late-night usage frequency (lines 36-46). *)
Definition factorLateNight (lateNightFrequency : Q) (st : State) : State :=
  if ge lateNightFrequency (5 # 10) then bump st 25 0 20 5
  else if ge lateNightFrequency (3 # 10) then bump st 15 0 15 0
  else if ge lateNightFrequency (15 # 100) then bump st 8 0 8 0
  else st.

(** Factor 3: intent drift frequency (lines 49-59). *)
Definition factorIntentDrift (intentDriftFrequency : Q) (st : State) : State :=
  if ge intentDriftFrequency (6 # 10) then bump st 25 5 0 20
  else if ge intentDriftFrequency (4 # 10) then bump st 15 0 0 15
  else if ge intentDriftFrequency (2 # 10) then bump st 8 0 0 8
  else st.

(** Factor 4: risk score trend (lines 62-69). *)
Definition factorTrend (riskScoreTrend : string) (st : State) : State :=
  if String.eqb riskScoreTrend "increasing" then bump st 10 5 5 0
  else if String.eqb riskScoreTrend "stable_high" then bump st 5 0 0 5
  else st.

(** Factor 5: digital honesty score (lines 72-77). *)
Definition factorHonesty (honestyScore : Q) (st : State) : State :=
  if lt honestyScore 60 then bump st 10 0 0 5
  else if lt honestyScore 80 then bump st 5 0 0 0
  else st.

(** [keys.reduce((a, b) => regretTypes[a] > regretTypes[b] ? a : b)] *)
Definition pick (regretTypes : RegretTypes) (a b : Key.t) : Key.t :=
  if prop regretTypes a >? prop regretTypes b then a else b.

(** [reduce] without an initial value starts from the first element. *)
Definition reduce {A} (f : A -> A -> A) (xs : A * list A) : A :=
  fold_left f (snd xs) (fst xs).

Definition analyzeRegretPatterns (data : Data) : RegretAnalysis :=
  let st : State := (0, mkTypes 0 0 0) in
  let st := factorDailyAvg (dailyAvg data) st in
  let st := factorLateNight (lateNightFrequency data) st in
  let st := factorIntentDrift (intentDriftFrequency data) st in
  let st := factorTrend (riskScoreTrend data) st in
  let st := factorHonesty (honestyScore data) st in
  let '(regretScore, regretTypes) := st in
  let regretScore := Z.min 100 (Z.max 0 regretScore) in
  let regretLevel :=
    if regretScore >=? 70 then "high"%string
    else if regretScore >=? 40 then "medium"%string
    else "low"%string in
  let dominantType := reduce (pick regretTypes) (Object_keys regretTypes) in
  mkAnalysis regretScore regretLevel regretTypes dominantType.

End Regret.

(** ** The digital mirror *)

Module Mirror.
Import JS.

Record MirrorInsight := mkInsight {
  intention : string;
  pattern : string;
  count : nat;
  foundItRate : Q;
  avgMinutes : Z;
  lateNightCount : nat;
  repeatedOpens : nat;
  message : string
}.

(** Strings: case mapping on the ASCII letters. *)
Definition lowerChar (c : ascii) : ascii :=
  let n := N_of_ascii c in
  if ((65 <=? n) && (n <=? 90))%N then ascii_of_N (n + 32) else c.

Definition upperChar (c : ascii) : ascii :=
  let n := N_of_ascii c in
  if ((97 <=? n) && (n <=? 122))%N then ascii_of_N (n - 32) else c.

Fixpoint toLowerCase (s : string) : string :=
  match s with
  | EmptyString => EmptyString
  | String c r => String (lowerChar c) (toLowerCase r)
  end.

(** [str.charAt(0).toUpperCase() + str.slice(1)] *)
Definition capitalizeFirst (str : string) : string :=
  match str with
  | EmptyString => EmptyString
  | String c r => String (upperChar c) r
  end.

(** A count or a rounded number inside a template literal. *)
Definition showNat (n : nat) : string :=
  DecimalString.NilZero.string_of_uint (Nat.to_uint n).
Definition showZ (z : Z) : string :=
  DecimalString.NilZero.string_of_int (Z.to_int z).

(** [e.intention && e.foundIt !== null] *)
Definition hasIntention (e : Usage.UsageLog) : bool :=
  match Usage.intention e with
  | Some EmptyString | None => false
  | Some _ =>
      match Usage.foundIt e with Usage.FoundNull => false | _ => true end
  end.

(** [entry.intention], read on an entry that passed the filter. *)
Definition intentionOf (e : Usage.UsageLog) : string :=
  match Usage.intention e with Some s => s | None => EmptyString end.

Definition isFound (e : Usage.UsageLog) : bool :=
  match Usage.foundIt e with Usage.FoundTrue => true | _ => false end.
Definition isNotFound (e : Usage.UsageLog) : bool :=
  match Usage.foundIt e with Usage.FoundFalse => true | _ => false end.

(** Appending an entry to the array stored under a key, creating the array
    when the key is new (lines 27-30 and 58-61). *)
Definition pushUnder {K} (eqb : K -> K -> bool)
    (groups : list (K * list Usage.UsageLog)) (k : K) (entry : Usage.UsageLog)
  : list (K * list Usage.UsageLog) :=
  let groups := if has eqb groups k then groups else set eqb groups k [] in
  match get eqb groups k with
  | Some es => set eqb groups k (es ++ [entry])
  | None => groups
  end.

Definition groupByIntention (es : list Usage.UsageLog)
  : list (string * list Usage.UsageLog) :=
  fold_left (fun intentionGroups entry =>
    let intention := toLowerCase (intentionOf entry) in
    pushUnder String.eqb intentionGroups intention entry) es [].

Section LocalTime.
(** [new Date(t).getHours()]: the hour of the time value [t] in the time
    zone of the host. *)
Variable getHours : Z -> Z.

Definition isLateNight (entry : Usage.UsageLog) : bool :=
  match Usage.createdAt entry with
  | Some t => let hour := getHours t in (hour >=? 22) || (hour <? 6)
  | None => false
  end.

Definition totalCountOf (groupEntries : list Usage.UsageLog) : nat :=
  length groupEntries.
Definition foundItCountOf (groupEntries : list Usage.UsageLog) : nat :=
  length (filter isFound groupEntries).
Definition notFoundCountOf (groupEntries : list Usage.UsageLog) : nat :=
  length (filter isNotFound groupEntries).
Definition foundItRateOf (groupEntries : list Usage.UsageLog) : Q :=
  (inject_Z (Z.of_nat (foundItCountOf groupEntries))
     / inject_Z (Z.of_nat (totalCountOf groupEntries)))%Q.
Definition avgMinutesOf (groupEntries : list Usage.UsageLog) : Q :=
  (fold_left (fun sum e => sum + orZero (Usage.minutesSpent e)) groupEntries 0
     / inject_Z (Z.of_nat (totalCountOf groupEntries)))%Q.
Definition lateNightCountOf (groupEntries : list Usage.UsageLog) : nat :=
  length (filter isLateNight groupEntries).
Definition repeatedOpensOf (groupEntries : list Usage.UsageLog) : nat :=
  let sameDayEntries :=
    fold_left (fun sameDayEntries entry =>
      pushUnder Z.eqb sameDayEntries (Usage.date entry) entry) groupEntries [] in
  length (filter (fun dayEntries => (1 <? length dayEntries)%nat)
                 (values sameDayEntries)).

(** The body of [intentionGroups.forEach] (lines 34-106): the insights
    array after the group has been analysed. *)
Definition analyzeGroup (insights : list MirrorInsight)
    (groupEntries : list Usage.UsageLog) (intention : string)
  : list MirrorInsight :=
  let totalCount := totalCountOf groupEntries in
  let notFoundCount := notFoundCountOf groupEntries in
  let foundItRate := foundItRateOf groupEntries in
  let avgMinutes := avgMinutesOf groupEntries in
  let lateNightCount := lateNightCountOf groupEntries in
  let repeatedOpens := repeatedOpensOf groupEntries in
  if lt foundItRate (5 # 10) && (3 <=? totalCount)%nat then
    let intentionText := capitalizeFirst intention in
    insights ++ [mkInsight intentionText "not_found" totalCount foundItRate
      (Math_round avgMinutes) lateNightCount repeatedOpens
      ("You opened apps to " ++ toLowerCase intentionText
       ++ ". You didn't find it " ++ showNat notFoundCount ++ " out of "
       ++ showNat totalCount ++ " times. This pattern occurred "
       ++ showNat totalCount ++ " times.")]
  else if gt avgMinutes 60 && lt foundItRate (7 # 10) then
    let intentionText := capitalizeFirst intention in
    insights ++ [mkInsight intentionText "long_session_not_found" totalCount
      foundItRate (Math_round avgMinutes) lateNightCount repeatedOpens
      ("You opened apps to " ++ toLowerCase intentionText
       ++ ". You spent an average of " ++ showZ (Math_round avgMinutes)
       ++ " minutes but only found what you were looking for "
       ++ showZ (Math_round (foundItRate * 100)) ++ "% of the time.")]
  else if (0 <? lateNightCount)%nat
          && gt (inject_Z (Z.of_nat lateNightCount)
                   / inject_Z (Z.of_nat totalCount)) (4 # 10) then
    let intentionText := capitalizeFirst intention in
    insights ++ [mkInsight intentionText "late_night" totalCount foundItRate
      (Math_round avgMinutes) lateNightCount repeatedOpens
      ("You opened apps to " ++ toLowerCase intentionText ++ " "
       ++ showNat lateNightCount
       ++ " times late at night. You closed them feeling "
       ++ (if lt foundItRate (5 # 10) then "more tired" else "unsatisfied")
       ++ ". This pattern occurred " ++ showNat totalCount
       ++ " times this week.")]
  else insights.

Definition analyzeMirrorPatterns (entries : option (list Usage.UsageLog))
  : list MirrorInsight :=
  match entries with
  | None | Some [] => []
  | Some entries =>
    let insights : list MirrorInsight := [] in
    let entriesWithIntention := filter hasIntention entries in
    if (length entriesWithIntention =? 0)%nat then []
    else
      let intentionGroups := groupByIntention entriesWithIntention in
      let insights :=
        fold_left (fun insights group =>
                     analyzeGroup insights (snd group) (fst group))
                  intentionGroups insights in
      sort (fun a b => (count a <? count b)%nat) insights
  end.
End LocalTime.

End Mirror.

(** ** Notions of the specification *)

Module Spec.
Import Usage.

(** The final clamp of a score. *)
Definition clamp (score : Z) : Z := Z.max 0 (Z.min 100 score).

(** [k] holds the greatest accumulator, and among the keys that hold the
    greatest value it is the one declared first. *)
Definition firstMaximum (rt : Regret.RegretTypes) (k : Regret.Key.t) : Prop :=
  (forall k', Regret.prop rt k' <= Regret.prop rt k)
  /\ (forall k', (Regret.Key.index k' < Regret.Key.index k)%nat ->
                 Regret.prop rt k' < Regret.prop rt k).

(** The same with the key declared last. *)
Definition lastMaximum (rt : Regret.RegretTypes) (k : Regret.Key.t) : Prop :=
  (forall k', Regret.prop rt k' <= Regret.prop rt k)
  /\ (forall k', (Regret.Key.index k < Regret.Key.index k')%nat ->
                 Regret.prop rt k' < Regret.prop rt k).

(** The day gap between two dates and the penalty of one gap. *)
Definition dayGap (prev curr : Z) : Z := (curr - prev) / JS.msPerDay.

Definition gapPenalty (g : Z) : Z :=
  if g >? 7 then Z.min 30 ((g - 7) * 5) else 0.

(** The penalties of all consecutive pairs of a list of dates, added up
    without a cap. *)
Fixpoint gapPenalties (dates : list Z) : Z :=
  match dates with
  | [] => 0
  | prev :: rest =>
      match rest with
      | [] => 0
      | curr :: _ => gapPenalty (dayGap prev curr) + gapPenalties rest
      end
  end.

(** The daily totals of a list of logs, in the order of the date map. *)
Definition dailyTotals (logs : list UsageLog) : list Q :=
  JS.values (Analytics.groupByDate logs).

(** The number of distinct calendar days of a list of logs. *)
Definition distinctDays (logs : list UsageLog) : nat :=
  length (nodup Z.eq_dec (map Analytics.dateKey logs)).

(** The risk score as a function of the daily totals. *)
Definition riskOfDailyTotals (dailyTotals : list Q) : Z :=
  let days := length dailyTotals in
  let avgDaily :=
    Analytics.round2
      (JS.sum dailyTotals / inject_Z (Z.max 1 (Z.of_nat days)))%Q in
  clamp (JS.Math_round
    (0 + Analytics.avgDailyPoints avgDaily
     + Analytics.peakPoints (JS.Math_max dailyTotals 0)
     + (inject_Z (Z.of_nat days) / 7) * 20
     + Analytics.trendPoints (Analytics.trendOf dailyTotals))%Q).

(** How many entries log more than 960 minutes. *)
Definition countUnrealistic (entries : list UsageLog) : nat :=
  length (filter (fun e => negb (Qle_bool (minutesSpent e) 960)) entries).

(** The mean of the minutes of the three entries before index [i]. *)
Definition meanOfThreeBefore (sortedEntries : list UsageLog) (i : nat) : Q :=
  ((minutesSpent (Honesty.at_ sortedEntries (i - 3))
    + minutesSpent (Honesty.at_ sortedEntries (i - 2))
    + minutesSpent (Honesty.at_ sortedEntries (i - 1))) / 3)%Q.

(** Ascending by date. *)
Definition byDate (a b : UsageLog) : Prop := date a <= date b.

End Spec.

(** ** Sample inputs *)

Module Sample.
Import Usage.

(** Midnight UTC of day [n]. *)
Definition day (n : Z) : Z := n * JS.msPerDay.

Definition plain (app : string) (minutes : Q) (n : Z) : UsageLog :=
  mkLog app minutes (day n) None None FoundNull.

(** The scenario of the gap penalty: 100 minutes on the days [n], [n + 10]
    and [n + 11]. *)
Definition gapScenario (app : string) (n : Z) : list UsageLog :=
  [plain app 100 n; plain app 100 (n + 10); plain app 100 (n + 11)].

(** 100 minutes on each of the given days. *)
Definition onDays (days : list Z) : list UsageLog :=
  map (plain "app" 100) days.

(** The given minutes on consecutive days, from day 0 on. *)
Definition daily (minutes : list Q) : list UsageLog :=
  map (fun p => plain "app" (snd p) (Z.of_nat (fst p)))
      (combine (seq 0 (length minutes)) minutes).

(** One entry just above the realistic maximum. *)
Definition overlong : UsageLog := plain "app" (96001 # 100) 0.

(** Three sessions opened to relax, none of which found it. *)
Definition relaxed (n : Z) : UsageLog :=
  mkLog "app" 10 (day n) None (Some "relax"%string) FoundFalse.
Definition relax3 : list UsageLog := [relaxed 0; relaxed 1; relaxed 2].

(** Sessions tagged with the same word in different cases, and another. *)
Definition tagged (intention : string) (n : Z) : UsageLog :=
  mkLog "app" 10 (day n) None (Some intention) FoundFalse.
Definition mixedCase : list UsageLog :=
  [tagged "Relax" 0; tagged "work" 1; tagged "relax" 2; tagged "RELAX" 3].

(** A host whose local time is UTC. *)
Definition utcHours (t : Z) : Z := (t / 3600000) mod 24.

(** Sixty minutes on seven consecutive days. *)
Definition sixty : list Q := repeat 60%Q 7.
Definition week60 : list UsageLog := daily sixty.

(** Four days of rising totals. *)
Definition rising : list UsageLog := daily [10; 10; 50; 50]%Q.

(** Nothing that scores: low usage, no late nights, no drift, honest. *)
Definition quiet : Regret.Data := Regret.mkData [] 0 0 0 "stable" 100.

(** Four hours a day and nothing else. *)
Definition heavy : Regret.Data := Regret.mkData [] 240 0 0 "stable" 100.

End Sample.

(** ** The analytics engine: daily and monthly statistics *)

Module Daily.
Import JS Usage.

Record DailyStats := mkDaily {
  totalMinutes : Q;
  averageMinutes : Q;
  appCount : nat;
  apps : list Analytics.App
}.

Definition calculateDailyStats (logs : option (list UsageLog)) : DailyStats :=
  match logs with
  | None | Some [] => mkDaily 0 0 0 []
  | Some logs =>
    let totalMinutes :=
      fold_left (fun sum log => sum + minutesSpent log)%Q logs 0%Q in
    let averageMinutes := (totalMinutes / inject_Z (Z.of_nat (length logs)))%Q in
    let appMap := Analytics.groupByApp logs in
    let apps :=
      sort (fun a b => gt (Analytics.minutes b - Analytics.minutes a) 0)
           (map (fun e => Analytics.mkApp (fst e) (snd e)) appMap) in
    mkDaily (Analytics.round2 totalMinutes) (Analytics.round2 averageMinutes)
            (size appMap) apps
  end.

End Daily.

Module Monthly.
Import JS Usage.

Record MonthlyStats := mkMonthly {
  totalMinutes : Q;
  averageDailyMinutes : Q;
  daysActive : nat
}.

Definition calculateMonthlyStats (logs : option (list UsageLog)) : MonthlyStats :=
  match logs with
  | None | Some [] => mkMonthly 0 0 0
  | Some logs =>
    let dateMap := Analytics.groupByDate logs in
    let dailyTotals := values dateMap in
    let totalMinutes := sum dailyTotals in
    let averageDailyMinutes :=
      (totalMinutes / inject_Z (Z.max 1 (Z.of_nat (size dateMap))))%Q in
    mkMonthly (Analytics.round2 totalMinutes) (Analytics.round2 averageDailyMinutes)
              (size dateMap)
  end.

End Monthly.

(** ** The analytics engine: time series *)

Module Series.
Import JS Usage.

Record Point := mkPoint { date : string; minutes : Q }.

(** [String(n).padStart(2, '0')] *)
Definition padStart2 (s : string) : string :=
  match String.length s with
  | O => "00"%string
  | S O => ("0" ++ s)%string
  | _ => s
  end.

Section Calendar.
(** The calendar of the host: [isoDate t] is
    [new Date(t).toISOString().split('T')[0]]; [getDate], [getDay],
    [getFullYear] and [getMonth] read a time value in local time, and
    [setDate t n] is the time value of a date at [t] after [setDate(n)];
    [localeCompare] compares two keys. *)
Variable isoDate : Z -> string.
Variables getDate getDay getFullYear getMonth : Z -> Z.
Variable setDate : Z -> Z -> Z.
Variable localeCompare : string -> string -> Z.

(** The key of the bucket of a log (lines 245-258). *)
Definition bucketKey (period : string) (log : UsageLog) : string :=
  let date := Usage.date log in
  if String.eqb period "daily" then isoDate date
  else if String.eqb period "weekly" then
    let weekStart := setDate date (getDate date - getDay date + 1) in
    isoDate weekStart
  else
    (Mirror.showZ (getFullYear date) ++ "-"
       ++ padStart2 (Mirror.showZ (getMonth date + 1)))%string.

Definition getTimeSeriesData (logs : option (list UsageLog)) (period : option string)
  : list Point :=
  let period := match period with Some p => p | None => "daily"%string end in
  match logs with
  | None | Some [] => []
  | Some logs =>
    let dateMap :=
      fold_left (fun dateMap log =>
                   Analytics.addMinutes String.eqb dateMap (bucketKey period log)
                                        (minutesSpent log))
                logs [] in
    sort (fun a b => localeCompare (date a) (date b) >? 0)
         (map (fun e => mkPoint (fst e) (Analytics.round2 (snd e))) dateMap)
  end.
End Calendar.

End Series.

(** ** Notions of the statistics *)

Module StatSpec.
Import Usage.

(** All the minutes of a list of logs. *)
Definition allMinutes (logs : list UsageLog) : Q :=
  JS.sum (map minutesSpent logs).

(** The minutes of the logs whose key is [k]. *)
Definition bucketMinutes {K} (eqb : K -> K -> bool) (key : UsageLog -> K)
    (k : K) (logs : list UsageLog) : Q :=
  JS.sum (map minutesSpent (filter (fun log => eqb (key log) k) logs)).

(** The value stored under a key, 0 when the key is absent. *)
Definition valueOr0 {K} (eqb : K -> K -> bool) (m : list (K * Q)) (k : K) : Q :=
  match JS.get eqb m k with Some v => v | None => 0%Q end.

(** Descending by minutes. *)
Definition byMinutesDesc (a b : Analytics.App) : Prop :=
  (Analytics.minutes b <= Analytics.minutes a)%Q.

(** The distinct app names of a list of logs. *)
Definition distinctApps (logs : list UsageLog) : list string :=
  nodup string_dec (map appName logs).

(** The keys of a list, each one at its first occurrence. *)
Fixpoint firstOccurrences {K} (eqb : K -> K -> bool) (l : list K) : list K :=
  match l with
  | [] => []
  | x :: r => x :: filter (fun y => negb (eqb y x)) (firstOccurrences eqb r)
  end.

(** A whole number of minutes within the range of the data model
    ([minutesSpent] between 0 and 1440).  Doubles add such numbers
    without rounding. *)
Definition wholeMinutes (log : UsageLog) : Prop :=
  exists z : Z, 0 <= z <= 1440 /\ (minutesSpent log == inject_Z z)%Q.

End StatSpec.

(** ** The regret list *)

Module Narrative.
Import JS.

(** The statistics handed to the text generators. *)
Record Stats := mkStats {
  dailyAvg : Q;
  totalDays : Z;
  lateNightFrequency : Q;
  intentDriftFrequency : Q;
  repeatedOpens : Q
}.

(** A double quote inside an item. *)
Definition dq : string := String (ascii_of_nat 34) EmptyString.

(** [if (cond) items.push(item)] *)
Definition pushIf (cond : bool) (item : string) (items : list string) : list string :=
  if cond then items ++ [item] else items.

Definition generateRegretList (analysis : Regret.RegretAnalysis) (stats : Stats)
  : list string :=
  let regretTypes := Regret.regretTypes analysis in
  let items : list string := [] in
  let items :=
    pushIf (gt (lateNightFrequency stats) (3 # 10))
           "Late-night scrolling that disrupted your sleep" items in
  let items :=
    pushIf (gt (intentDriftFrequency stats) (4 # 10))
           "Opening apps without a clear purpose" items in
  let items :=
    pushIf (gt (dailyAvg stats) 180)
           "Spending 3+ hours a day on social media" items in
  let items :=
    pushIf (Regret.habitualScrolling regretTypes >? 15)
           "Mindless scrolling on autopilot" items in
  let items :=
    pushIf (Regret.attentionDrain regretTypes >? 15)
           "Fragmented attention from constant app switching" items in
  let items :=
    pushIf (Regret.burnout regretTypes >? 15)
           ("Using apps as a form of " ++ dq ++ "rest" ++ dq
            ++ " that actually exhausted you") items in
  let items :=
    pushIf (gt (repeatedOpens stats) 5)
           "Checking the same apps multiple times per day" items in
  let items :=
    pushIf (length items =? 0)%nat
           "Not being more intentional about your digital habits" items in
  items.

End Narrative.

(** ** The inputs the simulator page derives from the entries *)

Module Simulator.
Import JS Usage.

(** Lines 39-42: the share of the tagged entries that did not find it. *)
Definition intentDriftFrequencyOf (entries : list UsageLog) : Q :=
  let entriesWithIntention := filter Mirror.hasIntention entries in
  if (0 <? length entriesWithIntention)%nat then
    (inject_Z (Z.of_nat (length (filter Mirror.isNotFound entriesWithIntention)))
       / inject_Z (Z.of_nat (length entriesWithIntention)))%Q
  else 0%Q.

Section LocalTime.
Variable getHours : Z -> Z.

(** Lines 46-54: the share of the entries created late at night. *)
Definition lateNightFrequencyOf (entries : list UsageLog) : Q :=
  let lateNightCount := length (filter (Mirror.isLateNight getHours) entries) in
  if (0 <? length entries)%nat then
    (inject_Z (Z.of_nat lateNightCount) / inject_Z (Z.of_nat (length entries)))%Q
  else 0%Q.

(** The dashboard data the page has fetched: the weekly statistics and the
    risk score, either of which may be missing. *)
Record Dashboard := mkDashboard {
  weekly : option Analytics.WeeklyStats;
  riskScore : option Analytics.RiskScore
}.

(** Lines 38-67: the signals the page derives, the argument of
    [analyzeRegretPatterns]. *)
Definition signalsOf (entries : list UsageLog) (dashboardData : Dashboard)
  : Regret.Data :=
  let intentDriftFrequency := intentDriftFrequencyOf entries in
  let lateNightFrequency := lateNightFrequencyOf entries in
  let dailyAvg :=
    match weekly dashboardData with
    | Some w => orZero (Analytics.averageDailyMinutes w)
    | None => 0%Q
    end in
  let riskScoreTrend :=
    match option_map Analytics.trend (weekly dashboardData) with
    | Some Analytics.increasing => "increasing"%string
    | _ =>
        match riskScore dashboardData with
        | Some r =>
            if Analytics.score r >? 60 then "stable_high"%string
            else "stable"%string
        | None => "stable"%string
        end
    end in
  let honestyScore := Honesty.calculateDigitalHonestyScore (Some entries) in
  Regret.mkData entries dailyAvg lateNightFrequency intentDriftFrequency
                riskScoreTrend (inject_Z honestyScore).

(** Lines 35-69: the regret data of the page; [null] without entries or
    without dashboard data. *)
Definition regretDataOf (entries : list UsageLog) (dashboardData : option Dashboard)
  : option Regret.RegretAnalysis :=
  match entries, dashboardData with
  | [], _ | _, None => None
  | _, Some dashboardData =>
    Some (Regret.analyzeRegretPatterns (signalsOf entries dashboardData))
  end.
End LocalTime.

End Simulator.

(** ** Before and after *)

Module BeforeAfter.
Import JS Usage.

Record Metrics := mkMetrics {
  avgDailyMinutes : Q;
  lateNightFrequency : Q;
  riskScore : Z;
  honestyScore : Z;
  totalMinutes : Q;
  daysActive : nat
}.

Module Changes.
Record t := mk {
  dailyUsage : Q;
  lateNightUsage : Q;
  riskScore : Z;
  honestyScore : Z
}.
End Changes.

Record Comparison := mkComparison {
  before : Metrics;
  after : Metrics;
  changes : Changes.t;
  daysCompared : Z
}.

(** [Array.from(dateMap.keys()).sort()]: the keys are calendar-day strings
    of one format, whose order as strings is the order of their time
    values. *)
Definition sortKeys (keys : list Z) : list Z := sort (fun a b => a >? b) keys.

(** The simplified risk score before rounding (lines 113-122). *)
Definition simpleRisk (avgDailyMinutes : Q) (daysActive : nat) : Q :=
  let riskScore : Q :=
    (if ge avgDailyMinutes 360 then 80
     else if ge avgDailyMinutes 240 then 60
     else if ge avgDailyMinutes 120 then 40
     else if ge avgDailyMinutes 60 then 20
     else 10)%Q in
  let consistencyPoints := ((inject_Z (Z.of_nat daysActive) / 7) * 20)%Q in
  Qmin 100 (riskScore + consistencyPoints).

(** The gap loop over the sorted keys (lines 129-136). *)
Definition gapBody (dates : list Z) (honestyScore : Z) (i : nat) : Z :=
  let prevDate := nth (i - 1) dates 0 in
  let currDate := nth i dates 0 in
  let daysDiff := (currDate - prevDate) / msPerDay in
  if daysDiff >? 7 then honestyScore - Z.min 30 ((daysDiff - 7) * 5)
  else honestyScore.

(** The unrealistic-value loop (lines 139-144). *)
Definition unrealisticBody (honestyScore : Z) (entry : UsageLog) : Z :=
  let minutes := orZero (minutesSpent entry) in
  if gt minutes 960 then honestyScore - 10 else honestyScore.

Section LocalTime.
Variable getHours : Z -> Z.

Definition calculateMetrics (entries : list UsageLog) : Metrics :=
  match entries with
  | [] => mkMetrics 0 0 0 100 0 0
  | _ =>
    let dateMap :=
      fold_left (fun dateMap entry =>
                   Mirror.pushUnder Z.eqb dateMap (date entry) entry) entries [] in
    let dailyTotals :=
      map (fun dayEntries =>
             fold_left (fun sum e => sum + orZero (minutesSpent e))%Q dayEntries 0%Q)
          (values dateMap) in
    let totalMinutes := sum dailyTotals in
    let avgDailyMinutes := (totalMinutes / inject_Z (Z.of_nat (size dateMap)))%Q in
    let daysActive := size dateMap in
    let lateNightCount :=
      fold_left (fun count entry =>
                   if Mirror.isLateNight getHours entry then S count else count)
                entries O in
    let lateNightFrequency :=
      if (0 <? length entries)%nat then
        (inject_Z (Z.of_nat lateNightCount) / inject_Z (Z.of_nat (length entries)))%Q
      else 0%Q in
    let riskScore := simpleRisk avgDailyMinutes daysActive in
    let honestyScore := 100 in
    let dates := sortKeys (map fst dateMap) in
    let honestyScore :=
      Honesty.forRange 1 (length dates) (gapBody dates) honestyScore in
    let honestyScore := fold_left unrealisticBody entries honestyScore in
    let honestyScore := Z.max 0 (Z.min 100 honestyScore) in
    mkMetrics (Analytics.round2 avgDailyMinutes) (Analytics.round2 lateNightFrequency)
              (Math_round riskScore) (Math_round (inject_Z honestyScore))
              (Analytics.round2 totalMinutes) daysActive
  end.

Definition calculateBeforeAfter (entries : option (list UsageLog))
    (daysToCompare : option Z) : option Comparison :=
  let daysToCompare := match daysToCompare with Some n => n | None => 7 end in
  match entries with
  | None | Some [] => None
  | Some entries =>
    let sortedEntries := sort (fun a b => date a - date b >? 0) entries in
    let firstDate := date (nth 0 sortedEntries Honesty.noEntry) in
    let firstNDays :=
      filter (fun entry =>
                let daysDiff := (date entry - firstDate) / msPerDay in
                daysDiff <? daysToCompare) sortedEntries in
    let lastDate :=
      date (nth (length sortedEntries - 1) sortedEntries Honesty.noEntry) in
    let lastNDays :=
      filter (fun entry =>
                let daysDiff := (lastDate - date entry) / msPerDay in
                daysDiff <? daysToCompare) sortedEntries in
    if (length firstNDays =? 0)%nat || (length lastNDays =? 0)%nat then None
    else
      let beforeMetrics := calculateMetrics firstNDays in
      let afterMetrics := calculateMetrics lastNDays in
      let changes :=
        Changes.mk
          (avgDailyMinutes afterMetrics - avgDailyMinutes beforeMetrics)%Q
          (lateNightFrequency afterMetrics - lateNightFrequency beforeMetrics)%Q
          (riskScore afterMetrics - riskScore beforeMetrics)
          (honestyScore afterMetrics - honestyScore beforeMetrics) in
      Some (mkComparison beforeMetrics afterMetrics changes daysToCompare)
  end.
End LocalTime.

End BeforeAfter.

(** ** Notions of the regret analysis and of the mirror *)

Module RegretSpec.

(** The points a factor adds to the regret score. *)
Definition pointsOf (factor : Regret.State -> Regret.State) : Z :=
  fst (factor (0, Regret.mkTypes 0 0 0)).

(** The generic item of the regret list. *)
Definition genericItem : string :=
  "Not being more intentional about your digital habits".

(** One of the seven conditions of the regret list holds. *)
Definition someTrigger (analysis : Regret.RegretAnalysis) (stats : Narrative.Stats)
  : bool :=
  JS.gt (Narrative.lateNightFrequency stats) (3 # 10)
  || JS.gt (Narrative.intentDriftFrequency stats) (4 # 10)
  || JS.gt (Narrative.dailyAvg stats) 180
  || (Regret.habitualScrolling (Regret.regretTypes analysis) >? 15)
  || (Regret.attentionDrain (Regret.regretTypes analysis) >? 15)
  || (Regret.burnout (Regret.regretTypes analysis) >? 15)
  || JS.gt (Narrative.repeatedOpens stats) 5.

End RegretSpec.

Module MirrorSpec.
Import Usage.

(** Descending by count. *)
Definition byCountDesc (a b : Mirror.MirrorInsight) : Prop :=
  (Mirror.count b <= Mirror.count a)%nat.

(** What the fields of an insight say about its group. *)
Definition justified (i : Mirror.MirrorInsight) : Prop :=
  (1 <= Mirror.count i)%nat
  /\ (0 <= Mirror.foundItRate i <= 1)%Q
  /\ (Mirror.lateNightCount i <= Mirror.count i)%nat
  /\ ((Mirror.pattern i = "not_found"%string
       /\ (Mirror.foundItRate i < 5 # 10)%Q /\ (3 <= Mirror.count i)%nat)
      \/ (Mirror.pattern i = "long_session_not_found"%string
          /\ (Mirror.foundItRate i < 7 # 10)%Q /\ 60 <= Mirror.avgMinutes i)
      \/ (Mirror.pattern i = "late_night"%string
          /\ (1 <= Mirror.lateNightCount i)%nat
          /\ (4 # 10 < inject_Z (Z.of_nat (Mirror.lateNightCount i))
                       / inject_Z (Z.of_nat (Mirror.count i)))%Q)).

(** The groups hold the entries [es] under their keys: no key twice, no
    empty group, every entry under its own key, and nothing lost or added. *)
Definition grouped {K} (key : UsageLog -> K)
    (groups : list (K * list UsageLog)) (es : list UsageLog) : Prop :=
  NoDup (map fst groups)
  /\ (forall k ge, In (k, ge) groups -> ge <> [] /\ forall e, In e ge -> key e = k)
  /\ Permutation (concat (map snd groups)) es.

(** The key of the group of a tagged entry. *)
Definition groupKey (e : UsageLog) : string :=
  Mirror.toLowerCase (Mirror.intentionOf e).

(** ASCII text: every character is below 128. *)
Definition asciiChar (c : ascii) : bool := (N_of_ascii c <? 128)%N.

Fixpoint asciiOnly (s : string) : bool :=
  match s with
  | EmptyString => true
  | String c r => asciiChar c && asciiOnly r
  end.

(** A capital letter, [A] to [Z]. *)
Definition isCapital (c : ascii) : bool :=
  ((65 <=? N_of_ascii c) && (N_of_ascii c <=? 90))%N.

(** The same letter whatever its case: the same character, or a capital
    letter and its small letter, which comes 32 characters later. *)
Definition sameLetter (c d : ascii) : bool :=
  Ascii.eqb c d
  || (isCapital c && (N_of_ascii d =? N_of_ascii c + 32)%N)
  || (isCapital d && (N_of_ascii c =? N_of_ascii d + 32)%N).

(** Two texts that differ at most in the case of their letters. *)
Fixpoint sameIgnoringCase (s t : string) : bool :=
  match s, t with
  | EmptyString, EmptyString => true
  | String c s', String d t' => sameLetter c d && sameIgnoringCase s' t'
  | _, _ => false
  end.

(** A text without capital letters. *)
Fixpoint noCapital (s : string) : bool :=
  match s with
  | EmptyString => true
  | String c r => negb (isCapital c) && noCapital r
  end.

(** The intention of every entry is ASCII text. *)
Definition asciiIntentions (es : list UsageLog) : Prop :=
  Forall (fun e => asciiOnly (Mirror.intentionOf e) = true) es.

End MirrorSpec.

Module CompareSpec.

(** The ranges of the metrics of a window that is not empty. *)
Definition inRange (m : BeforeAfter.Metrics) : Prop :=
  13 <= BeforeAfter.riskScore m <= 100
  /\ 0 <= BeforeAfter.honestyScore m <= 100
  /\ (0 <= BeforeAfter.lateNightFrequency m <= 1)%Q
  /\ (1 <= BeforeAfter.daysActive m)%nat.

End CompareSpec.

(** ** Numbers in double precision *)

Module Double.
Import PrimFloat.

(** A JavaScript number as it is: a binary64 float.  The operators [+],
    [*], [/], [>] and [<] are those of IEEE 754, and a decimal literal
    stands for the nearest float. *)

(** [x > y] and [x < y]. *)
Definition gt (x y : float) : bool := ltb y x.
Definition lt (x y : float) : bool := ltb x y.

(** [x || 0]: the falsy numbers are the two zeros and [NaN]. *)
Definition orZero (x : float) : float :=
  if eqb x 0%float || is_nan x then 0%float else x.

(** [xs.reduce((a, b) => a + b, 0)]. *)
Definition sum (xs : list float) : float := fold_left add xs 0%float.

(** The length of an array, or one of its indices, as a number. *)
Definition ofNat (n : nat) : float := of_uint63 (Uint63.of_Z (Z.of_nat n)).

End Double.

(** ** The weekly trend in double precision *)

Module WeeklyTrend.
Import JS PrimFloat.
#[local] Set Warnings "-inexact-float".

(** The fields of a usage log that the weekly trend reads. *)
Record UsageLog := mkLog {
  minutesSpent : float;
  date : Z
}.

(** The days in use and the trend of the weekly statistics, the two
    fields that are not rounded to two decimals. *)
Record WeeklyStats := mkWeekly {
  daysActive : nat;
  trend : Analytics.Trend
}.

(** [log.date.toISOString().split('T')[0]] *)
Definition dateKey (log : UsageLog) : Z := date log / msPerDay.

(** Lines 67-71: the body of the loop that groups the minutes by date. *)
Definition dateStep (dateMap : list (Z * float)) (log : UsageLog)
  : list (Z * float) :=
  let dateKey := dateKey log in
  let existing :=
    match get Z.eqb dateMap dateKey with
    | Some v => Double.orZero v
    | None => 0%float
    end in
  set Z.eqb dateMap dateKey (existing + minutesSpent log)%float.

Definition groupByDate (logs : list UsageLog) : list (Z * float) :=
  fold_left dateStep logs [].

(** Lines 79-87: the trend of the daily totals. *)
Definition trendOf (dailyTotals : list float) : Analytics.Trend :=
  if (4 <=? length dailyTotals)%nat then
    let midpoint := (length dailyTotals / 2)%nat in
    let firstHalf :=
      (Double.sum (slice dailyTotals 0 midpoint) / Double.ofNat midpoint)%float in
    let secondHalf :=
      (Double.sum (sliceFrom dailyTotals midpoint)
         / Double.ofNat (length dailyTotals - midpoint))%float in
    if Double.gt secondHalf (firstHalf * 1.1)%float then Analytics.increasing
    else if Double.lt secondHalf (firstHalf * 0.9)%float then Analytics.decreasing
    else Analytics.stable
  else Analytics.stable.

(** Lines 54-107, without the rounded totals and the apps. *)
Definition calculateWeeklyStats (logs : option (list UsageLog)) : WeeklyStats :=
  match logs with
  | None | Some [] => mkWeekly 0 Analytics.stable
  | Some logs =>
    let dateMap := groupByDate logs in
    let dailyTotals := values dateMap in
    let daysActive := size dateMap in
    let trend := trendOf dailyTotals in
    mkWeekly daysActive trend
  end.

End WeeklyTrend.

(** ** Notions of the weekly trend *)

Module TrendSpec.
Import PrimFloat.

(** The UTC day of a log: the number of whole days of 86400000
    milliseconds since the epoch. *)
Definition utcDay (log : WeeklyTrend.UsageLog) : Z :=
  WeeklyTrend.date log / 86400000.

(** The distinct days of a list of logs, in the order in which they first
    occur, and their number. *)
Definition days (logs : list WeeklyTrend.UsageLog) : list Z :=
  StatSpec.firstOccurrences Z.eqb (map utcDay logs).

Definition distinctDays (logs : list WeeklyTrend.UsageLog) : nat :=
  length (nodup Z.eq_dec (map utcDay logs)).

(** The total of a day: its minutes added up in the order of the logs.
    A total that has become [NaN] starts again from 0. *)
Definition dayTotal (logs : list WeeklyTrend.UsageLog) (d : Z) : float :=
  fold_left (fun total minutes => (Double.orZero total + minutes)%float)
            (map WeeklyTrend.minutesSpent
                 (filter (fun log => utcDay log =? d) logs))
            0%float.

(** The daily totals of the weekly statistics. *)
Definition dailyTotals (logs : list WeeklyTrend.UsageLog) : list float :=
  JS.values (WeeklyTrend.groupByDate logs).

(** The mean of a list of numbers. *)
Definition mean (xs : list float) : float :=
  (Double.sum xs / Double.ofNat (length xs))%float.

(** The two halves of the daily totals, split at [floor(n / 2)]. *)
Definition firstHalf (dailyTotals : list float) : list float :=
  firstn (length dailyTotals / 2) dailyTotals.
Definition secondHalf (dailyTotals : list float) : list float :=
  skipn (length dailyTotals / 2) dailyTotals.

End TrendSpec.

Module TrendSample.
Import PrimFloat.

(** The given minutes on consecutive days, from day 0 on. *)
Definition daily (minutes : list float) : list WeeklyTrend.UsageLog :=
  map (fun p => WeeklyTrend.mkLog (snd p) (Z.of_nat (fst p) * JS.msPerDay))
      (combine (seq 0 (length minutes)) minutes).

Definition rising : list WeeklyTrend.UsageLog := daily [10; 10; 50; 50]%float.
Definition falling : list WeeklyTrend.UsageLog := daily [50; 50; 10; 10]%float.
Definition level : list WeeklyTrend.UsageLog := daily [30; 30; 30; 30]%float.

(** A week whose second half has a mean of 30 and whose first half has a
    mean of a third of 100. *)
Definition nearTie : list WeeklyTrend.UsageLog :=
  daily [30; 30; 40; 30; 30; 30; 30]%float.

End TrendSample.

(** * Properties *)

Import Usage.

(** ** Numbers *)

Lemma Math_round_integer (z : Z) : JS.Math_round (inject_Z z) = z.
Proof.
  unfold JS.Math_round.
  assert (H : (inject_Z z <= inject_Z z + (1 # 2) < inject_Z (z + 1))%Q).
  { rewrite inject_Z_plus. change (inject_Z 1) with 1%Q. split; lra. }
  destruct H as [Hlo Hhi].
  apply Qfloor_resp_le in Hlo. rewrite Qfloor_Z in Hlo.
  assert (Hup : Qfloor (inject_Z z + (1 # 2)) < z + 1).
  { rewrite Zlt_Qlt. eapply Qle_lt_trans; [apply Qfloor_le | exact Hhi]. }
  lia.
Qed.

Lemma clamp_range (z : Z) : 0 <= Z.max 0 (Z.min 100 z) <= 100.
Proof. lia. Qed.

Lemma gt_true (x y : Q) : JS.gt x y = true <-> (y < x)%Q.
Proof.
  unfold JS.gt. rewrite negb_true_iff, <- not_true_iff_false, Qle_bool_iff.
  split; [apply Qnot_le_lt | apply Qlt_not_le].
Qed.

Lemma lt_true (x y : Q) : JS.lt x y = true <-> (x < y)%Q.
Proof.
  unfold JS.lt. rewrite negb_true_iff, <- not_true_iff_false, Qle_bool_iff.
  split; [apply Qnot_le_lt | apply Qlt_not_le].
Qed.

Lemma orZero_eq (x : Q) : (JS.orZero x == x)%Q.
Proof.
  unfold JS.orZero. destruct (Qeq_bool x 0) eqn:E; [| reflexivity].
  apply Qeq_bool_iff in E. symmetry. exact E.
Qed.

(** ** Risk score, honesty score and regret score stay in range *)

Lemma riskScore_range (w m : option (list UsageLog)) :
  0 <= Analytics.score (Analytics.calculateRiskScore w m) <= 100.
Proof.
  unfold Analytics.calculateRiskScore.
  destruct w as [[| r logs] |]; cbn [Analytics.score]; try lia.
  set (z := Z.max 0 (Z.min 100 _)).
  assert (Hz : 0 <= z <= 100) by (subst z; apply clamp_range).
  clearbody z.
  destruct (z >=? 70); [| destruct (z >=? 40)]; cbn [Analytics.score]; exact Hz.
Qed.

Lemma honestyScore_range (entries : option (list UsageLog)) :
  0 <= Honesty.calculateDigitalHonestyScore entries <= 100.
Proof.
  unfold Honesty.calculateDigitalHonestyScore.
  destruct entries as [[| e [| e' es]] |]; lia.
Qed.

Lemma regretScore_range (data : Regret.Data) :
  0 <= Regret.regretScore (Regret.analyzeRegretPatterns data) <= 100.
Proof.
  unfold Regret.analyzeRegretPatterns.
  destruct (Regret.factorHonesty _ _) as [regretScore regretTypes].
  cbn [Regret.regretScore]. lia.
Qed.

(** C1. For every input, the risk score, the honesty score and the regret
    score are integers between 0 and 100. *)
Theorem scores_between_0_and_100 :
  (forall weeklyLogs monthlyLogs,
      0 <= Analytics.score (Analytics.calculateRiskScore weeklyLogs monthlyLogs) <= 100)
  /\ (forall entries, 0 <= Honesty.calculateDigitalHonestyScore entries <= 100)
  /\ (forall data, 0 <= Regret.regretScore (Regret.analyzeRegretPatterns data) <= 100).
Proof.
  split; [exact riskScore_range |].
  split; [exact honestyScore_range | exact regretScore_range].
Qed.

(** ** The risk score of an empty week, and the unused monthly logs *)

(** C3. With the weekly logs empty or absent, the risk score is
    [{score: 0, category: 'Low', level: 'low'}] whatever the monthly logs
    are; the function returns, it has no failing path there. *)
Theorem riskScore_empty_week :
  forall monthlyLogs,
    Analytics.calculateRiskScore None monthlyLogs = Analytics.mkRisk 0 "Low" "low"
    /\ Analytics.calculateRiskScore (Some []) monthlyLogs
       = Analytics.mkRisk 0 "Low" "low".
Proof. intros monthlyLogs. split; reflexivity. Qed.

(** C9. The risk score is a function of the weekly logs alone. *)
Theorem riskScore_ignores_monthly :
  forall weeklyLogs monthlyLogs1 monthlyLogs2,
    Analytics.calculateRiskScore weeklyLogs monthlyLogs1
    = Analytics.calculateRiskScore weeklyLogs monthlyLogs2.
Proof. intros w m1 m2. unfold Analytics.calculateRiskScore. reflexivity. Qed.

(** ** The dominant regret type *)

Lemma reduce_pick_lastMaximum (rt : Regret.RegretTypes) :
  Spec.lastMaximum rt (Regret.reduce (Regret.pick rt) (Regret.Object_keys rt)).
Proof.
  unfold Regret.reduce, Regret.Object_keys, Regret.pick. cbn [fst snd fold_left].
  unfold Spec.lastMaximum.
  destruct rt as [a b h]. cbn [Regret.prop Regret.attentionDrain Regret.burnout
                                Regret.habitualScrolling].
  destruct (a >? b) eqn:Eab; cbn [Regret.prop Regret.attentionDrain Regret.burnout
                                   Regret.habitualScrolling].
  - destruct (a >? h) eqn:Eah; split; intros [| |]; cbn; lia.
  - destruct (b >? h) eqn:Ebh; split; intros [| |]; cbn; lia.
Qed.

(** C2, as the code has it.  The dominant type holds the greatest
    accumulator; when several accumulators hold the greatest value the key
    declared last among them is returned, so every accumulator declared
    after the dominant one is strictly smaller.  With the three accumulators
    equal the dominant type is [habitualScrolling]. *)
Theorem dominantType_last_maximum :
  forall data,
    let r := Regret.analyzeRegretPatterns data in
    Spec.lastMaximum (Regret.regretTypes r) (Regret.dominantType r)
    /\ (Regret.attentionDrain (Regret.regretTypes r) = Regret.burnout (Regret.regretTypes r) ->
        Regret.burnout (Regret.regretTypes r) = Regret.habitualScrolling (Regret.regretTypes r) ->
        Regret.dominantType r = Regret.Key.habitualScrolling).
Proof.
  intros data r. subst r. unfold Regret.analyzeRegretPatterns.
  destruct (Regret.factorHonesty _ _) as [regretScore rt].
  cbn [Regret.regretTypes Regret.dominantType].
  split; [apply reduce_pick_lastMaximum |].
  intros Hab Hbh.
  unfold Regret.reduce, Regret.Object_keys, Regret.pick. cbn [fst snd fold_left].
  destruct rt as [a b h]. cbn in *. subst.
  assert (E : (h >? h) = false) by (rewrite Z.gtb_ltb; apply Z.ltb_irrefl).
  rewrite E. cbn [Regret.prop Regret.burnout]. rewrite E. reflexivity.
Qed.

(** The accumulators of [Sample.heavy] are 20, 10 and 0: burnout, declared
    after the dominant [attentionDrain], is strictly smaller. *)
Lemma dominantType_last_maximum_witness :
  let r := Regret.analyzeRegretPatterns Sample.heavy in
  Regret.dominantType r = Regret.Key.attentionDrain
  /\ Regret.prop (Regret.regretTypes r) Regret.Key.burnout
     < Regret.prop (Regret.regretTypes r) (Regret.dominantType r).
Proof.
  split; [reflexivity |].
  apply (proj1 (dominantType_last_maximum Sample.heavy)).
  vm_compute. lia.
Defined.

(** C2, as the specification states it, fails where the accumulators tie:
    for [Sample.quiet] all three are 0 and the dominant type is
    [habitualScrolling], not the first-declared [attentionDrain]. *)
Lemma dominantType_first_maximum_counterexample :
  let r := Regret.analyzeRegretPatterns Sample.quiet in
  Regret.regretTypes r = Regret.mkTypes 0 0 0
  /\ Regret.dominantType r = Regret.Key.habitualScrolling
  /\ Regret.dominantType r <> Regret.Key.attentionDrain
  /\ ~ Spec.firstMaximum (Regret.regretTypes r) (Regret.dominantType r).
Proof.
  split; [reflexivity |]. split; [reflexivity |]. split; [discriminate |].
  intros [_ Hfirst].
  specialize (Hfirst Regret.Key.attentionDrain).
  vm_compute in Hfirst.
  assert (H : (0 < 2)%nat) by lia.
  specialize (Hfirst H). discriminate Hfirst.
Qed.

(** ** The honesty score: sorting *)

Section SortFacts.
Context {A : Type} (after : A -> A -> bool).

Lemma insert_perm (x : A) (l : list A) : Permutation (x :: l) (JS.insert after x l).
Proof.
  induction l as [| y r IH]; cbn; [reflexivity |].
  destruct (after x y); [| reflexivity].
  rewrite perm_swap. apply perm_skip, IH.
Qed.

Lemma sort_perm (l : list A) : Permutation l (JS.sort after l).
Proof.
  induction l as [| x r IH]; cbn; [constructor |].
  rewrite <- insert_perm. apply perm_skip, IH.
Qed.

Lemma sort_length (l : list A) : length (JS.sort after l) = length l.
Proof. symmetry. apply Permutation_length, sort_perm. Qed.
End SortFacts.

Lemma insert_byDate (x : UsageLog) (l : list UsageLog) :
  Sorted Spec.byDate l ->
  Sorted Spec.byDate (JS.insert (fun a b => date a - date b >? 0) x l).
Proof.
  induction 1 as [| y r Hr IH Hhd]; cbn.
  - repeat constructor.
  - destruct (date x - date y >? 0) eqn:E.
    + constructor; [exact IH |].
      destruct r as [| z r]; cbn.
      * constructor. unfold Spec.byDate. lia.
      * destruct (date x - date z >? 0); constructor.
        -- inversion Hhd; assumption.
        -- unfold Spec.byDate. lia.
    + constructor; [constructor; assumption |].
      constructor. unfold Spec.byDate. lia.
Qed.

Lemma sortByDate_sorted (entries : list UsageLog) :
  Sorted Spec.byDate (Honesty.sortByDate entries).
Proof.
  unfold Honesty.sortByDate, JS.sort.
  induction entries as [| e es IH]; cbn; [constructor |].
  apply insert_byDate, IH.
Qed.

Lemma sortByDate_perm (entries : list UsageLog) :
  Permutation entries (Honesty.sortByDate entries).
Proof. apply sort_perm. Qed.

(** ** The honesty score: the gap penalty *)

Lemma gapBody_at (pre : list UsageLog) (a b : UsageLog) (rest : list UsageLog) (score : Z) :
  Honesty.gapBody (pre ++ a :: b :: rest) score (S (length pre))
  = score - Spec.gapPenalty (Spec.dayGap (date a) (date b)).
Proof.
  unfold Honesty.gapBody, Honesty.at_, Spec.gapPenalty, Spec.dayGap, Honesty.maxGapDays.
  replace (S (length pre) - 1)%nat with (length pre) by lia.
  rewrite nth_middle.
  replace (pre ++ a :: b :: rest) with ((pre ++ [a]) ++ b :: rest)
    by (rewrite <- app_assoc; reflexivity).
  replace (S (length pre)) with (length (pre ++ [a]))
    by (rewrite length_app; cbn; lia).
  rewrite nth_middle.
  destruct ((date b - date a) / JS.msPerDay >? 7); lia.
Qed.

Lemma gapLoop_from (rest : list UsageLog) :
  forall (pre : list UsageLog) (a : UsageLog) (score : Z),
    fold_left (Honesty.gapBody (pre ++ a :: rest))
              (seq (S (length pre)) (length rest)) score
    = score - Spec.gapPenalties (map date (a :: rest)).
Proof.
  induction rest as [| b rest IH]; intros pre a score.
  - cbn. lia.
  - cbn [length seq fold_left]. rewrite gapBody_at.
    specialize (IH (pre ++ [a]) b
                   (score - Spec.gapPenalty (Spec.dayGap (date a) (date b)))).
    rewrite <- app_assoc in IH. cbn [app] in IH.
    rewrite length_app in IH. cbn [length] in IH.
    rewrite Nat.add_1_r in IH. rewrite IH.
    change (map date (a :: b :: rest)) with (date a :: map date (b :: rest)).
    cbn [Spec.gapPenalties map]. lia.
Qed.

Lemma gapLoop_sum (sortedEntries : list UsageLog) (score : Z) :
  Honesty.gapLoop sortedEntries score
  = score - Spec.gapPenalties (map date sortedEntries).
Proof.
  unfold Honesty.gapLoop, Honesty.forRange.
  destruct sortedEntries as [| a rest]; [cbn; lia |].
  cbn [length]. replace (S (length rest) - 1)%nat with (length rest) by lia.
  apply (gapLoop_from rest [] a score).
Qed.

Lemma honestyScore_unfold (e1 e2 : UsageLog) (es : list UsageLog) :
  Honesty.calculateDigitalHonestyScore (Some (e1 :: e2 :: es))
  = let sortedEntries := Honesty.sortByDate (e1 :: e2 :: es) in
    Spec.clamp
      (Honesty.spikeLoop sortedEntries
         (Honesty.unrealisticLoop sortedEntries
            (100 - Spec.gapPenalties (map date sortedEntries)))).
Proof.
  unfold Honesty.calculateDigitalHonestyScore. cbv zeta.
  rewrite Math_round_integer, gapLoop_sum. reflexivity.
Qed.

Lemma day_after (a b : Z) :
  (Sample.day a - Sample.day b >? 0) = (a >? b).
Proof.
  unfold Sample.day. rewrite <- Z.mul_sub_distr_r.
  change JS.msPerDay with 86400000.
  destruct (a >? b) eqn:E.
  - apply Z.gtb_lt in E. apply Z.gtb_lt. lia.
  - rewrite Z.gtb_ltb in *. apply Z.ltb_ge in E. apply Z.ltb_ge. lia.
Qed.

Lemma day_gap (a b : Z) : Spec.dayGap (Sample.day a) (Sample.day b) = b - a.
Proof.
  unfold Spec.dayGap, Sample.day. rewrite <- Z.mul_sub_distr_r.
  apply Z.div_mul. discriminate.
Qed.

Ltac decide_gtb :=
  repeat match goal with
  | |- context [ (?a >? ?b) ] =>
      first
        [ replace (a >? b) with false
            by (symmetry; rewrite Z.gtb_ltb; apply Z.ltb_ge; lia)
        | replace (a >? b) with true by (symmetry; apply Z.gtb_lt; lia) ]
  end.

Lemma gapScenario_score (app : string) (n : Z) :
  Honesty.calculateDigitalHonestyScore (Some (Sample.gapScenario app n)) = 85.
Proof.
  unfold Sample.gapScenario. rewrite honestyScore_unfold. cbv zeta.
  unfold Honesty.sortByDate, JS.sort.
  cbn [fold_right JS.insert Sample.plain date].
  rewrite !day_after. decide_gtb.
  cbn [fold_right JS.insert Sample.plain date].
  rewrite !day_after. decide_gtb.
  cbn [map date Sample.plain Spec.gapPenalties]. rewrite !day_gap.
  replace (n + 10 - n) with 10 by lia.
  replace (n + 11 - (n + 10)) with 1 by lia.
  vm_compute. reflexivity.
Qed.

(** C4. The entries are sorted by date ascending; the gap loop subtracts,
    for every consecutive pair whose day gap [g] exceeds 7, the penalty
    [min(30, (g - 7) * 5)], each occurrence counted with no cap across the
    gaps, and the sum is only clamped at the end.  Records of 100 minutes on
    the days 0, 10 and 11 score 85; two gaps of 20 days lose 30 twice. *)
Theorem gap_penalty_per_occurrence :
  (forall entries,
      Sorted Spec.byDate (Honesty.sortByDate entries)
      /\ Permutation entries (Honesty.sortByDate entries))
  /\ (forall sortedEntries score,
         Honesty.gapLoop sortedEntries score
         = score - Spec.gapPenalties (map date sortedEntries))
  /\ (forall e1 e2 es,
         Honesty.calculateDigitalHonestyScore (Some (e1 :: e2 :: es))
         = let sortedEntries := Honesty.sortByDate (e1 :: e2 :: es) in
           Spec.clamp
             (Honesty.spikeLoop sortedEntries
                (Honesty.unrealisticLoop sortedEntries
                   (100 - Spec.gapPenalties (map date sortedEntries)))))
  /\ (forall app n,
         Honesty.calculateDigitalHonestyScore (Some (Sample.gapScenario app n)) = 85)
  /\ (forall g, 13 <= g -> Spec.gapPenalty g = 30)
  /\ Honesty.calculateDigitalHonestyScore (Some (Sample.onDays [0; 20; 40])) = 40
  /\ Honesty.gapLoop (Sample.onDays [0; 20; 40; 60; 80]) 100 = -20.
Proof.
  split; [intros entries; split; [apply sortByDate_sorted | apply sortByDate_perm] |].
  split; [exact gapLoop_sum |].
  split; [exact honestyScore_unfold |].
  split; [exact gapScenario_score |].
  split.
  { intros g Hg. unfold Spec.gapPenalty.
    replace (g >? 7) with true by (symmetry; apply Z.gtb_lt; lia). lia. }
  split; vm_compute; reflexivity.
Qed.

Lemma gap_penalty_per_occurrence_witness :
  Spec.gapPenalty 20 = 30
  /\ Honesty.gapLoop (Sample.onDays [0; 20; 40]) 100
     = 100 - (Spec.gapPenalty 20 + Spec.gapPenalty 20).
Proof.
  split.
  - apply (proj1 (proj2 (proj2 (proj2 (proj2 gap_penalty_per_occurrence))))). lia.
  - rewrite (proj1 (proj2 gap_penalty_per_occurrence)). reflexivity.
Defined.

(** ** The honesty score: the unrealistic-entry penalty *)

Lemma gt_orZero (x y : Q) : JS.gt (JS.orZero x) y = JS.gt x y.
Proof. unfold JS.gt. rewrite (orZero_eq x). reflexivity. Qed.

Lemma unrealisticBody_spec (score : Z) (e : UsageLog) :
  Honesty.unrealisticBody score e
  = if negb (Qle_bool (minutesSpent e) 960) then score - 10 else score.
Proof.
  unfold Honesty.unrealisticBody, Honesty.minutesOf, Honesty.maxRealisticMinutes.
  rewrite gt_orZero. reflexivity.
Qed.

Lemma unrealisticLoop_count (es : list UsageLog) :
  forall score,
    Honesty.unrealisticLoop es score
    = score - 10 * Z.of_nat (Spec.countUnrealistic es).
Proof.
  unfold Honesty.unrealisticLoop, Spec.countUnrealistic.
  induction es as [| e es IH]; intros score; cbn [fold_left filter length].
  - lia.
  - rewrite IH, unrealisticBody_spec.
    destruct (negb (Qle_bool (minutesSpent e) 960)); cbn [length]; lia.
Qed.

Lemma filter_length_perm {A} (f : A -> bool) (l l' : list A) :
  Permutation l l' -> length (filter f l) = length (filter f l').
Proof.
  induction 1 as [| x l l' _ IH | x y l | l l' l'' _ IH1 _ IH2]; cbn.
  - reflexivity.
  - destruct (f x); cbn; congruence.
  - destruct (f x), (f y); reflexivity.
  - congruence.
Qed.

Lemma countUnrealistic_sorted (entries : list UsageLog) :
  Spec.countUnrealistic (Honesty.sortByDate entries) = Spec.countUnrealistic entries.
Proof.
  unfold Spec.countUnrealistic. symmetry.
  apply filter_length_perm, sortByDate_perm.
Qed.

(** C8. An entry with more than 960 minutes costs 10 points and an entry
    with 960 minutes or less costs nothing; the loop charges every such
    entry, with no cap on their number.  Two entries of 960 minutes score
    100, two entries of 960.01 minutes score 80, and five entries of 961
    minutes score 50. *)
Theorem unrealistic_penalty_per_record :
  (forall score e, (960 < minutesSpent e)%Q ->
                   Honesty.unrealisticBody score e = score - 10)
  /\ (forall score e, (minutesSpent e <= 960)%Q ->
                      Honesty.unrealisticBody score e = score)
  /\ (forall entries score,
         Honesty.unrealisticLoop (Honesty.sortByDate entries) score
         = score - 10 * Z.of_nat (Spec.countUnrealistic entries))
  /\ Honesty.calculateDigitalHonestyScore (Some (Sample.daily [960; 960]%Q)) = 100
  /\ Honesty.calculateDigitalHonestyScore
       (Some (Sample.daily [96001 # 100; 96001 # 100]%Q)) = 80
  /\ Honesty.calculateDigitalHonestyScore (Some (Sample.daily [960; 96001 # 100]%Q)) = 90
  /\ Honesty.calculateDigitalHonestyScore
       (Some (Sample.daily [961; 961; 961; 961; 961]%Q)) = 50.
Proof.
  split.
  { intros score e H. rewrite unrealisticBody_spec.
    destruct (Qle_bool (minutesSpent e) 960) eqn:E; [| reflexivity].
    apply Qle_bool_iff in E. exfalso. apply (Qlt_not_le _ _ H E). }
  split.
  { intros score e H. rewrite unrealisticBody_spec.
    apply Qle_bool_iff in H. rewrite H. reflexivity. }
  split.
  { intros entries score.
    rewrite unrealisticLoop_count, countUnrealistic_sorted. reflexivity. }
  repeat split; vm_compute; reflexivity.
Qed.

Lemma unrealistic_penalty_per_record_witness :
  (960 < minutesSpent Sample.overlong)%Q
  /\ Honesty.unrealisticBody 100 Sample.overlong = 90.
Proof.
  assert (H : (960 < minutesSpent Sample.overlong)%Q) by reflexivity.
  split; [exact H |].
  exact (proj1 unrealistic_penalty_per_record 100 Sample.overlong H).
Defined.

(** ** The honesty score: the spike penalty *)

Lemma skipn_nth {A} (d : A) (l : list A) :
  forall k, (k < length l)%nat -> skipn k l = nth k l d :: skipn (S k) l.
Proof.
  induction l as [| x l IH]; intros k Hk; cbn in Hk; [lia |].
  destruct k as [| k]; [reflexivity |].
  cbn [skipn nth]. apply IH. lia.
Qed.

Lemma slice_three (l : list UsageLog) (i : nat) :
  (3 <= i <= length l)%nat ->
  JS.slice l (i - 3) i
  = [Honesty.at_ l (i - 3); Honesty.at_ l (i - 2); Honesty.at_ l (i - 1)].
Proof.
  intros Hi. unfold JS.slice, Honesty.at_.
  replace (i - (i - 3))%nat with 3%nat by lia.
  rewrite (skipn_nth Honesty.noEntry) by lia.
  replace (S (i - 3)) with (i - 2)%nat by lia.
  rewrite (skipn_nth Honesty.noEntry) by lia.
  replace (S (i - 2)) with (i - 1)%nat by lia.
  rewrite (skipn_nth Honesty.noEntry) by lia.
  reflexivity.
Qed.

Lemma recentAvgAt_mean (l : list UsageLog) (i : nat) :
  (3 <= i <= length l)%nat ->
  (Honesty.recentAvgAt l i == Spec.meanOfThreeBefore l i)%Q.
Proof.
  intros Hi. unfold Honesty.recentAvgAt, Spec.meanOfThreeBefore.
  rewrite slice_three by exact Hi.
  cbn [fold_left length]. unfold Honesty.minutesOf.
  rewrite !orZero_eq.
  change (inject_Z (Z.of_nat 3)) with 3%Q. field.
Qed.

Lemma gt_zero_false (x : Q) : (x == 0)%Q -> JS.gt x 0 = false.
Proof.
  intros H. destruct (JS.gt x 0) eqn:E; [| reflexivity].
  apply gt_true in E. rewrite H in E. discriminate E.
Qed.

Lemma spikeBodyLong_cases (l : list UsageLog) (score : Z) (i : nat) :
  (Honesty.spikeBodyLong l score i = score - 5
   /\ (0 < Honesty.recentAvgAt l i)%Q
   /\ (Honesty.recentAvgAt l i * 3 < minutesSpent (Honesty.at_ l i))%Q)
  \/ Honesty.spikeBodyLong l score i = score.
Proof.
  unfold Honesty.spikeBodyLong, Honesty.minutesOf. rewrite gt_orZero.
  destruct (JS.gt (Honesty.recentAvgAt l i) 0) eqn:E1; [| right; reflexivity].
  destruct (JS.gt (minutesSpent (Honesty.at_ l i)) _) eqn:E2; [| right; reflexivity].
  left. cbn [andb]. apply gt_true in E1, E2. auto.
Qed.

Lemma spikeBodyShort_cases (l : list UsageLog) (score : Z) (i : nat) :
  (Honesty.spikeBodyShort l score i = score - 5
   /\ (0 < minutesSpent (Honesty.at_ l (i - 1)))%Q
   /\ (minutesSpent (Honesty.at_ l (i - 1)) * 5 < minutesSpent (Honesty.at_ l i))%Q)
  \/ Honesty.spikeBodyShort l score i = score.
Proof.
  unfold Honesty.spikeBodyShort, Honesty.minutesOf. rewrite !gt_orZero.
  destruct (JS.gt (minutesSpent (Honesty.at_ l (i - 1))) 0) eqn:E1;
    [| right; reflexivity].
  destruct (JS.gt (minutesSpent (Honesty.at_ l i)) _) eqn:E2; [| right; reflexivity].
  left. cbn [andb]. apply gt_true in E1, E2.
  rewrite (orZero_eq (minutesSpent (Honesty.at_ l (i - 1)))) in E2. auto.
Qed.

Lemma forRange_unchanged (from to : nat) (body : Z -> nat -> Z) (score : Z) :
  (forall s i, (from <= i < to)%nat -> body s i = s) ->
  Honesty.forRange from to body score = score.
Proof.
  unfold Honesty.forRange. intros H.
  assert (G : forall n a, (from <= a)%nat -> (a + n <= Nat.max from to)%nat ->
                          fold_left body (seq a n) score = score).
  { induction n as [| n IH]; intros a Ha Hb; [reflexivity |].
    cbn [seq fold_left]. rewrite H by lia. apply IH; lia. }
  apply G; lia.
Qed.

Lemma spikeLoop_zero_baseline (l : list UsageLog) (score : Z) :
  (forall j, (S j < length l)%nat -> (minutesSpent (Honesty.at_ l j) == 0)%Q) ->
  Honesty.spikeLoop l score = score.
Proof.
  intros Hzero. unfold Honesty.spikeLoop.
  destruct (4 <=? length l)%nat; [| destruct (2 <=? length l)%nat; [| reflexivity]].
  - apply forRange_unchanged. intros s i Hi.
    unfold Honesty.spikeBodyLong.
    rewrite gt_zero_false; [reflexivity |].
    rewrite recentAvgAt_mean by lia. unfold Spec.meanOfThreeBefore.
    rewrite !Hzero by lia. reflexivity.
  - apply forRange_unchanged. intros s i Hi.
    unfold Honesty.spikeBodyShort, Honesty.minutesOf. rewrite !gt_orZero.
    rewrite gt_zero_false; [reflexivity |].
    apply Hzero. lia.
Qed.

(** C10. A spike penalty is subtracted only against a strictly positive
    baseline: with four entries or more, index [i] loses 5 points only if
    the mean of the three entries before it is positive (and the entry
    exceeds three times that mean); with two or three entries, only if the
    entry before it has positive minutes.  When all entries before the last
    one have 0 minutes no spike penalty is subtracted, whatever the last
    entry is. *)
Theorem spike_needs_positive_baseline :
  (forall sortedEntries score i,
      Honesty.spikeBodyLong sortedEntries score i <> score ->
      Honesty.spikeBodyLong sortedEntries score i = score - 5
      /\ (0 < Honesty.recentAvgAt sortedEntries i)%Q)
  /\ (forall sortedEntries i,
         (3 <= i <= length sortedEntries)%nat ->
         (Honesty.recentAvgAt sortedEntries i
          == Spec.meanOfThreeBefore sortedEntries i)%Q)
  /\ (forall sortedEntries score i,
         Honesty.spikeBodyShort sortedEntries score i <> score ->
         Honesty.spikeBodyShort sortedEntries score i = score - 5
         /\ (0 < minutesSpent (Honesty.at_ sortedEntries (i - 1)))%Q)
  /\ (forall sortedEntries score,
         (forall j, (S j < length sortedEntries)%nat ->
                    (minutesSpent (Honesty.at_ sortedEntries j) == 0)%Q) ->
         Honesty.spikeLoop sortedEntries score = score)
  /\ Honesty.calculateDigitalHonestyScore (Some (Sample.daily [0; 0; 0; 900]%Q)) = 100
  /\ Honesty.calculateDigitalHonestyScore (Some (Sample.daily [0; 900]%Q)) = 100
  /\ Honesty.calculateDigitalHonestyScore (Some (Sample.daily [1; 1; 1; 900]%Q)) = 95.
Proof.
  split.
  { intros l score i H.
    destruct (spikeBodyLong_cases l score i) as [(E & Hpos & _) | E]; [auto |].
    contradiction. }
  split; [exact recentAvgAt_mean |].
  split.
  { intros l score i H.
    destruct (spikeBodyShort_cases l score i) as [(E & Hpos & _) | E]; [auto |].
    contradiction. }
  split; [exact spikeLoop_zero_baseline |].
  repeat split; vm_compute; reflexivity.
Qed.

Lemma spike_needs_positive_baseline_witness :
  Honesty.spikeLoop (Sample.daily [0; 0; 0; 900]%Q) 100 = 100
  /\ (0 < Honesty.recentAvgAt (Sample.daily [1; 1; 1; 900]%Q) 3%nat)%Q.
Proof.
  split.
  - apply (proj1 (proj2 (proj2 (proj2 spike_needs_positive_baseline)))).
    intros [| [| [| j]]] Hj; try reflexivity.
    cbn in Hj. lia.
  - apply (proj1 spike_needs_positive_baseline (Sample.daily [1; 1; 1; 900]%Q) 100 3%nat).
    vm_compute. discriminate.
Defined.

(** ** The digital mirror: one insight per group, first match *)

Lemma analyzeGroup_not_found (getHours : Z -> Z) (insights : list Mirror.MirrorInsight)
    (groupEntries : list UsageLog) (intention : string) :
  (Mirror.foundItRateOf groupEntries < 5 # 10)%Q ->
  (3 <= Mirror.totalCountOf groupEntries)%nat ->
  exists insight,
    Mirror.analyzeGroup getHours insights groupEntries intention = insights ++ [insight]
    /\ Mirror.pattern insight = "not_found"%string
    /\ Mirror.count insight = Mirror.totalCountOf groupEntries
    /\ Mirror.foundItRate insight = Mirror.foundItRateOf groupEntries
    /\ Mirror.intention insight = Mirror.capitalizeFirst intention.
Proof.
  intros Hrate Hcount. unfold Mirror.analyzeGroup.
  apply lt_true in Hrate. rewrite Hrate.
  apply Nat.leb_le in Hcount. rewrite Hcount. cbn [andb].
  eexists. split; [reflexivity |]. cbn. repeat split; reflexivity.
Qed.

Lemma analyzeGroup_at_most_one (getHours : Z -> Z) (insights : list Mirror.MirrorInsight)
    (groupEntries : list UsageLog) (intention : string) :
  Mirror.analyzeGroup getHours insights groupEntries intention = insights
  \/ exists insight,
       Mirror.analyzeGroup getHours insights groupEntries intention
       = insights ++ [insight].
Proof.
  unfold Mirror.analyzeGroup.
  repeat match goal with
         | |- context [ if ?b then _ else _ ] => destruct b
         end; eauto.
Qed.

Lemma relax_group (e1 e2 e3 : UsageLog) :
  intention e1 = Some "relax"%string ->
  intention e2 = Some "relax"%string ->
  intention e3 = Some "relax"%string ->
  foundIt e1 = FoundFalse -> foundIt e2 = FoundFalse -> foundIt e3 = FoundFalse ->
  filter Mirror.hasIntention [e1; e2; e3] = [e1; e2; e3]
  /\ Mirror.groupByIntention [e1; e2; e3] = [("relax"%string, [e1; e2; e3])]
  /\ (Mirror.foundItRateOf [e1; e2; e3] == 0)%Q.
Proof.
  intros I1 I2 I3 F1 F2 F3.
  split; [| split].
  - unfold Mirror.hasIntention. cbn [filter]. rewrite I1, I2, I3, F1, F2, F3. reflexivity.
  - unfold Mirror.groupByIntention, Mirror.intentionOf. cbn [fold_left].
    rewrite I1, I2, I3. reflexivity.
  - unfold Mirror.foundItRateOf, Mirror.foundItCountOf, Mirror.isFound.
    cbn [filter]. rewrite F1, F2, F3. reflexivity.
Qed.

Lemma analyzeGroups_length (getHours : Z -> Z)
    (groups : list (string * list UsageLog)) :
  forall insights,
    (length (fold_left (fun insights group =>
                          Mirror.analyzeGroup getHours insights (snd group) (fst group))
                       groups insights)
     <= length insights + length groups)%nat.
Proof.
  induction groups as [| g groups IH]; intros insights; cbn [fold_left length];
    [lia |].
  specialize (IH (Mirror.analyzeGroup getHours insights (snd g) (fst g))).
  destruct (analyzeGroup_at_most_one getHours insights (snd g) (fst g))
    as [E | [insight E]]; rewrite E in IH |- *.
  - lia.
  - rewrite length_app in IH. cbn [length] in IH. lia.
Qed.

Lemma mirror_insights_bound (getHours : Z -> Z) (entries : list UsageLog) :
  (length (Mirror.analyzeMirrorPatterns getHours (Some entries))
   <= length (Mirror.groupByIntention (filter Mirror.hasIntention entries)))%nat.
Proof.
  unfold Mirror.analyzeMirrorPatterns.
  destruct entries as [| e es]; [cbn; lia |].
  destruct (length (filter Mirror.hasIntention (e :: es)) =? 0)%nat; [cbn; lia |].
  rewrite sort_length.
  apply (analyzeGroups_length getHours _ []).
Qed.

(** C7. A group whose found-it rate is below 0.5 and that has at least
    three entries adds exactly one insight, with the pattern [not_found];
    no group adds more than one insight, so the analysis returns at most as
    many insights as there are groups.  Three entries with the intention
    "relax", none of which found it, give exactly one insight, with the
    pattern [not_found], the count 3 and the found-it rate 0. *)
Theorem mirror_first_match :
  forall getHours : Z -> Z,
    (forall insights groupEntries intention,
        (Mirror.foundItRateOf groupEntries < 5 # 10)%Q ->
        (3 <= Mirror.totalCountOf groupEntries)%nat ->
        exists insight,
          Mirror.analyzeGroup getHours insights groupEntries intention
          = insights ++ [insight]
          /\ Mirror.pattern insight = "not_found"%string
          /\ Mirror.count insight = Mirror.totalCountOf groupEntries
          /\ Mirror.foundItRate insight = Mirror.foundItRateOf groupEntries
          /\ Mirror.intention insight = Mirror.capitalizeFirst intention)
    /\ (forall insights groupEntries intention,
           Mirror.analyzeGroup getHours insights groupEntries intention = insights
           \/ exists insight,
                Mirror.analyzeGroup getHours insights groupEntries intention
                = insights ++ [insight])
    /\ (forall entries,
           (length (Mirror.analyzeMirrorPatterns getHours (Some entries))
            <= length (Mirror.groupByIntention (filter Mirror.hasIntention entries)))%nat)
    /\ (forall e1 e2 e3,
           intention e1 = Some "relax"%string ->
           intention e2 = Some "relax"%string ->
           intention e3 = Some "relax"%string ->
           foundIt e1 = FoundFalse -> foundIt e2 = FoundFalse ->
           foundIt e3 = FoundFalse ->
           exists insight,
             Mirror.analyzeMirrorPatterns getHours (Some [e1; e2; e3]) = [insight]
             /\ Mirror.pattern insight = "not_found"%string
             /\ Mirror.count insight = 3%nat
             /\ (Mirror.foundItRate insight == 0)%Q).
Proof.
  intros getHours.
  split; [apply analyzeGroup_not_found |].
  split; [apply analyzeGroup_at_most_one |].
  split; [apply mirror_insights_bound |].
  intros e1 e2 e3 I1 I2 I3 F1 F2 F3.
  destruct (relax_group e1 e2 e3 I1 I2 I3 F1 F2 F3) as (Hfilter & Hgroup & Hrate).
  unfold Mirror.analyzeMirrorPatterns.
  rewrite Hfilter, Hgroup. cbn [length Nat.eqb fold_left fst snd].
  destruct (analyzeGroup_not_found getHours [] [e1; e2; e3] "relax")
    as (insight & Hrun & Hpattern & Hcount & Hfound & _).
  - rewrite Hrate. reflexivity.
  - cbn. lia.
  - exists insight. rewrite Hrun. cbn [app JS.sort fold_right JS.insert].
    split; [reflexivity |]. split; [exact Hpattern |].
    split; [exact Hcount |]. rewrite Hfound. exact Hrate.
Qed.

Lemma mirror_first_match_witness :
  exists insight,
    Mirror.analyzeMirrorPatterns Sample.utcHours (Some Sample.relax3) = [insight]
    /\ Mirror.pattern insight = "not_found"%string
    /\ Mirror.count insight = 3%nat
    /\ (Mirror.foundItRate insight == 0)%Q.
Proof.
  apply (proj2 (proj2 (proj2 (mirror_first_match Sample.utcHours)))); reflexivity.
Defined.

(** ** The analytics engine: the date map *)

Lemma get_notin (m : list (Z * Q)) (k : Z) :
  ~ In k (map fst m) -> JS.get Z.eqb m k = None.
Proof.
  induction m as [| [k' v] m IH]; cbn; intros H; [reflexivity |].
  destruct (Z.eqb_spec k k') as [E | E]; [exfalso; apply H; left; congruence |].
  apply IH. tauto.
Qed.

Lemma set_notin (m : list (Z * Q)) (k : Z) (v : Q) :
  ~ In k (map fst m) -> JS.set Z.eqb m k v = m ++ [(k, v)].
Proof.
  induction m as [| [k' v'] m IH]; cbn; intros H; [reflexivity |].
  destruct (Z.eqb_spec k k') as [E | E]; [exfalso; apply H; left; congruence |].
  f_equal. apply IH. tauto.
Qed.

Lemma set_keys_in (m : list (Z * Q)) (k : Z) (v : Q) :
  In k (map fst m) -> map fst (JS.set Z.eqb m k v) = map fst m.
Proof.
  induction m as [| [k' v'] m IH]; cbn; intros H; [contradiction |].
  destruct (Z.eqb_spec k k') as [E | E]; cbn; [reflexivity |].
  f_equal. apply IH. destruct H as [H | H]; [congruence | exact H].
Qed.

Lemma get_In (m : list (Z * Q)) (k : Z) (v : Q) :
  JS.get Z.eqb m k = Some v -> In v (map snd m).
Proof.
  induction m as [| [k' v'] m IH]; cbn; intros H; [discriminate |].
  destruct (k =? k'); [left; congruence | right; apply IH, H].
Qed.

Lemma set_Forall (P : Q -> Prop) (m : list (Z * Q)) (k : Z) (v : Q) :
  Forall P (map snd m) -> P v -> Forall P (map snd (JS.set Z.eqb m k v)).
Proof.
  induction m as [| [k' v'] m IH]; cbn; intros Hm Hv.
  - constructor; [exact Hv | constructor].
  - inversion Hm; subst. destruct (k =? k'); cbn; constructor; auto.
Qed.

Lemma addMinutes_new (m : list (Z * Q)) (k : Z) (q : Q) :
  ~ In k (map fst m) ->
  Analytics.addMinutes Z.eqb m k q = m ++ [(k, (0 + q)%Q)].
Proof.
  intros H. unfold Analytics.addMinutes.
  rewrite get_notin, set_notin by exact H. reflexivity.
Qed.

Lemma addMinutes_keys_in (m : list (Z * Q)) (k : Z) (q : Q) :
  In k (map fst m) -> map fst (Analytics.addMinutes Z.eqb m k q) = map fst m.
Proof. intros H. unfold Analytics.addMinutes. apply set_keys_in, H. Qed.

Lemma addMinutes_nonneg (m : list (Z * Q)) (k : Z) (q : Q) :
  Forall (Qle 0) (map snd m) -> (0 <= q)%Q ->
  Forall (Qle 0) (map snd (Analytics.addMinutes Z.eqb m k q)).
Proof.
  intros Hm Hq. unfold Analytics.addMinutes. apply set_Forall; [exact Hm |].
  destruct (JS.get Z.eqb m k) as [v |] eqn:E; [| lra].
  apply get_In in E. rewrite Forall_forall in Hm. specialize (Hm v E).
  rewrite orZero_eq. lra.
Qed.

Lemma groupByDate_fold (logs : list UsageLog) :
  Analytics.groupByDate logs = fold_left Analytics.dateStep logs [].
Proof. reflexivity. Qed.

Lemma dateStep_distinct (logs : list UsageLog) :
  forall acc,
    NoDup (map Analytics.dateKey logs) ->
    (forall r, In r logs -> ~ In (Analytics.dateKey r) (map fst acc)) ->
    fold_left Analytics.dateStep logs acc
    = acc ++ map (fun r => (Analytics.dateKey r, (0 + minutesSpent r)%Q)) logs.
Proof.
  induction logs as [| r logs IH]; intros acc Hnd Hnew; cbn [fold_left map].
  - rewrite app_nil_r. reflexivity.
  - inversion Hnd as [| k ks Hk Hks]; subst.
    unfold Analytics.dateStep at 2. rewrite addMinutes_new by (apply Hnew; left; reflexivity).
    rewrite IH; [rewrite <- app_assoc; reflexivity | exact Hks |].
    intros r' Hr'. rewrite map_app, in_app_iff. cbn. intros [H | [H | []]].
    + apply (Hnew r'); [right; exact Hr' | exact H].
    + apply Hk. rewrite H. apply in_map, Hr'.
Qed.

Lemma dailyTotals_distinct (logs : list UsageLog) :
  NoDup (map Analytics.dateKey logs) ->
  Spec.dailyTotals logs = map (fun r => (0 + minutesSpent r)%Q) logs.
Proof.
  intros H. unfold Spec.dailyTotals, JS.values.
  rewrite groupByDate_fold, dateStep_distinct; [| exact H | intros r _ []].
  cbn [app]. rewrite map_map. reflexivity.
Qed.

Lemma dateStep_keys (logs : list UsageLog) :
  forall acc,
    NoDup (map fst acc) ->
    NoDup (map fst (fold_left Analytics.dateStep logs acc))
    /\ (forall k, In k (map fst (fold_left Analytics.dateStep logs acc))
                  <-> In k (map fst acc) \/ In k (map Analytics.dateKey logs)).
Proof.
  induction logs as [| r logs IH]; intros acc Hacc; cbn [fold_left map].
  - split; [exact Hacc |]. intros k. cbn. tauto.
  - assert (Hstep : NoDup (map fst (Analytics.dateStep acc r))
                    /\ forall k, In k (map fst (Analytics.dateStep acc r))
                                 <-> In k (map fst acc) \/ Analytics.dateKey r = k).
    { unfold Analytics.dateStep.
      destruct (in_dec Z.eq_dec (Analytics.dateKey r) (map fst acc)) as [Hin | Hout].
      - rewrite addMinutes_keys_in by exact Hin. split; [exact Hacc |].
        intros k. split; [tauto | intros [H | H]; [exact H | subst; exact Hin]].
      - rewrite addMinutes_new by exact Hout. rewrite map_app. cbn [map fst].
        split.
        + apply (Permutation_NoDup (Permutation_cons_append _ _)).
          constructor; assumption.
        + intros k. rewrite in_app_iff. cbn. tauto. }
    destruct Hstep as [Hnd Hkeys].
    destruct (IH _ Hnd) as [Hnd' Hkeys'].
    split; [exact Hnd' |].
    intros k. rewrite Hkeys', Hkeys. cbn. tauto.
Qed.

Lemma groupByDate_size (logs : list UsageLog) :
  length (Spec.dailyTotals logs) = Spec.distinctDays logs.
Proof.
  unfold Spec.dailyTotals, JS.values, Spec.distinctDays.
  rewrite length_map, <- (length_map fst).
  destruct (dateStep_keys logs [] (NoDup_nil _)) as [Hnd Hkeys].
  apply Permutation_length, NoDup_Permutation.
  - exact Hnd.
  - apply NoDup_nodup.
  - intros k. rewrite nodup_In, groupByDate_fold, Hkeys. cbn. tauto.
Qed.

Lemma dailyTotals_nonneg (logs : list UsageLog) :
  Forall (fun r => 0 <= minutesSpent r)%Q logs ->
  Forall (Qle 0) (Spec.dailyTotals logs).
Proof.
  unfold Spec.dailyTotals, JS.values. rewrite groupByDate_fold.
  assert (G : forall acc, Forall (Qle 0) (map snd acc) ->
                          Forall (fun r => 0 <= minutesSpent r)%Q logs ->
                          Forall (Qle 0) (map snd (fold_left Analytics.dateStep logs acc))).
  { induction logs as [| r logs IH]; intros acc Hacc Hlogs; cbn [fold_left];
      [exact Hacc |].
    inversion Hlogs; subst. apply IH; [| assumption].
    apply addMinutes_nonneg; assumption. }
  intros H. apply G; [constructor | exact H].
Qed.

(** ** The analytics engine: equal numbers give equal results *)

Lemma ge_compat (x y c : Q) : (x == y)%Q -> JS.ge x c = JS.ge y c.
Proof. intros H. unfold JS.ge. rewrite H. reflexivity. Qed.

Lemma gt_compat (x y x' y' : Q) :
  (x == x')%Q -> (y == y')%Q -> JS.gt x y = JS.gt x' y'.
Proof. intros Hx Hy. unfold JS.gt. rewrite Hx, Hy. reflexivity. Qed.

Lemma lt_compat (x y x' y' : Q) :
  (x == x')%Q -> (y == y')%Q -> JS.lt x y = JS.lt x' y'.
Proof. intros Hx Hy. unfold JS.lt. rewrite Hx, Hy. reflexivity. Qed.

Lemma Math_round_compat (x y : Q) : (x == y)%Q -> JS.Math_round x = JS.Math_round y.
Proof. intros H. unfold JS.Math_round. rewrite H. reflexivity. Qed.

Lemma round2_compat (x y : Q) :
  (x == y)%Q -> (Analytics.round2 x == Analytics.round2 y)%Q.
Proof.
  intros H. unfold Analytics.round2.
  rewrite (Math_round_compat (x * 100) (y * 100)); [reflexivity |].
  rewrite H. reflexivity.
Qed.

Lemma fold_plus_compat (xs ys : list Q) :
  Forall2 Qeq xs ys ->
  forall a b, (a == b)%Q -> (fold_left Qplus xs a == fold_left Qplus ys b)%Q.
Proof.
  induction 1 as [| x y xs ys Hxy _ IH]; intros a b Hab; cbn [fold_left];
    [exact Hab |].
  apply IH. rewrite Hab, Hxy. reflexivity.
Qed.

Lemma sum_compat (xs ys : list Q) :
  Forall2 Qeq xs ys -> (JS.sum xs == JS.sum ys)%Q.
Proof. intros H. apply fold_plus_compat; [exact H | reflexivity]. Qed.

Lemma Math_max_compat (xs ys : list Q) (c : Q) :
  Forall2 Qeq xs ys -> (JS.Math_max xs c == JS.Math_max ys c)%Q.
Proof.
  unfold JS.Math_max.
  induction 1 as [| x y xs ys Hxy _ IH]; cbn [fold_right]; [reflexivity |].
  rewrite Hxy, IH. reflexivity.
Qed.

Lemma Forall2_firstn_eq (n : nat) (xs ys : list Q) :
  Forall2 Qeq xs ys -> Forall2 Qeq (firstn n xs) (firstn n ys).
Proof.
  intros H. revert n.
  induction H as [| x y xs ys Hxy _ IH]; intros [| n]; cbn; constructor; auto.
Qed.

Lemma Forall2_skipn_eq (n : nat) (xs ys : list Q) :
  Forall2 Qeq xs ys -> Forall2 Qeq (skipn n xs) (skipn n ys).
Proof.
  intros H. revert n.
  induction H as [| x y xs ys Hxy H IH]; intros [| n]; cbn; auto.
Qed.

Lemma trendOf_compat (xs ys : list Q) :
  Forall2 Qeq xs ys -> Analytics.trendOf xs = Analytics.trendOf ys.
Proof.
  intros H. unfold Analytics.trendOf, JS.slice, JS.sliceFrom.
  rewrite (Forall2_length H). cbn [skipn]. rewrite Nat.sub_0_r.
  set (mid := (length ys / 2)%nat).
  assert (H1 : (JS.sum (firstn mid xs) == JS.sum (firstn mid ys))%Q)
    by (apply sum_compat, Forall2_firstn_eq, H).
  assert (H2 : (JS.sum (skipn mid xs) == JS.sum (skipn mid ys))%Q)
    by (apply sum_compat, Forall2_skipn_eq, H).
  destruct (4 <=? length ys)%nat; [| reflexivity].
  rewrite (gt_compat _ _ _ _ (Qdiv_comp _ _ H2 _ _ (Qeq_refl _))
                     (Qmult_comp _ _ (Qdiv_comp _ _ H1 _ _ (Qeq_refl _)) _ _ (Qeq_refl _))).
  rewrite (lt_compat _ _ _ _ (Qdiv_comp _ _ H2 _ _ (Qeq_refl _))
                     (Qmult_comp _ _ (Qdiv_comp _ _ H1 _ _ (Qeq_refl _)) _ _ (Qeq_refl _))).
  reflexivity.
Qed.

Lemma avgDailyPoints_compat (x y : Q) :
  (x == y)%Q -> (Analytics.avgDailyPoints x == Analytics.avgDailyPoints y)%Q.
Proof.
  intros H. unfold Analytics.avgDailyPoints.
  rewrite (ge_compat x y 360 H), (ge_compat x y 240 H),
    (ge_compat x y 120 H), (ge_compat x y 60 H).
  repeat match goal with |- context [ JS.ge y ?c ] => destruct (JS.ge y c) end;
    first [reflexivity | rewrite H; reflexivity].
Qed.

Lemma peakPoints_compat (x y : Q) :
  (x == y)%Q -> (Analytics.peakPoints x == Analytics.peakPoints y)%Q.
Proof.
  intros H. unfold Analytics.peakPoints.
  rewrite (ge_compat x y 360 H), (ge_compat x y 240 H), (ge_compat x y 120 H).
  repeat match goal with |- context [ JS.ge y ?c ] => destruct (JS.ge y c) end;
    first [reflexivity | rewrite H; reflexivity].
Qed.

Lemma riskOfDailyTotals_compat (xs ys : list Q) :
  Forall2 Qeq xs ys -> Spec.riskOfDailyTotals xs = Spec.riskOfDailyTotals ys.
Proof.
  intros H. unfold Spec.riskOfDailyTotals. cbv zeta.
  rewrite (Forall2_length H), (trendOf_compat xs ys H).
  f_equal. apply Math_round_compat.
  rewrite (peakPoints_compat _ _ (Math_max_compat xs ys 0 H)).
  rewrite (avgDailyPoints_compat _ _
             (round2_compat _ _ (Qdiv_comp _ _ (sum_compat xs ys H) _ _ (Qeq_refl _)))).
  reflexivity.
Qed.

(** The weekly statistics and the risk score through the daily totals. *)
Lemma weeklyStats_of_totals (r : UsageLog) (logs : list UsageLog) :
  let w := Analytics.calculateWeeklyStats (Some (r :: logs)) in
  let totals := Spec.dailyTotals (r :: logs) in
  Analytics.trend w = Analytics.trendOf totals
  /\ Analytics.daysActive w = length totals
  /\ Analytics.averageDailyMinutes w
     = Analytics.round2
         (JS.sum totals / inject_Z (Z.max 1 (Z.of_nat (length totals))))%Q.
Proof.
  unfold Analytics.calculateWeeklyStats, Spec.dailyTotals, JS.values, JS.size.
  cbv zeta. cbn [Analytics.trend Analytics.daysActive Analytics.averageDailyMinutes].
  rewrite length_map. repeat split; reflexivity.
Qed.

Lemma riskScore_of_totals (r : UsageLog) (rest : list UsageLog)
    (monthly : option (list UsageLog)) :
  Analytics.calculateRiskScore (Some (r :: rest)) monthly
  = let score := Spec.riskOfDailyTotals (Spec.dailyTotals (r :: rest)) in
    if score >=? 70 then Analytics.mkRisk score "High" "high"
    else if score >=? 40 then Analytics.mkRisk score "Moderate" "moderate"
    else Analytics.mkRisk score "Low" "low".
Proof.
  unfold Analytics.calculateRiskScore. cbv zeta.
  destruct (weeklyStats_of_totals r rest) as (Ht & Hd & Ha).
  cbv zeta in Ht, Hd, Ha. rewrite Ht, Hd, Ha.
  change (JS.values (Analytics.groupByDate (r :: rest)))
    with (Spec.dailyTotals (r :: rest)).
  unfold Spec.riskOfDailyTotals, Spec.clamp. cbv zeta.
  reflexivity.
Qed.

(** ** The week of sixty minutes a day *)

Lemma totals_of_sixty (logs : list UsageLog) :
  length logs = 7%nat ->
  NoDup (map Analytics.dateKey logs) ->
  (forall r, In r logs -> (minutesSpent r == 60)%Q) ->
  Forall2 Qeq (Spec.dailyTotals logs) Sample.sixty.
Proof.
  intros Hlen Hnd H60. rewrite dailyTotals_distinct by exact Hnd.
  assert (G : forall n (l : list UsageLog),
             length l = n -> (forall r, In r l -> (minutesSpent r == 60)%Q) ->
             Forall2 Qeq (map (fun r => (0 + minutesSpent r)%Q) l) (repeat 60%Q n)).
  { induction n as [| n IH]; intros [| r l] Hl Hr; cbn in Hl; try discriminate;
      cbn [map repeat]; constructor.
    - rewrite (Hr r) by (left; reflexivity). reflexivity.
    - apply IH; [lia | intros r' Hr'; apply Hr; right; exact Hr']. }
  apply G; assumption.
Qed.

(** C5. Seven logs on seven distinct days, each of 60 minutes: the weekly
    statistics report an average of 60 minutes a day, 7 active days and a
    stable trend, and the risk score is 43, category Moderate. *)
Theorem week_of_sixty_minutes :
  forall logs monthlyLogs,
    length logs = 7%nat ->
    NoDup (map Analytics.dateKey logs) ->
    (forall r, In r logs -> (minutesSpent r == 60)%Q) ->
    let w := Analytics.calculateWeeklyStats (Some logs) in
    (Analytics.averageDailyMinutes w == 60)%Q
    /\ Analytics.daysActive w = 7%nat
    /\ Analytics.trend w = Analytics.stable
    /\ Analytics.calculateRiskScore (Some logs) monthlyLogs
       = Analytics.mkRisk 43 "Moderate" "moderate".
Proof.
  intros logs monthlyLogs Hlen Hnd H60.
  pose proof (totals_of_sixty logs Hlen Hnd H60) as Htotals.
  destruct logs as [| r rest]; [discriminate Hlen |].
  destruct (weeklyStats_of_totals r rest) as (Ht & Hd & Ha).
  cbv zeta in Ht, Hd, Ha |- *.
  rewrite Ht, Hd, Ha, riskScore_of_totals. cbv zeta.
  rewrite (riskOfDailyTotals_compat _ _ Htotals), (trendOf_compat _ _ Htotals).
  rewrite (Forall2_length Htotals).
  rewrite (round2_compat _ _ (Qdiv_comp _ _ (sum_compat _ _ Htotals) _ _ (Qeq_refl _))).
  repeat split; vm_compute; reflexivity.
Qed.

Lemma week_of_sixty_minutes_witness :
  Analytics.calculateRiskScore (Some Sample.week60) None
  = Analytics.mkRisk 43 "Moderate" "moderate".
Proof.
  apply (week_of_sixty_minutes Sample.week60 None).
  - reflexivity.
  - vm_compute. repeat constructor; cbn; intuition discriminate.
  - intros r Hr. vm_compute in Hr.
    repeat (destruct Hr as [<- | Hr]; [reflexivity |]). contradiction.
Defined.

(** ** The weekly trend *)

Lemma trendOf_short (totals : list Q) :
  (length totals < 4)%nat -> Analytics.trendOf totals = Analytics.stable.
Proof.
  intros H. unfold Analytics.trendOf.
  replace (4 <=? length totals)%nat with false; [reflexivity |].
  symmetry. apply Nat.leb_gt, H.
Qed.

Lemma fold_plus_nonneg (xs : list Q) :
  Forall (Qle 0) xs -> forall a, (0 <= a)%Q -> (0 <= fold_left Qplus xs a)%Q.
Proof.
  induction 1 as [| x xs Hx _ IH]; intros a Ha; cbn [fold_left]; [exact Ha |].
  apply IH. lra.
Qed.

(** ** Keys in the order of their first occurrence *)

Section FirstOccurrences.
Context {K : Type} (eqb : K -> K -> bool).
Hypothesis eqb_spec : forall a b, reflect (a = b) (eqb a b).

Lemma filter_filter_as (f g h : K -> bool) (l : list K) :
  (forall y, h y = g y && f y) -> filter f (filter g l) = filter h l.
Proof.
  intros H. induction l as [| x l IH]; cbn [filter]; [reflexivity |].
  rewrite (H x). destruct (g x); cbn [filter andb]; [| exact IH].
  destruct (f x); rewrite IH; reflexivity.
Qed.

Lemma filter_every (f : K -> bool) (l : list K) :
  (forall y, f y = true) -> filter f l = l.
Proof.
  intros H. induction l as [| x l IH]; cbn [filter]; [reflexivity |].
  rewrite (H x), IH. reflexivity.
Qed.

Lemma existsb_eqb (k : K) (l : list K) : existsb (eqb k) l = true <-> In k l.
Proof.
  rewrite existsb_exists. split.
  - intros (x & Hx & E). destruct (eqb_spec k x); [subst; exact Hx | discriminate].
  - intros H. exists k. split; [exact H |].
    destruct (eqb_spec k k); [reflexivity | contradiction].
Qed.

Lemma firstOccurrences_In (l : list K) (y : K) :
  In y (StatSpec.firstOccurrences eqb l) <-> In y l.
Proof.
  induction l as [| x l IH]; cbn [StatSpec.firstOccurrences In]; [tauto |].
  rewrite filter_In, IH.
  destruct (eqb_spec y x) as [E | E]; cbn [negb].
  - subst. split; [intros [H | [_ H]]; [left; reflexivity | discriminate] | tauto].
  - split; [tauto |]. intros [H | H]; [congruence | right; split; [exact H | reflexivity]].
Qed.

Lemma firstOccurrences_NoDup (l : list K) :
  NoDup (StatSpec.firstOccurrences eqb l).
Proof.
  induction l as [| x l IH]; cbn [StatSpec.firstOccurrences]; constructor.
  - rewrite filter_In. intros [_ H].
    destruct (eqb_spec x x); [discriminate | contradiction].
  - apply NoDup_filter, IH.
Qed.

Lemma firstOccurrences_length (dec : forall a b : K, {a = b} + {a <> b})
    (l : list K) :
  length (StatSpec.firstOccurrences eqb l) = length (nodup dec l).
Proof.
  apply Permutation_length, NoDup_Permutation.
  - apply firstOccurrences_NoDup.
  - apply NoDup_nodup.
  - intros y. rewrite firstOccurrences_In, nodup_In. tauto.
Qed.

End FirstOccurrences.

(** ** A map filled by a loop over records *)

Section GroupFold.
Context {K V R : Type} (eqb : K -> K -> bool).
Hypothesis eqb_spec : forall a b, reflect (a = b) (eqb a b).
Variable key : R -> K.
Variable next : option V -> R -> V.

Lemma set_keys (m : list (K * V)) (k : K) (v : V) :
  map fst (JS.set eqb m k v)
  = if existsb (eqb k) (map fst m) then map fst m else map fst m ++ [k].
Proof.
  induction m as [| [k' v'] m IH]; cbn [JS.set map fst existsb app];
    [reflexivity |].
  destruct (eqb k k'); cbn [map fst orb]; [reflexivity |].
  rewrite IH. destruct (existsb (eqb k) (map fst m)); reflexivity.
Qed.

Lemma get_set_same (m : list (K * V)) (k : K) (v : V) :
  JS.get eqb (JS.set eqb m k v) k = Some v.
Proof.
  induction m as [| [k' v'] m IH]; cbn [JS.set JS.get].
  - destruct (eqb_spec k k); [reflexivity | contradiction].
  - destruct (eqb k k') eqn:E; cbn [JS.get]; rewrite E; [reflexivity | exact IH].
Qed.

Lemma get_set_other (m : list (K * V)) (k k' : K) (v : V) :
  k' <> k -> JS.get eqb (JS.set eqb m k v) k' = JS.get eqb m k'.
Proof.
  intros Hne. induction m as [| [k0 v0] m IH]; cbn [JS.set JS.get].
  - destruct (eqb_spec k' k); [contradiction | reflexivity].
  - destruct (eqb_spec k k0) as [E | E]; cbn [JS.get].
    + subst k0. destruct (eqb_spec k' k); [contradiction | reflexivity].
    + destruct (eqb k' k0); [reflexivity | exact IH].
Qed.

Lemma get_of_entry (m : list (K * V)) (k : K) (v : V) :
  NoDup (map fst m) -> In (k, v) m -> JS.get eqb m k = Some v.
Proof.
  induction m as [| [k' v'] m IH]; cbn [map fst In JS.get]; intros Hnd Hin;
    [contradiction |].
  inversion Hnd as [| x xs Hx Hxs]; subst.
  destruct Hin as [Hin | Hin].
  - inversion Hin; subst. destruct (eqb_spec k k); [reflexivity | contradiction].
  - destruct (eqb_spec k k') as [E | E]; [| apply IH; assumption].
    subst k'. exfalso. apply Hx. apply (in_map fst) in Hin. exact Hin.
Qed.

Lemma values_of_keys (F : K -> V) (m : list (K * V)) :
  (forall k v, In (k, v) m -> v = F k) -> map snd m = map F (map fst m).
Proof.
  induction m as [| [k v] m IH]; cbn [map fst snd]; intros H; [reflexivity |].
  rewrite (H k v) by (left; reflexivity). f_equal.
  apply IH. intros k' v' Hin. apply H. right. exact Hin.
Qed.

Lemma fold_set_keys (logs : list R) :
  forall acc : list (K * V),
    map fst (fold_left (fun m r => JS.set eqb m (key r) (next (JS.get eqb m (key r)) r))
                       logs acc)
    = map fst acc
      ++ filter (fun y => negb (existsb (eqb y) (map fst acc)))
                (StatSpec.firstOccurrences eqb (map key logs)).
Proof.
  induction logs as [| r logs IH]; intros acc;
    cbn [fold_left map StatSpec.firstOccurrences filter].
  - rewrite app_nil_r. reflexivity.
  - rewrite IH, set_keys.
    destruct (existsb (eqb (key r)) (map fst acc)) eqn:E; cbn [negb].
    + f_equal. symmetry. apply filter_filter_as. intros y.
      destruct (eqb_spec y (key r)) as [-> | Hne]; cbn [negb andb];
        [rewrite E |]; reflexivity.
    + rewrite <- app_assoc. cbn [app]. f_equal. f_equal.
      rewrite (filter_filter_as
                 (fun y => negb (existsb (eqb y) (map fst acc)))
                 (fun y => negb (eqb y (key r)))
                 (fun y => negb (existsb (eqb y) (map fst acc ++ [key r]))));
        [reflexivity |].
      intros y. rewrite existsb_app. cbn [existsb]. rewrite orb_false_r.
      rewrite negb_orb. apply andb_comm.
Qed.

Lemma fold_set_get (logs : list R) (k : K) :
  forall acc : list (K * V),
    JS.get eqb
      (fold_left (fun m r => JS.set eqb m (key r) (next (JS.get eqb m (key r)) r))
                 logs acc) k
    = fold_left (fun found r => Some (next found r))
                (filter (fun r => eqb (key r) k) logs)
                (JS.get eqb acc k).
Proof.
  induction logs as [| r logs IH]; intros acc; cbn [fold_left filter];
    [reflexivity |].
  rewrite IH. destruct (eqb_spec (key r) k) as [E | E]; cbn [fold_left].
  - subst k. rewrite get_set_same. reflexivity.
  - rewrite get_set_other by congruence. reflexivity.
Qed.

End GroupFold.

(** ** The weekly trend, in double precision *)

Lemma day_total_found (rs : list WeeklyTrend.UsageLog) :
  forall v : PrimFloat.float,
    fold_left (fun found r =>
                 Some (PrimFloat.add
                         match found with
                         | Some v => Double.orZero v
                         | None => PrimFloat.zero
                         end
                         (WeeklyTrend.minutesSpent r)))
              rs (Some v)
    = Some (fold_left (fun total minutes =>
                         PrimFloat.add (Double.orZero total) minutes)
                      (map WeeklyTrend.minutesSpent rs) v).
Proof.
  induction rs as [| r rs IH]; intros v; cbn [fold_left map]; [reflexivity |].
  apply IH.
Qed.

Lemma weeklyTrend_keys (logs : list WeeklyTrend.UsageLog) :
  map fst (WeeklyTrend.groupByDate logs) = TrendSpec.days logs.
Proof.
  unfold WeeklyTrend.groupByDate, TrendSpec.days.
  pose proof (fold_set_keys Z.eqb Z.eqb_spec WeeklyTrend.dateKey
                (fun found r =>
                   PrimFloat.add
                     match found with
                     | Some v => Double.orZero v
                     | None => PrimFloat.zero
                     end
                     (WeeklyTrend.minutesSpent r)) logs []) as H.
  cbn [map fst app existsb negb] in H.
  rewrite filter_every in H by reflexivity. exact H.
Qed.

Lemma weeklyTrend_totals (logs : list WeeklyTrend.UsageLog) :
  TrendSpec.dailyTotals logs = map (TrendSpec.dayTotal logs) (TrendSpec.days logs).
Proof.
  unfold TrendSpec.dailyTotals, JS.values. rewrite <- weeklyTrend_keys.
  apply values_of_keys. intros k v Hin.
  assert (Hnd : NoDup (map fst (WeeklyTrend.groupByDate logs))).
  { rewrite weeklyTrend_keys. apply (firstOccurrences_NoDup Z.eqb Z.eqb_spec). }
  pose proof (get_of_entry Z.eqb Z.eqb_spec _ _ _ Hnd Hin) as Hget.
  unfold WeeklyTrend.groupByDate in Hget.
  pose proof (fold_set_get Z.eqb Z.eqb_spec WeeklyTrend.dateKey
                (fun found r =>
                   PrimFloat.add
                     match found with
                     | Some v => Double.orZero v
                     | None => PrimFloat.zero
                     end
                     (WeeklyTrend.minutesSpent r)) logs k []) as Hfold.
  cbn [JS.get] in Hfold.
  assert (E : JS.get Z.eqb (fold_left WeeklyTrend.dateStep logs []) k
              = fold_left (fun found r =>
                 Some (PrimFloat.add
                         match found with
                         | Some v => Double.orZero v
                         | None => PrimFloat.zero
                         end
                         (WeeklyTrend.minutesSpent r)))
                 (filter (fun r => WeeklyTrend.dateKey r =? k) logs) None)
    by exact Hfold.
  rewrite Hget in E. unfold TrendSpec.dayTotal.
  change (fun log => TrendSpec.utcDay log =? k)
    with (fun r => WeeklyTrend.dateKey r =? k).
  destruct (filter (fun r => WeeklyTrend.dateKey r =? k) logs) as [| r rs].
  - discriminate E.
  - cbn [fold_left] in E. rewrite day_total_found in E.
    injection E as ->. reflexivity.
Qed.

Lemma weeklyTrend_count (logs : list WeeklyTrend.UsageLog) :
  length (TrendSpec.dailyTotals logs) = TrendSpec.distinctDays logs.
Proof.
  rewrite weeklyTrend_totals, length_map. unfold TrendSpec.days, TrendSpec.distinctDays.
  apply (firstOccurrences_length Z.eqb Z.eqb_spec).
Qed.

Lemma weeklyTrend_of_totals (logs : list WeeklyTrend.UsageLog) :
  WeeklyTrend.trend (WeeklyTrend.calculateWeeklyStats (Some logs))
  = WeeklyTrend.trendOf (TrendSpec.dailyTotals logs)
  /\ WeeklyTrend.daysActive (WeeklyTrend.calculateWeeklyStats (Some logs))
     = length (TrendSpec.dailyTotals logs).
Proof.
  destruct logs as [| r rest]; [split; reflexivity |].
  unfold WeeklyTrend.calculateWeeklyStats, TrendSpec.dailyTotals, JS.values, JS.size.
  cbv zeta. cbn [WeeklyTrend.trend WeeklyTrend.daysActive].
  rewrite length_map. split; reflexivity.
Qed.

Lemma trendOf_double_short (totals : list PrimFloat.float) :
  (length totals < 4)%nat -> WeeklyTrend.trendOf totals = Analytics.stable.
Proof.
  intros H. unfold WeeklyTrend.trendOf.
  replace (4 <=? length totals)%nat with false; [reflexivity |].
  symmetry. apply Nat.leb_gt, H.
Qed.

(** The order of the doubles has no cycle [b < x <= y < b]. *)
Lemma SF_no_cycle (b x y : SpecFloat.spec_float) :
  SpecFloat.SFltb b x = true -> SpecFloat.SFleb x y = true ->
  SpecFloat.SFltb y b = true -> False.
Proof.
  unfold SpecFloat.SFltb, SpecFloat.SFleb, SpecFloat.SFcompare.
  change PosDef.Pos.compare_cont with Pos.compare_cont.
  destruct b as [sb | sb | | sb mb eb], x as [sx | sx | | sx mx ex],
           y as [sy | sy | | sy my ey];
    try discriminate;
    try destruct sb; try destruct sx; try destruct sy; try discriminate;
    repeat match goal with
           | |- context [(?a ?= ?b)%Z] => destruct (Z.compare_spec a b)
           end;
    try discriminate;
    repeat match goal with
           | |- context [Pos.compare_cont Eq ?a ?b] =>
               change (Pos.compare_cont Eq a b) with (Pos.compare a b);
               destruct (Pos.compare_spec a b)
           end;
    cbn [CompOpp]; try discriminate; intros; subst; lia.
Qed.

Lemma double_no_cycle (b x y : PrimFloat.float) :
  PrimFloat.ltb b x = true -> PrimFloat.leb x y = true ->
  PrimFloat.ltb y b = true -> False.
Proof.
  rewrite !FloatAxioms.ltb_spec, FloatAxioms.leb_spec. apply SF_no_cycle.
Qed.

Section WeeklyTrendRule.
Import PrimFloat.
#[local] Set Warnings "-inexact-float".

Lemma trendOf_double_means (totals : list float) :
  (4 <= length totals)%nat ->
  WeeklyTrend.trendOf totals
  = let first := TrendSpec.mean (TrendSpec.firstHalf totals) in
    let second := TrendSpec.mean (TrendSpec.secondHalf totals) in
    if (first * 1.1 <? second)%float then Analytics.increasing
    else if (second <? first * 0.9)%float then Analytics.decreasing
    else Analytics.stable.
Proof.
  intros H. unfold WeeklyTrend.trendOf, TrendSpec.mean, TrendSpec.firstHalf,
    TrendSpec.secondHalf, Double.gt, Double.lt.
  unfold JS.slice, JS.sliceFrom. cbn [skipn]. rewrite Nat.sub_0_r.
  replace (4 <=? length totals)%nat with true by (symmetry; apply Nat.leb_le, H).
  assert (Hmid : (length totals / 2 <= length totals)%nat)
    by (apply Nat.Div0.div_le_upper_bound; lia).
  rewrite (firstn_length_le _ Hmid), length_skipn. reflexivity.
Qed.

(** C6. The daily totals are the totals of the distinct UTC days of the
    logs, in the order in which the days first occur.  With fewer than four
    distinct days the trend stays [stable].  With four or more the totals
    are split at [floor(n / 2)], and, in the double-precision arithmetic of
    the code, the trend is [increasing] exactly when the mean of the second
    half is greater than the mean of the first half times 1.1; failing
    that, it is [decreasing] exactly when the mean of the second half is
    less than the mean of the first half times 0.9, and [stable] otherwise.
    The two tests exclude each other whenever the two products are in
    order, [first * 0.9 <= first * 1.1]: the trend is then [decreasing]
    exactly when the mean of the second half is less than the mean of the
    first half times 0.9.  Daily totals 10, 10, 50, 50 are increasing,
    50, 50, 10, 10 decreasing and 30, 30, 30, 30 stable; the products are
    rounded, so that 30, 30, 40, 30, 30, 30, 30 is decreasing too. *)
Theorem weekly_trend_rule :
  forall logs : list WeeklyTrend.UsageLog,
    let w := WeeklyTrend.calculateWeeklyStats (Some logs) in
    let totals := TrendSpec.dailyTotals logs in
    let first := TrendSpec.mean (TrendSpec.firstHalf totals) in
    let second := TrendSpec.mean (TrendSpec.secondHalf totals) in
    totals = map (TrendSpec.dayTotal logs) (TrendSpec.days logs)
    /\ length totals = TrendSpec.distinctDays logs
    /\ WeeklyTrend.daysActive w = TrendSpec.distinctDays logs
    /\ ((TrendSpec.distinctDays logs < 4)%nat ->
        WeeklyTrend.trend w = Analytics.stable)
    /\ ((4 <= TrendSpec.distinctDays logs)%nat ->
        (WeeklyTrend.trend w = Analytics.increasing
         <-> (first * 1.1 <? second)%float = true)
        /\ (WeeklyTrend.trend w = Analytics.decreasing
            <-> (first * 1.1 <? second)%float = false
                /\ (second <? first * 0.9)%float = true)
        /\ (WeeklyTrend.trend w = Analytics.stable
            <-> (first * 1.1 <? second)%float = false
                /\ (second <? first * 0.9)%float = false)
        /\ ((first * 0.9 <=? first * 1.1)%float = true ->
            (WeeklyTrend.trend w = Analytics.decreasing
             <-> (second <? first * 0.9)%float = true)))
    /\ (totals = [10; 10; 50; 50]%float -> WeeklyTrend.trend w = Analytics.increasing)
    /\ (totals = [50; 50; 10; 10]%float -> WeeklyTrend.trend w = Analytics.decreasing)
    /\ (totals = [30; 30; 30; 30]%float -> WeeklyTrend.trend w = Analytics.stable)
    /\ (totals = [30; 30; 40; 30; 30; 30; 30]%float ->
        WeeklyTrend.trend w = Analytics.decreasing).
Proof.
  intros logs w totals first second.
  destruct (weeklyTrend_of_totals logs) as [Ht Hd]. subst w. rewrite Ht, Hd.
  fold totals.
  pose proof (weeklyTrend_count logs) as Hsize. fold totals in Hsize.
  split; [apply weeklyTrend_totals |].
  split; [exact Hsize |]. split; [exact Hsize |]. rewrite <- Hsize.
  split; [apply trendOf_double_short |].
  split.
  - intros Hlen. rewrite (trendOf_double_means totals Hlen). cbv zeta.
    fold first second.
    destruct (first * 1.1 <? second)%float eqn:Egt;
      destruct (second <? first * 0.9)%float eqn:Elt;
      repeat split; intros; try discriminate; try reflexivity;
      try match goal with H : _ /\ _ |- _ => destruct H; discriminate end;
      exfalso; eapply (double_no_cycle second); eassumption.
  - repeat split; intros H; rewrite H; reflexivity.
Qed.

Lemma weekly_trend_rule_witness :
  WeeklyTrend.trend (WeeklyTrend.calculateWeeklyStats (Some TrendSample.rising))
  = Analytics.increasing
  /\ WeeklyTrend.trend (WeeklyTrend.calculateWeeklyStats (Some TrendSample.falling))
     = Analytics.decreasing
  /\ WeeklyTrend.trend (WeeklyTrend.calculateWeeklyStats (Some TrendSample.level))
     = Analytics.stable
  /\ WeeklyTrend.trend (WeeklyTrend.calculateWeeklyStats (Some TrendSample.nearTie))
     = Analytics.decreasing
  /\ WeeklyTrend.trend
       (WeeklyTrend.calculateWeeklyStats (Some (firstn 3 TrendSample.rising)))
     = Analytics.stable
  /\ (TrendSpec.mean (TrendSpec.secondHalf (TrendSpec.dailyTotals TrendSample.falling))
      <? TrendSpec.mean (TrendSpec.firstHalf (TrendSpec.dailyTotals TrendSample.falling))
         * 0.9)%float
     = true.
Proof.
  split; [| split; [| split; [| split; [| split]]]].
  - apply (proj1 (proj2 (proj2 (proj2 (proj2 (proj2
             (weekly_trend_rule TrendSample.rising))))))).
    reflexivity.
  - apply (proj1 (proj2 (proj2 (proj2 (proj2 (proj2 (proj2
             (weekly_trend_rule TrendSample.falling)))))))).
    reflexivity.
  - apply (proj1 (proj2 (proj2 (proj2 (proj2 (proj2 (proj2 (proj2
             (weekly_trend_rule TrendSample.level))))))))).
    reflexivity.
  - apply (proj2 (proj2 (proj2 (proj2 (proj2 (proj2 (proj2 (proj2
             (weekly_trend_rule TrendSample.nearTie))))))))).
    reflexivity.
  - apply (proj1 (proj2 (proj2 (proj2
             (weekly_trend_rule (firstn 3 TrendSample.rising)))))).
    vm_compute. lia.
  - assert (Hdays : (4 <= TrendSpec.distinctDays TrendSample.falling)%nat)
      by (vm_compute; lia).
    apply (proj2 (proj2 (proj2
             (proj1 (proj2 (proj2 (proj2 (proj2
                (weekly_trend_rule TrendSample.falling))))) Hdays)))).
    + reflexivity.
    + apply (proj1 (proj2 (proj2 (proj2 (proj2 (proj2 (proj2
               (weekly_trend_rule TrendSample.falling)))))))).
      reflexivity.
Defined.

End WeeklyTrendRule.

(** * Further properties of the analytics engine *)

(** ** Sums *)

Lemma fold_plus_shift (xs : list Q) :
  forall a, (fold_left Qplus xs a == a + JS.sum xs)%Q.
Proof.
  unfold JS.sum. induction xs as [| x xs IH]; intros a; cbn [fold_left].
  - lra.
  - rewrite (IH (a + x)%Q), (IH (0 + x)%Q). lra.
Qed.

Lemma sum_cons (x : Q) (xs : list Q) : (JS.sum (x :: xs) == x + JS.sum xs)%Q.
Proof.
  unfold JS.sum at 1. cbn [fold_left]. rewrite fold_plus_shift. lra.
Qed.

Lemma fold_minutes_sum (logs : list UsageLog) :
  forall a,
    (fold_left (fun sum log => sum + minutesSpent log) logs a
     == a + StatSpec.allMinutes logs)%Q.
Proof.
  unfold StatSpec.allMinutes.
  induction logs as [| r logs IH]; intros a; cbn [fold_left map].
  - unfold JS.sum. cbn. lra.
  - rewrite IH, sum_cons. lra.
Qed.

(** ** Grouping minutes under a key *)

Section Grouping.
Context {K : Type} (eqb : K -> K -> bool).
Hypothesis eqb_spec : forall a b, reflect (a = b) (eqb a b).
Variable key : UsageLog -> K.

Let step (m : list (K * Q)) (log : UsageLog) : list (K * Q) :=
  Analytics.addMinutes eqb m (key log) (minutesSpent log).

Lemma addMinutes_total (m : list (K * Q)) (k : K) (q : Q) :
  (JS.sum (JS.values (Analytics.addMinutes eqb m k q)) == JS.sum (JS.values m) + q)%Q.
Proof.
  unfold Analytics.addMinutes, JS.values.
  induction m as [| [k' v'] m IH]; cbn [JS.get JS.set map snd].
  - rewrite sum_cons. unfold JS.sum. cbn. lra.
  - destruct (eqb k k'); cbn [map snd]; rewrite !sum_cons.
    + rewrite orZero_eq. lra.
    + rewrite IH. lra.
Qed.

Lemma group_total (logs : list UsageLog) :
  forall acc,
    (JS.sum (JS.values (fold_left step logs acc))
     == JS.sum (JS.values acc) + StatSpec.allMinutes logs)%Q.
Proof.
  unfold StatSpec.allMinutes.
  induction logs as [| r logs IH]; intros acc; cbn [fold_left map].
  - unfold JS.sum at 3. cbn. lra.
  - rewrite IH. unfold step. rewrite addMinutes_total, sum_cons. lra.
Qed.

Lemma get_set (m : list (K * Q)) (k k' : K) (v : Q) :
  JS.get eqb (JS.set eqb m k v) k' = if eqb k' k then Some v else JS.get eqb m k'.
Proof.
  induction m as [| [k0 v0] m IH]; cbn [JS.get JS.set].
  - reflexivity.
  - destruct (eqb_spec k k0) as [-> | Hk]; cbn [JS.get].
    + destruct (eqb k' k0); reflexivity.
    + destruct (eqb_spec k' k0) as [-> | Hk'].
      * destruct (eqb_spec k0 k) as [E | _]; [congruence | reflexivity].
      * exact IH.
Qed.

Lemma addMinutes_value (m : list (K * Q)) (k k' : K) (q : Q) :
  (StatSpec.valueOr0 eqb (Analytics.addMinutes eqb m k q) k'
   == StatSpec.valueOr0 eqb m k' + (if eqb k k' then q else 0))%Q.
Proof.
  unfold StatSpec.valueOr0, Analytics.addMinutes. rewrite get_set.
  destruct (eqb_spec k' k) as [-> | Hk].
  - destruct (eqb_spec k k) as [_ | C]; [| congruence].
    destruct (JS.get eqb m k) as [v |]; [rewrite orZero_eq |]; lra.
  - destruct (eqb_spec k k') as [E | _]; [congruence |]. lra.
Qed.

Lemma group_value (logs : list UsageLog) (k : K) :
  forall acc,
    (StatSpec.valueOr0 eqb (fold_left step logs acc) k
     == StatSpec.valueOr0 eqb acc k + StatSpec.bucketMinutes eqb key k logs)%Q.
Proof.
  unfold StatSpec.bucketMinutes.
  induction logs as [| r logs IH]; intros acc; cbn [fold_left filter map].
  - unfold JS.sum. cbn. lra.
  - rewrite IH. unfold step. rewrite addMinutes_value.
    destruct (eqb (key r) k); cbn [map]; [rewrite sum_cons |]; lra.
Qed.

Lemma addMinutes_keys (m : list (K * Q)) (k : K) (q : Q) :
  (In k (map fst m) /\ map fst (Analytics.addMinutes eqb m k q) = map fst m)
  \/ (~ In k (map fst m)
      /\ map fst (Analytics.addMinutes eqb m k q) = map fst m ++ [k]).
Proof.
  unfold Analytics.addMinutes. generalize (match JS.get eqb m k with
                                           | Some v => JS.orZero v
                                           | None => 0%Q
                                           end + q)%Q as v.
  intros v. induction m as [| [k' v'] m IH]; cbn [JS.set map fst].
  - right. split; [intros [] | reflexivity].
  - destruct (eqb_spec k k') as [-> | Hk]; cbn [map fst].
    + left. split; [left; reflexivity | reflexivity].
    + destruct IH as [[Hin E] | [Hout E]]; rewrite E.
      * left. split; [right; exact Hin | reflexivity].
      * right. split; [| reflexivity].
        intros [C | C]; [congruence | contradiction].
Qed.

Lemma group_keys (logs : list UsageLog) :
  forall acc,
    NoDup (map fst acc) ->
    NoDup (map fst (fold_left step logs acc))
    /\ (forall k, In k (map fst (fold_left step logs acc))
                  <-> In k (map fst acc) \/ In k (map key logs)).
Proof.
  induction logs as [| r logs IH]; intros acc Hacc; cbn [fold_left map].
  - split; [exact Hacc |]. intros k. cbn. tauto.
  - assert (Hstep : NoDup (map fst (step acc r))
                    /\ forall k, In k (map fst (step acc r))
                                 <-> In k (map fst acc) \/ key r = k).
    { unfold step.
      destruct (addMinutes_keys acc (key r) (minutesSpent r)) as [[Hin E] | [Hout E]];
        rewrite E.
      - split; [exact Hacc |].
        intros k. split; [tauto | intros [H | H]; [exact H | subst; exact Hin]].
      - split.
        + apply (Permutation_NoDup (Permutation_cons_append _ _)).
          constructor; assumption.
        + intros k. rewrite in_app_iff. cbn. tauto. }
    destruct Hstep as [Hnd Hkeys].
    destruct (IH _ Hnd) as [Hnd' Hkeys'].
    split; [exact Hnd' |].
    intros k. rewrite Hkeys', Hkeys. cbn. tauto.
Qed.

Lemma In_get (m : list (K * Q)) (k : K) (v : Q) :
  NoDup (map fst m) -> In (k, v) m -> JS.get eqb m k = Some v.
Proof.
  induction m as [| [k' v'] m IH]; cbn [map fst JS.get]; intros Hnd Hin;
    [contradiction |].
  inversion Hnd as [| x xs Hx Hxs]; subst.
  destruct Hin as [E | Hin].
  - inversion E; subst. destruct (eqb_spec k k) as [_ | C]; [reflexivity | congruence].
  - destruct (eqb_spec k k') as [-> | _].
    + exfalso. apply Hx. apply (in_map fst) in Hin. exact Hin.
    + apply IH; assumption.
Qed.

Lemma group_entry (logs : list UsageLog) (k : K) (v : Q) :
  In (k, v) (fold_left step logs []) ->
  In k (map key logs) /\ (v == StatSpec.bucketMinutes eqb key k logs)%Q.
Proof.
  intros Hin.
  destruct (group_keys logs [] (NoDup_nil _)) as [Hnd Hkeys].
  split.
  - apply (in_map fst) in Hin. apply Hkeys in Hin. cbn in Hin. tauto.
  - pose proof (group_value logs k []) as Hv.
    unfold StatSpec.valueOr0 in Hv. rewrite (In_get _ _ _ Hnd Hin) in Hv.
    cbn [JS.get] in Hv. rewrite Hv. lra.
Qed.

End Grouping.

(** ** Daily, weekly and monthly statistics *)

Lemma groupByDate_total (logs : list UsageLog) :
  (JS.sum (JS.values (Analytics.groupByDate logs)) == StatSpec.allMinutes logs)%Q.
Proof.
  unfold Analytics.groupByDate.
  rewrite (group_total Z.eqb Analytics.dateKey logs []).
  unfold JS.sum at 1. cbn. lra.
Qed.

Lemma round2_whole (x : Q) (n : Z) :
  (x == inject_Z n)%Q -> (Analytics.round2 x == inject_Z n)%Q.
Proof.
  intros H. rewrite (round2_compat _ _ H). unfold Analytics.round2.
  rewrite (Math_round_compat (inject_Z n * 100) (inject_Z (n * 100)))
    by (rewrite inject_Z_mult; reflexivity).
  rewrite Math_round_integer, inject_Z_mult.
  change (inject_Z 100) with 100%Q. field.
Qed.

Lemma whole_minutes_total (logs : list UsageLog) :
  Forall StatSpec.wholeMinutes logs ->
  exists n : Z,
    0 <= n <= 1440 * Z.of_nat (length logs)
    /\ (StatSpec.allMinutes logs == inject_Z n)%Q.
Proof.
  induction 1 as [| r logs (z & Hz & Hr) _ (n & Hn & IH)].
  - exists 0. split; [cbn; lia | reflexivity].
  - exists (z + n). split; [cbn [length]; lia |].
    unfold StatSpec.allMinutes in *. cbn [map].
    rewrite sum_cons, IH, Hr, inject_Z_plus. reflexivity.
Qed.

(** X1. The monthly statistics are the weekly statistics of the same logs:
    the same total, the same daily average, the same active days.  For logs
    of whole minutes within the range of the data model, which doubles add
    without rounding, the daily, the weekly and the monthly total are the
    same whole number, the sum of all the minutes: grouping by day loses
    nothing. *)
Theorem statistics_totals_agree :
  forall logs,
    Monthly.totalMinutes (Monthly.calculateMonthlyStats logs)
    = Analytics.totalMinutes (Analytics.calculateWeeklyStats logs)
    /\ Monthly.averageDailyMinutes (Monthly.calculateMonthlyStats logs)
       = Analytics.averageDailyMinutes (Analytics.calculateWeeklyStats logs)
    /\ Monthly.daysActive (Monthly.calculateMonthlyStats logs)
       = Analytics.daysActive (Analytics.calculateWeeklyStats logs)
    /\ (forall l,
           logs = Some l -> Forall StatSpec.wholeMinutes l ->
           exists n : Z,
             0 <= n <= 1440 * Z.of_nat (length l)
             /\ (StatSpec.allMinutes l == inject_Z n)%Q
             /\ (Daily.totalMinutes (Daily.calculateDailyStats logs)
                 == inject_Z n)%Q
             /\ (Analytics.totalMinutes (Analytics.calculateWeeklyStats logs)
                 == inject_Z n)%Q
             /\ (Monthly.totalMinutes (Monthly.calculateMonthlyStats logs)
                 == inject_Z n)%Q).
Proof.
  intros logs.
  assert (Hsame :
    Monthly.totalMinutes (Monthly.calculateMonthlyStats logs)
    = Analytics.totalMinutes (Analytics.calculateWeeklyStats logs)
    /\ Monthly.averageDailyMinutes (Monthly.calculateMonthlyStats logs)
       = Analytics.averageDailyMinutes (Analytics.calculateWeeklyStats logs)
    /\ Monthly.daysActive (Monthly.calculateMonthlyStats logs)
       = Analytics.daysActive (Analytics.calculateWeeklyStats logs)).
  { destruct logs as [[| r rest] |]; repeat split; reflexivity. }
  destruct Hsame as (Htotal & Havg & Hdays).
  split; [exact Htotal |]. split; [exact Havg |]. split; [exact Hdays |].
  intros l -> Hwhole.
  destruct (whole_minutes_total l Hwhole) as (n & Hn & Hsum).
  exists n. split; [exact Hn |]. split; [exact Hsum |].
  rewrite Htotal.
  destruct l as [| r rest].
  - assert (E : (0 == inject_Z n)%Q) by (rewrite <- Hsum; reflexivity).
    repeat split; exact E.
  - unfold Analytics.calculateWeeklyStats, Daily.calculateDailyStats. cbv zeta.
    cbn [Analytics.totalMinutes Daily.totalMinutes].
    repeat split; apply round2_whole.
    + rewrite fold_minutes_sum, Hsum. lra.
    + rewrite groupByDate_total. exact Hsum.
    + rewrite groupByDate_total. exact Hsum.
Qed.

Lemma statistics_totals_agree_witness :
  exists n : Z,
    0 <= n <= 1440 * Z.of_nat (length Sample.week60)
    /\ (StatSpec.allMinutes Sample.week60 == inject_Z n)%Q
    /\ (Daily.totalMinutes (Daily.calculateDailyStats (Some Sample.week60))
        == inject_Z n)%Q
    /\ (Analytics.totalMinutes (Analytics.calculateWeeklyStats (Some Sample.week60))
        == inject_Z n)%Q
    /\ (Monthly.totalMinutes (Monthly.calculateMonthlyStats (Some Sample.week60))
        == inject_Z n)%Q.
Proof.
  apply (proj2 (proj2 (proj2 (statistics_totals_agree (Some Sample.week60))))).
  - reflexivity.
  - repeat constructor; exists 60; (split; [lia | reflexivity]).
Defined.

Lemma insert_byMinutes (x : Analytics.App) (l : list Analytics.App) :
  Sorted StatSpec.byMinutesDesc l ->
  Sorted StatSpec.byMinutesDesc
         (JS.insert (fun a b => JS.gt (Analytics.minutes b - Analytics.minutes a) 0) x l).
Proof.
  assert (Hafter : forall a b,
             JS.gt (Analytics.minutes b - Analytics.minutes a) 0 = true
             -> StatSpec.byMinutesDesc b a).
  { intros a b H. apply gt_true in H. unfold StatSpec.byMinutesDesc. lra. }
  assert (Hnot : forall a b,
             JS.gt (Analytics.minutes b - Analytics.minutes a) 0 = false
             -> StatSpec.byMinutesDesc a b).
  { intros a b H. unfold StatSpec.byMinutesDesc.
    destruct (Qlt_le_dec (Analytics.minutes a) (Analytics.minutes b)) as [C | C];
      [| exact C].
    assert (G : JS.gt (Analytics.minutes b - Analytics.minutes a) 0 = true)
      by (apply gt_true; lra).
    congruence. }
  induction 1 as [| y r Hr IH Hhd]; cbn [JS.insert].
  - repeat constructor.
  - destruct (JS.gt (Analytics.minutes y - Analytics.minutes x) 0) eqn:E.
    + constructor; [exact IH |].
      destruct r as [| z r]; cbn [JS.insert].
      * constructor. apply Hafter, E.
      * destruct (JS.gt (Analytics.minutes z - Analytics.minutes x) 0); constructor.
        -- inversion Hhd; assumption.
        -- apply Hafter, E.
    + constructor; [constructor; assumption |].
      constructor. apply Hnot, E.
Qed.

Lemma topApps_sorted (logs : list UsageLog) :
  Sorted StatSpec.byMinutesDesc (Analytics.topApps logs).
Proof.
  unfold Analytics.topApps, JS.sort.
  induction (map _ (Analytics.groupByApp logs)) as [| a l IH]; cbn [fold_right];
    [constructor |].
  apply insert_byMinutes, IH.
Qed.

Lemma topApps_In (logs : list UsageLog) (app : Analytics.App) :
  In app (Analytics.topApps logs)
  <-> In (Analytics.name app, Analytics.minutes app) (Analytics.groupByApp logs).
Proof.
  unfold Analytics.topApps.
  rewrite <- (Permutation_in' (eq_refl app) (sort_perm _ _)), in_map_iff.
  split.
  - intros [[k v] [<- Hin]]. exact Hin.
  - intros Hin. exists (Analytics.name app, Analytics.minutes app).
    split; [destruct app; reflexivity | exact Hin].
Qed.

Lemma topApps_names (logs : list UsageLog) :
  Permutation (map Analytics.name (Analytics.topApps logs))
              (map fst (Analytics.groupByApp logs)).
Proof.
  unfold Analytics.topApps.
  rewrite <- (Permutation_map Analytics.name (sort_perm _ _)), map_map.
  cbn [Analytics.name]. reflexivity.
Qed.

(** X2. The app breakdown has one entry per distinct app name of the logs,
    and [appCount] is the number of distinct app names; the weekly and the
    daily statistics carry the same breakdown. *)
Theorem apps_one_per_app :
  forall logs,
    let apps := Daily.apps (Daily.calculateDailyStats (Some logs)) in
    NoDup (map Analytics.name apps)
    /\ (forall n, In n (map Analytics.name apps) <-> In n (map appName logs))
    /\ Daily.appCount (Daily.calculateDailyStats (Some logs)) = length apps
    /\ length apps = length (StatSpec.distinctApps logs)
    /\ Analytics.apps (Analytics.calculateWeeklyStats (Some logs)) = apps.
Proof.
  intros [| r rest].
  - cbn. repeat split; try constructor; tauto.
  - set (logs := r :: rest).
    change (Daily.apps (Daily.calculateDailyStats (Some logs)))
      with (Analytics.topApps logs).
    change (Daily.appCount (Daily.calculateDailyStats (Some logs)))
      with (length (Analytics.groupByApp logs)).
    change (Analytics.apps (Analytics.calculateWeeklyStats (Some logs)))
      with (Analytics.topApps logs).
    cbv zeta.
    destruct (group_keys String.eqb String.eqb_spec appName logs [] (NoDup_nil _))
      as [Hnd Hkeys].
    fold (Analytics.groupByApp logs) in Hnd, Hkeys.
    pose proof (topApps_names logs) as Hperm.
    assert (Hin : forall n, In n (map Analytics.name (Analytics.topApps logs))
                            <-> In n (map appName logs)).
    { intros n. split; intros H.
      - apply (Permutation_in _ Hperm) in H. apply Hkeys in H. cbn in H.
        destruct H as [[] | H]. exact H.
      - apply (Permutation_in _ (Permutation_sym Hperm)). apply Hkeys.
        right. exact H. }
    split; [eapply Permutation_NoDup; [symmetry; exact Hperm | exact Hnd] |].
    split; [exact Hin |].
    assert (Hlen : length (Analytics.topApps logs) = length (Analytics.groupByApp logs)).
    { rewrite <- (length_map Analytics.name), (Permutation_length Hperm).
      apply length_map. }
    split; [symmetry; exact Hlen |].
    split; [| reflexivity].
    rewrite <- (length_map Analytics.name).
    apply Permutation_length, NoDup_Permutation.
    + eapply Permutation_NoDup; [symmetry; exact Hperm | exact Hnd].
    + apply NoDup_nodup.
    + intros n. unfold StatSpec.distinctApps. rewrite nodup_In. apply Hin.
Qed.

(** X3. The app breakdown is sorted by minutes, descending, and the minutes
    of every entry are the sum of the minutes of the logs of that app. *)
Theorem apps_sorted_and_summed :
  forall logs,
    let apps := Analytics.apps (Analytics.calculateWeeklyStats (Some logs)) in
    Sorted StatSpec.byMinutesDesc apps
    /\ (forall app, In app apps ->
                    (Analytics.minutes app
                     == StatSpec.bucketMinutes String.eqb appName
                                               (Analytics.name app) logs)%Q).
Proof.
  intros [| r rest].
  - cbn. split; [constructor | tauto].
  - set (logs := r :: rest).
    change (Analytics.apps (Analytics.calculateWeeklyStats (Some logs)))
      with (Analytics.topApps logs).
    cbv zeta. split; [apply topApps_sorted |].
    intros app Hin. apply topApps_In in Hin.
    apply (group_entry String.eqb String.eqb_spec appName logs _ _ Hin).
Qed.

Lemma apps_sorted_and_summed_witness :
  (Analytics.minutes (Analytics.mkApp "app"%string 420)
   == StatSpec.bucketMinutes String.eqb appName "app"%string Sample.week60)%Q.
Proof.
  apply (proj2 (apps_sorted_and_summed Sample.week60)
               (Analytics.mkApp "app"%string 420%Q)).
  vm_compute. left. reflexivity.
Defined.

Lemma apps_one_per_app_witness :
  In "app"%string
     (map Analytics.name (Daily.apps (Daily.calculateDailyStats (Some Sample.week60)))).
Proof.
  apply (proj1 (proj2 (apps_one_per_app Sample.week60))).
  vm_compute. left. reflexivity.
Defined.

(** ** Time series *)

Section TimeSeries.
Variable isoDate : Z -> string.
Variables getDate getDay getFullYear getMonth : Z -> Z.
Variable setDate : Z -> Z -> Z.
Variable localeCompare : string -> string -> Z.

Let keyOf (period : string) : UsageLog -> string :=
  Series.bucketKey isoDate getDate getDay getFullYear getMonth setDate period.
Let series := Series.getTimeSeriesData isoDate getDate getDay getFullYear getMonth
                                       setDate localeCompare.

Lemma series_points (logs : list UsageLog) (period : string) (p : Series.Point) :
  In p (series (Some logs) (Some period)) ->
  exists q,
    In (Series.date p, q)
       (fold_left (fun dateMap log =>
                     Analytics.addMinutes String.eqb dateMap (keyOf period log)
                                          (minutesSpent log)) logs [])
    /\ Series.minutes p = Analytics.round2 q.
Proof.
  unfold series, Series.getTimeSeriesData.
  destruct logs as [| r rest]; [intros [] |].
  intros Hin. apply (Permutation_in _ (Permutation_sym (sort_perm _ _))) in Hin.
  apply in_map_iff in Hin. destruct Hin as [[k q] [<- Hin]].
  exists q. split; [exact Hin | reflexivity].
Qed.

Lemma series_keys (logs : list UsageLog) (period : string) :
  Permutation
    (map Series.date (series (Some logs) (Some period)))
    (map fst (fold_left (fun dateMap log =>
                           Analytics.addMinutes String.eqb dateMap (keyOf period log)
                                                (minutesSpent log)) logs [])).
Proof.
  unfold series, Series.getTimeSeriesData.
  destruct logs as [| r rest]; [reflexivity |].
  rewrite <- (Permutation_map Series.date (sort_perm _ _)), map_map.
  cbn [Series.date]. reflexivity.
Qed.

(** X4. The time series is empty for empty or absent logs and otherwise has
    exactly one point per bucket key of the logs, whose minutes are the
    rounded sum of the minutes of the logs of that bucket; the period
    defaults to [daily]. *)
Theorem time_series_buckets :
  forall logs period,
    let points := series (Some logs) (Some period) in
    NoDup (map Series.date points)
    /\ (forall k, In k (map Series.date points) <-> In k (map (keyOf period) logs))
    /\ (forall p, In p points ->
                  (Series.minutes p
                   == Analytics.round2
                        (StatSpec.bucketMinutes String.eqb (keyOf period)
                                                (Series.date p) logs))%Q)
    /\ series None (Some period) = []
    /\ series (Some []) (Some period) = []
    /\ series (Some logs) None = series (Some logs) (Some "daily"%string).
Proof.
  intros logs period points. subst points.
  destruct (group_keys String.eqb String.eqb_spec (keyOf period) logs [] (NoDup_nil _))
    as [Hnd Hkeys].
  pose proof (series_keys logs period) as Hperm.
  split; [eapply Permutation_NoDup; [symmetry; exact Hperm | exact Hnd] |].
  split.
  { intros k. split; intros H.
    - apply (Permutation_in _ Hperm) in H. apply Hkeys in H. cbn in H.
      destruct H as [[] | H]. exact H.
    - apply (Permutation_in _ (Permutation_sym Hperm)). apply Hkeys.
      right. exact H. }
  split.
  { intros p Hin. destruct (series_points logs period p Hin) as (q & Hq & ->).
    apply round2_compat.
    apply (group_entry String.eqb String.eqb_spec (keyOf period) logs _ _ Hq). }
  repeat split; reflexivity.
Qed.

End TimeSeries.

Lemma time_series_buckets_witness :
  In "2024-01"%string
     (map Series.date
        (Series.getTimeSeriesData (fun t => Mirror.showZ (t / JS.msPerDay))
           (fun _ => 1) (fun _ => 1) (fun _ => 2024) (fun _ => 0) (fun t _ => t)
           (fun a b => if String.leb a b then -1 else 1)
           (Some Sample.week60) (Some "monthly"%string))).
Proof.
  apply (proj1 (proj2 (time_series_buckets _ _ _ _ _ _ _ _ _))).
  vm_compute. left. reflexivity.
Defined.

(** ** The risk score: category, lower bound, factors *)

Lemma ge_cases (x c : Q) :
  (JS.ge x c = true /\ (c <= x)%Q) \/ (JS.ge x c = false /\ (x < c)%Q).
Proof.
  unfold JS.ge. destruct (Qle_bool c x) eqn:E.
  - left. split; [reflexivity | apply Qle_bool_iff, E].
  - right. split; [reflexivity |].
    apply Qnot_le_lt. intros C. apply Qle_bool_iff in C. congruence.
Qed.

Ltac split_ge :=
  repeat match goal with
         | |- context [ JS.ge ?x ?c ] =>
             let H := fresh "Hge" in
             destruct (ge_cases x c) as [[-> H] | [-> H]]; cbv iota
         end;
  unfold Qdiv;
  change (/ 120)%Q with (1 # 120)%Q; change (/ 60)%Q with (1 # 60)%Q.

(** X5. The category and the level follow the score: [High]/[high] from
    70, [Moderate]/[moderate] from 40 to 69, [Low]/[low] below 40. *)
Theorem risk_category_follows_score :
  forall weeklyLogs monthlyLogs,
    let r := Analytics.calculateRiskScore weeklyLogs monthlyLogs in
    (70 <= Analytics.score r
     /\ Analytics.category r = "High"%string /\ Analytics.level r = "high"%string)
    \/ (40 <= Analytics.score r < 70
        /\ Analytics.category r = "Moderate"%string
        /\ Analytics.level r = "moderate"%string)
    \/ (Analytics.score r < 40
        /\ Analytics.category r = "Low"%string /\ Analytics.level r = "low"%string).
Proof.
  intros [[| w ws] |] m; cbv zeta.
  - right. right. cbn. repeat split; try lia.
  - rewrite riskScore_of_totals. cbv zeta.
    set (s := Spec.riskOfDailyTotals (Spec.dailyTotals (w :: ws))).
    destruct (s >=? 70) eqn:E70; [| destruct (s >=? 40) eqn:E40];
      cbn [Analytics.score Analytics.category Analytics.level];
      rewrite ?Z.geb_leb in *;
      rewrite ?Z.leb_le, ?Z.leb_gt in *.
    + left. repeat split; try lia.
    + right. left. repeat split; try lia.
    + right. right. repeat split; try lia.
  - right. right. cbn. repeat split; try lia.
Qed.

Lemma avgDailyPoints_range (x : Q) :
  (0 <= x)%Q ->
  (0 <= Analytics.avgDailyPoints x <= 40)%Q.
Proof. intros H. unfold Analytics.avgDailyPoints. split_ge; lra. Qed.

Lemma peakPoints_range (x : Q) :
  (0 <= x)%Q ->
  (0 <= Analytics.peakPoints x <= 20)%Q.
Proof. intros H. unfold Analytics.peakPoints. split_ge; lra. Qed.

(** X6. Both usage factors grow with the usage: more average minutes never
    give fewer points, nor does a higher peak; for non-negative minutes
    the average factor stays within 0..40 and the peak factor within
    0..20. *)
Theorem usage_factors_monotone :
  (forall x y, (x <= y)%Q ->
               (Analytics.avgDailyPoints x <= Analytics.avgDailyPoints y)%Q)
  /\ (forall x y, (x <= y)%Q ->
                  (Analytics.peakPoints x <= Analytics.peakPoints y)%Q)
  /\ (forall x, (0 <= x)%Q -> (0 <= Analytics.avgDailyPoints x <= 40)%Q)
  /\ (forall x, (0 <= x)%Q -> (0 <= Analytics.peakPoints x <= 20)%Q).
Proof.
  split; [| split; [| split; [exact avgDailyPoints_range | exact peakPoints_range]]].
  - intros x y H. unfold Analytics.avgDailyPoints. split_ge; lra.
  - intros x y H. unfold Analytics.peakPoints. split_ge; lra.
Qed.

Lemma usage_factors_monotone_witness :
  (Analytics.avgDailyPoints 100 <= Analytics.avgDailyPoints 400)%Q.
Proof. apply (proj1 usage_factors_monotone). lra. Defined.

Lemma Math_max_ge_last (xs : list Q) (c : Q) : (c <= JS.Math_max xs c)%Q.
Proof.
  unfold JS.Math_max. induction xs as [| x xs IH]; cbn [fold_right]; [lra |].
  eapply Qle_trans; [exact IH | apply Q.le_max_r].
Qed.

Lemma Math_round_mono (x y : Q) : (x <= y)%Q -> JS.Math_round x <= JS.Math_round y.
Proof. intros H. unfold JS.Math_round. apply Qfloor_resp_le. lra. Qed.

Lemma round2_nonneg (x : Q) : (0 <= x)%Q -> (0 <= Analytics.round2 x)%Q.
Proof.
  intros H. unfold Analytics.round2.
  assert (Hr : 0 <= JS.Math_round (x * 100)).
  { change 0 with (JS.Math_round 0). apply Math_round_mono. lra. }
  apply Qle_shift_div_l; [reflexivity |].
  rewrite Qmult_0_l. change 0%Q with (inject_Z 0). rewrite <- Zle_Qle. exact Hr.
Qed.

Lemma sum_nonneg (xs : list Q) : Forall (Qle 0) xs -> (0 <= JS.sum xs)%Q.
Proof. intros H. apply fold_plus_nonneg; [exact H | lra]. Qed.

(** X7. A week with at least one log, all of non-negative minutes, scores
    at least 13: the score 0 is kept for the empty week. *)
Theorem risk_nonempty_week_at_least_13 :
  forall r logs monthlyLogs,
    Forall (fun l => 0 <= minutesSpent l)%Q (r :: logs) ->
    13 <= Analytics.score (Analytics.calculateRiskScore (Some (r :: logs)) monthlyLogs).
Proof.
  intros r logs m Hpos.
  assert (Hscore : Analytics.score (Analytics.calculateRiskScore (Some (r :: logs)) m)
                   = Spec.riskOfDailyTotals (Spec.dailyTotals (r :: logs))).
  { rewrite riskScore_of_totals. cbv zeta.
    destruct (_ >=? 70); [| destruct (_ >=? 40)]; reflexivity. }
  rewrite Hscore. clear Hscore.
  pose proof (dailyTotals_nonneg _ Hpos) as Htot.
  pose proof (groupByDate_size (r :: logs)) as Hsize.
  assert (Hdays : (1 <= length (Spec.dailyTotals (r :: logs)))%nat).
  { rewrite Hsize. unfold Spec.distinctDays.
    assert (Hin : In (Analytics.dateKey r)
                     (nodup Z.eq_dec (map Analytics.dateKey (r :: logs))))
      by (apply nodup_In; left; reflexivity).
    destruct (nodup Z.eq_dec (map Analytics.dateKey (r :: logs)));
      [contradiction | cbn; lia]. }
  set (totals := Spec.dailyTotals (r :: logs)) in *.
  unfold Spec.riskOfDailyTotals, Spec.clamp. cbv zeta.
  set (days := length totals) in *.
  assert (Havg : (0 <= Analytics.avgDailyPoints
                         (Analytics.round2
                            (JS.sum totals / inject_Z (Z.max 1 (Z.of_nat days)))))%Q).
  { apply avgDailyPoints_range, round2_nonneg.
    apply Qle_shift_div_l.
    - change 0%Q with (inject_Z 0). rewrite <- Zlt_Qlt. lia.
    - rewrite Qmult_0_l. apply sum_nonneg, Htot. }
  assert (Hpeak : (0 <= Analytics.peakPoints (JS.Math_max totals 0))%Q)
    by (apply peakPoints_range, Math_max_ge_last).
  assert (Hrest : (90 # 7 <= inject_Z (Z.of_nat days) / 7 * 20
                             + Analytics.trendPoints (Analytics.trendOf totals))%Q).
  { destruct (le_lt_dec 4 days) as [H4 | H4].
    - assert (Hd : (4 <= inject_Z (Z.of_nat days))%Q).
      { change 4%Q with (inject_Z 4). rewrite <- Zle_Qle. lia. }
      assert (Ht : (5 <= Analytics.trendPoints (Analytics.trendOf totals))%Q)
        by (destruct (Analytics.trendOf totals); cbn; lra).
      unfold Qdiv. change (/ 7)%Q with (1 # 7)%Q. lra.
    - rewrite (trendOf_short totals H4). cbn [Analytics.trendPoints].
      assert (Hd : (1 <= inject_Z (Z.of_nat days))%Q).
      { change 1%Q with (inject_Z 1). rewrite <- Zle_Qle. lia. }
      unfold Qdiv. change (/ 7)%Q with (1 # 7)%Q. lra. }
  assert (Hround : 13 <= JS.Math_round
                          (0 + Analytics.avgDailyPoints
                                 (Analytics.round2
                                    (JS.sum totals / inject_Z (Z.max 1 (Z.of_nat days))))
                           + Analytics.peakPoints (JS.Math_max totals 0)
                           + inject_Z (Z.of_nat days) / 7 * 20
                           + Analytics.trendPoints (Analytics.trendOf totals))%Q).
  { change 13 with (JS.Math_round (90 # 7)). apply Math_round_mono. lra. }
  lia.
Qed.

Lemma risk_nonempty_week_at_least_13_witness :
  13 <= Analytics.score
          (Analytics.calculateRiskScore (Some [Sample.plain "app" 0 0]) None).
Proof.
  apply risk_nonempty_week_at_least_13.
  repeat constructor. vm_compute. discriminate.
Defined.

(** * Further properties of the honesty score *)

Lemma NoDup_map_injective {A B} (f : A -> B) (l : list A) (a b : A) :
  NoDup (map f l) -> In a l -> In b l -> f a = f b -> a = b.
Proof.
  induction l as [| x l IH]; cbn [map]; intros Hnd Ha Hb Hf; [contradiction |].
  inversion Hnd as [| y ys Hy Hys]; subst.
  destruct Ha as [-> | Ha], Hb as [-> | Hb].
  - reflexivity.
  - exfalso. apply Hy. rewrite Hf. apply in_map, Hb.
  - exfalso. apply Hy. rewrite <- Hf. apply in_map, Ha.
  - apply IH; assumption.
Qed.

Lemma byDate_head_least (a : UsageLog) (l : list UsageLog) :
  Sorted Spec.byDate (a :: l) -> forall b, In b (a :: l) -> date a <= date b.
Proof.
  intros Hs b Hb.
  assert (Htrans : Relations_1.Transitive Spec.byDate)
    by (intros x y z; unfold Spec.byDate; lia).
  apply (Sorted_StronglySorted Htrans) in Hs.
  inversion Hs as [| x xs _ Hall]; subst.
  destruct Hb as [<- | Hb]; [lia |].
  rewrite Forall_forall in Hall. apply Hall, Hb.
Qed.

Lemma sorted_by_distinct_dates_unique (l1 : list UsageLog) :
  forall l2,
    Sorted Spec.byDate l1 -> Sorted Spec.byDate l2 ->
    Permutation l1 l2 -> NoDup (map date l1) -> l1 = l2.
Proof.
  induction l1 as [| a r1 IH]; intros l2 H1 H2 Hperm Hnd.
  - apply Permutation_nil in Hperm. congruence.
  - destruct l2 as [| b r2];
      [apply Permutation_sym, Permutation_nil in Hperm; discriminate |].
    assert (Hab : a = b).
    { apply (NoDup_map_injective date (a :: r1)); [exact Hnd | left; reflexivity | |].
      - apply (Permutation_in _ (Permutation_sym Hperm)). left. reflexivity.
      - apply Z.le_antisymm.
        + apply (byDate_head_least a r1 H1).
          apply (Permutation_in _ (Permutation_sym Hperm)). left. reflexivity.
        + apply (byDate_head_least b r2 H2).
          apply (Permutation_in _ Hperm). left. reflexivity. }
    subst b. f_equal.
    apply IH.
    + inversion H1; assumption.
    + inversion H2; assumption.
    + apply (Permutation_cons_inv Hperm).
    + inversion Hnd; assumption.
Qed.

(** X8. When no two entries carry the same date, the honesty score does
    not depend on the order in which the entries are given. *)
Theorem honesty_score_order_independent :
  forall entries entries',
    Permutation entries entries' ->
    NoDup (map date entries) ->
    Honesty.calculateDigitalHonestyScore (Some entries)
    = Honesty.calculateDigitalHonestyScore (Some entries').
Proof.
  intros entries entries' Hperm Hnd.
  assert (Hsort : Honesty.sortByDate entries = Honesty.sortByDate entries').
  { apply sorted_by_distinct_dates_unique.
    - apply sortByDate_sorted.
    - apply sortByDate_sorted.
    - rewrite <- (sortByDate_perm entries), <- (sortByDate_perm entries'). exact Hperm.
    - apply (Permutation_NoDup (Permutation_map date (sortByDate_perm entries))), Hnd. }
  pose proof (Permutation_length Hperm) as Hlen.
  destruct entries as [| e1 [| e2 es]].
  - apply Permutation_nil in Hperm. subst. reflexivity.
  - apply Permutation_length_1_inv in Hperm. subst. reflexivity.
  - destruct entries' as [| e1' [| e2' es']]; try discriminate Hlen.
    rewrite !honestyScore_unfold. cbv zeta. rewrite Hsort. reflexivity.
Qed.

Lemma honesty_score_order_independent_witness :
  Honesty.calculateDigitalHonestyScore (Some (Sample.onDays [0; 20; 40]))
  = Honesty.calculateDigitalHonestyScore (Some (Sample.onDays [40; 0; 20])).
Proof.
  apply honesty_score_order_independent.
  - unfold Sample.onDays. cbn [map].
    apply Permutation_cons_app with (l1 := [_]) (l2 := [_]).
    apply perm_swap.
  - vm_compute. repeat constructor; cbn; intuition discriminate.
Defined.

(** * Further properties of the regret analysis *)

Lemma lt_cases (x c : Q) :
  (JS.lt x c = true /\ (x < c)%Q) \/ (JS.lt x c = false /\ (c <= x)%Q).
Proof.
  destruct (JS.lt x c) eqn:E.
  - left. split; [reflexivity | apply lt_true, E].
  - right. split; [reflexivity |].
    destruct (Qlt_le_dec x c) as [C | C]; [| exact C].
    apply lt_true in C. congruence.
Qed.

Ltac split_lt :=
  repeat match goal with
         | |- context [ JS.lt ?x ?c ] =>
             let H := fresh "Hlt" in
             destruct (lt_cases x c) as [[-> H] | [-> H]]; cbv iota
         end.

Ltac split_if :=
  repeat match goal with
         | |- context [ if ?b then _ else _ ] => destruct b
         end.

Lemma factor_shift :
  let shifted (f : Regret.State -> Regret.State) :=
    forall s a b h,
      f (s, Regret.mkTypes a b h)
      = (s + fst (f (0, Regret.mkTypes 0 0 0)),
         Regret.mkTypes
           (a + Regret.attentionDrain (snd (f (0, Regret.mkTypes 0 0 0))))
           (b + Regret.burnout (snd (f (0, Regret.mkTypes 0 0 0))))
           (h + Regret.habitualScrolling (snd (f (0, Regret.mkTypes 0 0 0))))) in
  (forall x, shifted (Regret.factorDailyAvg x))
  /\ (forall x, shifted (Regret.factorLateNight x))
  /\ (forall x, shifted (Regret.factorIntentDrift x))
  /\ (forall x, shifted (Regret.factorTrend x))
  /\ (forall x, shifted (Regret.factorHonesty x)).
Proof.
  cbv zeta.
  repeat split; intros x s a b h;
    unfold Regret.factorDailyAvg, Regret.factorLateNight, Regret.factorIntentDrift,
      Regret.factorTrend, Regret.factorHonesty;
    split_if; cbn; rewrite ?Z.add_0_r; reflexivity.
Qed.

Lemma factor_gains :
  (forall x, exists p a b,
      Regret.factorDailyAvg x (0, Regret.mkTypes 0 0 0) = (p, Regret.mkTypes a b 0)
      /\ a + b = p /\ 0 <= a <= 20 /\ 0 <= b <= 10)
  /\ (forall x, exists p b h,
         Regret.factorLateNight x (0, Regret.mkTypes 0 0 0) = (p, Regret.mkTypes 0 b h)
         /\ b + h = p /\ 0 <= b <= 20 /\ 0 <= h <= 5)
  /\ (forall x, exists p a h,
         Regret.factorIntentDrift x (0, Regret.mkTypes 0 0 0) = (p, Regret.mkTypes a 0 h)
         /\ a + h = p /\ 0 <= a <= 5 /\ 0 <= h <= 20)
  /\ (forall x, exists p a b h,
         Regret.factorTrend x (0, Regret.mkTypes 0 0 0) = (p, Regret.mkTypes a b h)
         /\ a + b + h = p /\ p <= 10 /\ 0 <= a <= 5 /\ 0 <= b <= 5 /\ 0 <= h <= 5)
  /\ (forall x, exists p h,
         Regret.factorHonesty x (0, Regret.mkTypes 0 0 0) = (p, Regret.mkTypes 0 0 h)
         /\ h = p - (if JS.lt x 80 then 5 else 0) /\ 0 <= h <= 5).
Proof.
  repeat split; intros x;
    unfold Regret.factorDailyAvg, Regret.factorLateNight, Regret.factorIntentDrift,
      Regret.factorTrend, Regret.factorHonesty.
  - split_if; cbn; do 3 eexists; (split; [reflexivity | lia]).
  - split_if; cbn; do 3 eexists; (split; [reflexivity | lia]).
  - split_if; cbn; do 3 eexists; (split; [reflexivity | lia]).
  - split_if; cbn; do 4 eexists; (split; [reflexivity | lia]).
  - split_lt; try (exfalso; lra); cbn; do 2 eexists; (split; [reflexivity | lia]).
Qed.

(** X9. The three accumulators add up to the regret score, less the 5
    points of a honesty score below 80 that no accumulator receives: the
    factors never add up to more than 100, so the clamp leaves their sum
    as it is.  The accumulators stay within 0..30, 0..35 and 0..35. *)
Theorem regret_points_attributed :
  forall data,
    let r := Regret.analyzeRegretPatterns data in
    let rt := Regret.regretTypes r in
    Regret.attentionDrain rt + Regret.burnout rt + Regret.habitualScrolling rt
    = Regret.regretScore r - (if JS.lt (Regret.honestyScore data) 80 then 5 else 0)
    /\ 0 <= Regret.attentionDrain rt <= 30
    /\ 0 <= Regret.burnout rt <= 35
    /\ 0 <= Regret.habitualScrolling rt <= 35.
Proof.
  intros [es a ln dr tr h]. cbv zeta.
  unfold Regret.analyzeRegretPatterns.
  cbn [Regret.dailyAvg Regret.lateNightFrequency Regret.intentDriftFrequency
       Regret.riskScoreTrend Regret.honestyScore].
  destruct factor_shift as (S1 & S2 & S3 & S4 & S5).
  destruct factor_gains as (G1 & G2 & G3 & G4 & G5).
  destruct (G1 a) as (p1 & a1 & b1 & E1 & C1).
  destruct (G2 ln) as (p2 & b2 & h2 & E2 & C2).
  destruct (G3 dr) as (p3 & a3 & h3 & E3 & C3).
  destruct (G4 tr) as (p4 & a4 & b4 & h4 & E4 & C4).
  destruct (G5 h) as (p5 & h5 & E5 & C5).
  rewrite S1, E1. cbn [fst snd Regret.attentionDrain Regret.burnout
                       Regret.habitualScrolling].
  rewrite S2, E2. cbn [fst snd Regret.attentionDrain Regret.burnout
                       Regret.habitualScrolling].
  rewrite S3, E3. cbn [fst snd Regret.attentionDrain Regret.burnout
                       Regret.habitualScrolling].
  rewrite S4, E4. cbn [fst snd Regret.attentionDrain Regret.burnout
                       Regret.habitualScrolling].
  rewrite S5, E5. cbn [fst snd Regret.attentionDrain Regret.burnout
                       Regret.habitualScrolling Regret.regretTypes Regret.regretScore].
  destruct (JS.lt h 80); lia.
Qed.

Lemma factor_points :
  (forall x st, fst (Regret.factorDailyAvg x st)
                = fst st + RegretSpec.pointsOf (Regret.factorDailyAvg x))
  /\ (forall x st, fst (Regret.factorLateNight x st)
                   = fst st + RegretSpec.pointsOf (Regret.factorLateNight x))
  /\ (forall x st, fst (Regret.factorIntentDrift x st)
                   = fst st + RegretSpec.pointsOf (Regret.factorIntentDrift x))
  /\ (forall x st, fst (Regret.factorTrend x st)
                   = fst st + RegretSpec.pointsOf (Regret.factorTrend x))
  /\ (forall x st, fst (Regret.factorHonesty x st)
                   = fst st + RegretSpec.pointsOf (Regret.factorHonesty x)).
Proof.
  unfold RegretSpec.pointsOf.
  repeat split; intros x [s rt];
    unfold Regret.factorDailyAvg, Regret.factorLateNight, Regret.factorIntentDrift,
      Regret.factorTrend, Regret.factorHonesty;
    split_if; cbn; lia.
Qed.

Lemma regretScore_points (data : Regret.Data) :
  Regret.regretScore (Regret.analyzeRegretPatterns data)
  = Z.min 100
      (Z.max 0
         (RegretSpec.pointsOf (Regret.factorDailyAvg (Regret.dailyAvg data))
          + RegretSpec.pointsOf (Regret.factorLateNight (Regret.lateNightFrequency data))
          + RegretSpec.pointsOf
              (Regret.factorIntentDrift (Regret.intentDriftFrequency data))
          + RegretSpec.pointsOf (Regret.factorTrend (Regret.riskScoreTrend data))
          + RegretSpec.pointsOf (Regret.factorHonesty (Regret.honestyScore data)))).
Proof.
  destruct factor_points as (H1 & H2 & H3 & H4 & H5).
  unfold Regret.analyzeRegretPatterns.
  set (st4 := Regret.factorTrend _ _).
  pose proof (H5 (Regret.honestyScore data) st4) as E5.
  destruct (Regret.factorHonesty (Regret.honestyScore data) st4) as [s rt].
  cbn [Regret.regretScore]. cbn [fst] in E5. subst s st4.
  rewrite H4, H3, H2, H1. cbn [fst]. lia.
Qed.

Lemma points_monotone :
  (forall x y, (x <= y)%Q ->
               RegretSpec.pointsOf (Regret.factorDailyAvg x)
               <= RegretSpec.pointsOf (Regret.factorDailyAvg y))
  /\ (forall x y, (x <= y)%Q ->
                  RegretSpec.pointsOf (Regret.factorLateNight x)
                  <= RegretSpec.pointsOf (Regret.factorLateNight y))
  /\ (forall x y, (x <= y)%Q ->
                  RegretSpec.pointsOf (Regret.factorIntentDrift x)
                  <= RegretSpec.pointsOf (Regret.factorIntentDrift y))
  /\ (forall x y, (y <= x)%Q ->
                  RegretSpec.pointsOf (Regret.factorHonesty x)
                  <= RegretSpec.pointsOf (Regret.factorHonesty y)).
Proof.
  unfold RegretSpec.pointsOf.
  repeat split; intros x y H;
    unfold Regret.factorDailyAvg, Regret.factorLateNight, Regret.factorIntentDrift,
      Regret.factorHonesty;
    split_ge; split_lt; first [ cbn; lia | exfalso; lra ].
Qed.

(** X10. The regret score is monotone in its signals: a higher daily
    average, a higher late-night frequency or a higher intent-drift
    frequency never lowers it, and a higher honesty score never raises
    it. *)
Theorem regret_score_monotone :
  forall entries entries' dailyAvg dailyAvg' late late' drift drift' trend
         honesty honesty',
    (dailyAvg <= dailyAvg')%Q -> (late <= late')%Q -> (drift <= drift')%Q ->
    (honesty' <= honesty)%Q ->
    Regret.regretScore
      (Regret.analyzeRegretPatterns
         (Regret.mkData entries dailyAvg late drift trend honesty))
    <= Regret.regretScore
         (Regret.analyzeRegretPatterns
            (Regret.mkData entries' dailyAvg' late' drift' trend honesty')).
Proof.
  intros es es' a a' l l' d d' t h h' Ha Hl Hd Hh.
  rewrite !regretScore_points.
  cbn [Regret.dailyAvg Regret.lateNightFrequency Regret.intentDriftFrequency
       Regret.riskScoreTrend Regret.honestyScore].
  destruct points_monotone as (M1 & M2 & M3 & M4).
  specialize (M1 a a' Ha). specialize (M2 l l' Hl).
  specialize (M3 d d' Hd). specialize (M4 h h' Hh).
  lia.
Qed.

Lemma regret_score_monotone_witness :
  Regret.regretScore (Regret.analyzeRegretPatterns Sample.quiet)
  <= Regret.regretScore (Regret.analyzeRegretPatterns Sample.heavy).
Proof.
  apply (regret_score_monotone [] [] 0 240 0 0 0 0 "stable" 100 100); lra.
Defined.

Lemma nodup_check (l : list string) : nodup string_dec l = l -> NoDup l.
Proof. intros H. rewrite <- H. apply NoDup_nodup. Qed.

Lemma notIn_check (g : string) (l : list string) :
  forallb (fun x => negb (String.eqb x g)) l = true -> ~ In g l.
Proof.
  rewrite forallb_forall. intros H Hin. specialize (H g Hin).
  rewrite String.eqb_refl in H. discriminate H.
Qed.

(** X11. The regret list is never empty, has at most seven items and no
    item twice; it is the single generic item exactly when none of the
    seven conditions holds, and otherwise does not contain it. *)
Theorem regret_list_shape :
  forall analysis stats,
    let items := Narrative.generateRegretList analysis stats in
    (1 <= length items <= 7)%nat
    /\ NoDup items
    /\ (RegretSpec.someTrigger analysis stats = false
        -> items = [RegretSpec.genericItem])
    /\ (RegretSpec.someTrigger analysis stats = true
        -> ~ In RegretSpec.genericItem items).
Proof.
  intros analysis stats. cbv zeta.
  unfold Narrative.generateRegretList, RegretSpec.someTrigger. cbv zeta.
  repeat match goal with
         | |- context [ Narrative.pushIf _ ?s _ ] =>
             tryif is_var s then fail else (let item := fresh "item" in set (item := s))
         end.
  destruct (JS.gt (Narrative.lateNightFrequency stats) (3 # 10));
  destruct (JS.gt (Narrative.intentDriftFrequency stats) (4 # 10));
  destruct (JS.gt (Narrative.dailyAvg stats) 180);
  destruct (Regret.habitualScrolling (Regret.regretTypes analysis) >? 15);
  destruct (Regret.attentionDrain (Regret.regretTypes analysis) >? 15);
  destruct (Regret.burnout (Regret.regretTypes analysis) >? 15);
  destruct (JS.gt (Narrative.repeatedOpens stats) 5);
  cbn [Narrative.pushIf app length Nat.eqb orb];
  (split; [lia |]);
  (split; [apply nodup_check; vm_compute; reflexivity |]);
  (split; [intros H; first [discriminate H | reflexivity] |]);
  intros H;
  first [ discriminate H | apply notIn_check; vm_compute; reflexivity ].
Qed.

Lemma regret_list_shape_witness :
  Narrative.generateRegretList (Regret.analyzeRegretPatterns Sample.quiet)
                               (Narrative.mkStats 0 3 0 0 0)
  = [RegretSpec.genericItem].
Proof.
  apply (proj1 (proj2 (proj2 (regret_list_shape _ _)))). reflexivity.
Defined.

(** * Further properties of the digital mirror *)

(** ** Appending under a key *)

Section PushUnder.
Context {K : Type} (eqb : K -> K -> bool).
Hypothesis eqb_spec : forall a b, reflect (a = b) (eqb a b).

Lemma get_set_at {V} (pre post : list (K * V)) (k : K) (v v' : V) :
  ~ In k (map fst pre) ->
  JS.get eqb (pre ++ (k, v) :: post) k = Some v
  /\ JS.set eqb (pre ++ (k, v) :: post) k v' = pre ++ (k, v') :: post.
Proof.
  induction pre as [| [k0 v0] pre IH]; cbn [map fst app JS.get JS.set]; intros Hout.
  - destruct (eqb_spec k k) as [_ | C]; [split; reflexivity | congruence].
  - destruct (eqb_spec k k0) as [E | _]; [exfalso; apply Hout; left; congruence |].
    destruct IH as [Hg Hs]; [intros C; apply Hout; right; exact C |].
    rewrite Hg, Hs. split; reflexivity.
Qed.

Lemma get_set_new {V} (m : list (K * V)) (k : K) (v' : V) :
  ~ In k (map fst m) ->
  JS.get eqb m k = None /\ JS.set eqb m k v' = m ++ [(k, v')].
Proof.
  induction m as [| [k0 v0] m IH]; cbn [map fst app JS.get JS.set]; intros Hout.
  - split; reflexivity.
  - destruct (eqb_spec k k0) as [E | _]; [exfalso; apply Hout; left; congruence |].
    destruct IH as [Hg Hs]; [intros C; apply Hout; right; exact C |].
    rewrite Hg, Hs. split; reflexivity.
Qed.

Lemma first_occurrence {V} (m : list (K * V)) (k : K) :
  In k (map fst m) ->
  exists pre v post, m = pre ++ (k, v) :: post /\ ~ In k (map fst pre).
Proof.
  induction m as [| [k0 v0] m IH]; cbn [map fst]; intros Hin; [contradiction |].
  destruct (eqb_spec k k0) as [-> | Hne].
  - exists [], v0, m. split; [reflexivity | intros []].
  - destruct IH as (pre & v & post & -> & Hout); [destruct Hin; congruence |].
    exists ((k0, v0) :: pre), v, post. split; [reflexivity |].
    cbn [map fst]. intros [C | C]; [congruence | contradiction].
Qed.

Lemma pushUnder_cases (groups : list (K * list UsageLog)) (k : K) (e : UsageLog) :
  (exists pre es post,
      groups = pre ++ (k, es) :: post /\ ~ In k (map fst pre)
      /\ Mirror.pushUnder eqb groups k e = pre ++ (k, es ++ [e]) :: post)
  \/ (~ In k (map fst groups)
      /\ Mirror.pushUnder eqb groups k e = groups ++ [(k, [e])]).
Proof.
  unfold Mirror.pushUnder, JS.has.
  destruct (in_dec (fun a b => reflect_dec _ _ (eqb_spec a b)) k (map fst groups))
    as [Hin | Hout].
  - left. destruct (first_occurrence groups k Hin) as (pre & es & post & -> & Hout).
    exists pre, es, post. split; [reflexivity |]. split; [exact Hout |].
    destruct (get_set_at pre post k es (es ++ [e]) Hout) as [Hg Hs].
    rewrite Hg, Hg, Hs. reflexivity.
  - right. split; [exact Hout |].
    destruct (get_set_new groups k (@nil UsageLog) Hout) as [Hg Hs].
    rewrite Hg, Hs.
    destruct (get_set_at groups [] k (@nil UsageLog) ([] ++ [e]) Hout) as [Hg' Hs'].
    rewrite Hg', Hs'. reflexivity.
Qed.

Variable key : UsageLog -> K.

Let grouped := MirrorSpec.grouped key.

Lemma pushUnder_grouped (groups : list (K * list UsageLog)) (es : list UsageLog)
    (e : UsageLog) :
  grouped groups es ->
  grouped (Mirror.pushUnder eqb groups (key e) e) (es ++ [e]).
Proof.
  intros (Hnd & Hkeys & Hperm).
  destruct (pushUnder_cases groups (key e) e)
    as [(pre & ge & post & -> & Hout & ->) | (Hout & ->)].
  - split; [| split].
    + rewrite map_app in *. exact Hnd.
    + intros k ge' Hin. apply in_app_or in Hin. destruct Hin as [Hin | [Hin | Hin]].
      * apply Hkeys. apply in_or_app. left. exact Hin.
      * inversion Hin; subst. split; [destruct ge; discriminate |].
        intros e' He'. apply in_app_or in He'. destruct He' as [He' | [<- | []]].
        -- apply (Hkeys (key e) ge); [apply in_or_app; right; left |]; auto.
        -- reflexivity.
      * apply Hkeys. apply in_or_app. right. right. exact Hin.
    + rewrite map_app, concat_app in Hperm |- *. cbn [map snd concat] in Hperm |- *.
      rewrite <- Hperm.
      set (cp := concat (map snd pre)). set (cq := concat (map snd post)).
      replace (cp ++ (ge ++ [e]) ++ cq) with (cp ++ ge ++ [e] ++ cq)
        by (rewrite <- (app_assoc ge); reflexivity).
      replace ((cp ++ ge ++ cq) ++ [e]) with (cp ++ ge ++ cq ++ [e])
        by (rewrite <- !app_assoc; reflexivity).
      apply Permutation_app_head, Permutation_app_head, Permutation_app_comm.
  - split; [| split].
    + rewrite map_app. cbn [map fst].
      apply (Permutation_NoDup (Permutation_cons_append _ _)).
      constructor; assumption.
    + intros k ge' Hin. apply in_app_or in Hin. destruct Hin as [Hin | [Hin | []]].
      * apply Hkeys, Hin.
      * inversion Hin; subst. split; [discriminate |].
        intros e' [<- | []]. reflexivity.
    + rewrite map_app, concat_app. cbn [map snd concat]. rewrite app_nil_r.
      apply Permutation_app_tail, Hperm.
Qed.

Lemma fold_pushUnder_grouped (es : list UsageLog) :
  forall groups done,
    grouped groups done ->
    grouped (fold_left (fun groups e => Mirror.pushUnder eqb groups (key e) e) es groups)
            (done ++ es).
Proof.
  induction es as [| e es IH]; intros groups done H; cbn [fold_left].
  - rewrite app_nil_r. exact H.
  - replace (done ++ e :: es) with ((done ++ [e]) ++ es)
      by (rewrite <- app_assoc; reflexivity).
    apply IH, pushUnder_grouped, H.
Qed.

End PushUnder.

(** ** Groups and insights *)

Lemma groupByIntention_grouped (es : list UsageLog) :
  MirrorSpec.grouped MirrorSpec.groupKey (Mirror.groupByIntention es) es.
Proof.
  apply (fold_pushUnder_grouped String.eqb String.eqb_spec MirrorSpec.groupKey es [] []).
  split; [constructor | split; [intros k ge [] | constructor]].
Qed.

Lemma group_of_entry (es : list UsageLog) (e : UsageLog) :
  In e es ->
  exists ge, In (MirrorSpec.groupKey e, ge) (Mirror.groupByIntention es) /\ In e ge.
Proof.
  intros Hin. destruct (groupByIntention_grouped es) as (_ & Hkeys & Hperm).
  apply (Permutation_in _ (Permutation_sym Hperm)) in Hin.
  apply in_concat in Hin. destruct Hin as (ge & Hge & He).
  apply in_map_iff in Hge. destruct Hge as ([k ge'] & <- & Hg). cbn [snd] in He.
  destruct (Hkeys k ge' Hg) as [_ Hk]. rewrite <- (Hk e He) in Hg.
  exists ge'. split; assumption.
Qed.

Lemma ascii_eqb_N (c d : ascii) :
  Ascii.eqb c d = (N_of_ascii c =? N_of_ascii d)%N.
Proof.
  destruct (Ascii.eqb_spec c d) as [E | E].
  - subst. symmetry. apply N.eqb_refl.
  - symmetry. apply N.eqb_neq. intros H. apply E.
    rewrite <- (ascii_N_embedding c), <- (ascii_N_embedding d), H. reflexivity.
Qed.

Lemma N_lowerChar (c : ascii) :
  N_of_ascii (Mirror.lowerChar c)
  = if MirrorSpec.isCapital c then (N_of_ascii c + 32)%N else N_of_ascii c.
Proof.
  unfold Mirror.lowerChar, MirrorSpec.isCapital. cbv zeta.
  destruct ((65 <=? N_of_ascii c) && (N_of_ascii c <=? 90))%N eqn:E; [| reflexivity].
  apply andb_true_iff in E. destruct E as [_ E]. apply N.leb_le in E.
  apply N_ascii_embedding. lia.
Qed.

Lemma sameLetter_spec (c d : ascii) :
  MirrorSpec.sameLetter c d = true <-> Mirror.lowerChar c = Mirror.lowerChar d.
Proof.
  assert (Hinj : Mirror.lowerChar c = Mirror.lowerChar d
                 <-> N_of_ascii (Mirror.lowerChar c) = N_of_ascii (Mirror.lowerChar d)).
  { split; [intros ->; reflexivity |]. intros H.
    rewrite <- (ascii_N_embedding (Mirror.lowerChar c)),
            <- (ascii_N_embedding (Mirror.lowerChar d)), H. reflexivity. }
  rewrite Hinj, !N_lowerChar. unfold MirrorSpec.sameLetter, MirrorSpec.isCapital.
  rewrite ascii_eqb_N.
  destruct (N.leb_spec 65 (N_of_ascii c)), (N.leb_spec (N_of_ascii c) 90),
           (N.leb_spec 65 (N_of_ascii d)), (N.leb_spec (N_of_ascii d) 90),
           (N.eqb_spec (N_of_ascii c) (N_of_ascii d)),
           (N.eqb_spec (N_of_ascii d) (N_of_ascii c + 32)),
           (N.eqb_spec (N_of_ascii c) (N_of_ascii d + 32));
    cbn [andb orb]; split; intros; try reflexivity; try discriminate; lia.
Qed.

Lemma sameIgnoringCase_spec (s : string) :
  forall t,
    MirrorSpec.sameIgnoringCase s t = true
    <-> Mirror.toLowerCase s = Mirror.toLowerCase t.
Proof.
  induction s as [| c s IH]; intros [| d t];
    cbn [MirrorSpec.sameIgnoringCase Mirror.toLowerCase];
    try (split; [reflexivity | reflexivity]);
    try (split; discriminate).
  rewrite andb_true_iff, sameLetter_spec, IH. split.
  - intros [-> ->]. reflexivity.
  - intros [= -> ->]. split; reflexivity.
Qed.

Lemma toLowerCase_noCapital (s : string) :
  MirrorSpec.noCapital (Mirror.toLowerCase s) = true.
Proof.
  induction s as [| c s IH]; cbn [Mirror.toLowerCase MirrorSpec.noCapital];
    [reflexivity |].
  rewrite IH, andb_true_r. apply negb_true_iff.
  unfold MirrorSpec.isCapital. rewrite N_lowerChar. unfold MirrorSpec.isCapital.
  destruct (N.leb_spec 65 (N_of_ascii c)), (N.leb_spec (N_of_ascii c) 90);
    cbn [andb].
  - apply andb_false_iff. right. apply N.leb_gt. lia.
  - apply andb_false_iff. right. apply N.leb_gt. lia.
  - apply andb_false_iff. left. apply N.leb_gt. lia.
  - apply andb_false_iff. left. apply N.leb_gt. lia.
Qed.

Lemma N_of_ascii_inj (a b : ascii) : N_of_ascii a = N_of_ascii b -> a = b.
Proof.
  intros H. rewrite <- (ascii_N_embedding a), <- (ascii_N_embedding b), H.
  reflexivity.
Qed.

Lemma lowerChar_idempotent (c : ascii) :
  Mirror.lowerChar (Mirror.lowerChar c) = Mirror.lowerChar c.
Proof.
  apply N_of_ascii_inj. rewrite (N_lowerChar (Mirror.lowerChar c)).
  replace (MirrorSpec.isCapital (Mirror.lowerChar c)) with false; [reflexivity |].
  symmetry. pose proof (toLowerCase_noCapital (String c EmptyString)) as H.
  cbn [Mirror.toLowerCase MirrorSpec.noCapital] in H.
  rewrite andb_true_r in H. apply negb_true_iff, H.
Qed.

Lemma toLowerCase_idempotent (s : string) :
  Mirror.toLowerCase (Mirror.toLowerCase s) = Mirror.toLowerCase s.
Proof.
  induction s as [| c s IH]; cbn [Mirror.toLowerCase]; [reflexivity |].
  rewrite IH, lowerChar_idempotent. reflexivity.
Qed.

(** X12. For intentions in ASCII text, grouping by intention keeps every
    tagged entry exactly once, makes no empty group and no two groups with
    the same key, and ignores the case of the letters: a key has no capital
    letter, every entry of a group has the intention of the key up to the
    case of the letters, and two entries share a group exactly when their
    intentions differ at most in the case of their letters. *)
Theorem mirror_groups_partition :
  forall entries,
    let entriesWithIntention := filter Mirror.hasIntention entries in
    let groups := Mirror.groupByIntention entriesWithIntention in
    MirrorSpec.asciiIntentions entriesWithIntention ->
    NoDup (map fst groups)
    /\ Permutation (concat (map snd groups)) entriesWithIntention
    /\ (forall k ge,
           In (k, ge) groups ->
           ge <> []
           /\ MirrorSpec.noCapital k = true
           /\ forall e, In e ge ->
                        MirrorSpec.sameIgnoringCase (Mirror.intentionOf e) k = true)
    /\ (forall e1 e2,
           In e1 entriesWithIntention -> In e2 entriesWithIntention ->
           (MirrorSpec.sameIgnoringCase (Mirror.intentionOf e1)
                                        (Mirror.intentionOf e2) = true
            <-> exists k ge, In (k, ge) groups /\ In e1 ge /\ In e2 ge)).
Proof.
  intros entries es groups _. subst groups.
  destruct (groupByIntention_grouped es) as (Hnd & Hkeys & Hperm).
  split; [exact Hnd |]. split; [exact Hperm |]. split.
  { intros k ge Hg. destruct (Hkeys k ge Hg) as [Hne Hk].
    split; [exact Hne |]. split.
    - destruct ge as [| e ge]; [contradiction |].
      rewrite <- (Hk e (or_introl eq_refl)). apply toLowerCase_noCapital.
    - intros e He. apply sameIgnoringCase_spec.
      rewrite <- (Hk e He). unfold MirrorSpec.groupKey.
      symmetry. apply toLowerCase_idempotent. }
  intros e1 e2 H1 H2. rewrite sameIgnoringCase_spec.
  change (Mirror.toLowerCase (Mirror.intentionOf e1))
    with (MirrorSpec.groupKey e1).
  change (Mirror.toLowerCase (Mirror.intentionOf e2))
    with (MirrorSpec.groupKey e2).
  split.
  - intros Heq.
    destruct (group_of_entry es e1 H1) as (g1 & Hg1 & He1).
    destruct (group_of_entry es e2 H2) as (g2 & Hg2 & He2).
    rewrite <- Heq in Hg2.
    assert (E : (MirrorSpec.groupKey e1, g1) = (MirrorSpec.groupKey e1, g2))
      by (apply (NoDup_map_injective fst _ _ _ Hnd Hg1 Hg2); reflexivity).
    inversion E; subst. eauto.
  - intros (k & ge & Hg & He1 & He2).
    destruct (Hkeys k ge Hg) as [_ Hk]. rewrite (Hk e1 He1), (Hk e2 He2). reflexivity.
Qed.

Lemma mirror_groups_partition_witness :
  exists k ge,
    In (k, ge) (Mirror.groupByIntention (filter Mirror.hasIntention Sample.mixedCase))
    /\ In (Sample.tagged "Relax" 0) ge /\ In (Sample.tagged "RELAX" 3) ge.
Proof.
  assert (Hascii : MirrorSpec.asciiIntentions
                     (filter Mirror.hasIntention Sample.mixedCase))
    by (repeat constructor).
  apply (proj2 (proj2 (proj2 (mirror_groups_partition Sample.mixedCase Hascii)))).
  - left. reflexivity.
  - right. right. right. left. reflexivity.
  - reflexivity.
Defined.

Section MirrorInsights.
Variable getHours : Z -> Z.

Lemma analyzeGroup_app (insights : list Mirror.MirrorInsight)
    (ge : list UsageLog) (k : string) :
  Mirror.analyzeGroup getHours insights ge k
  = insights ++ Mirror.analyzeGroup getHours [] ge k.
Proof.
  unfold Mirror.analyzeGroup. split_if; cbn [app]; rewrite ?app_nil_r; reflexivity.
Qed.

Lemma analyzeGroups_flat (groups : list (string * list UsageLog)) :
  forall insights,
    fold_left (fun insights group =>
                 Mirror.analyzeGroup getHours insights (snd group) (fst group))
              groups insights
    = insights
        ++ flat_map (fun group => Mirror.analyzeGroup getHours [] (snd group) (fst group))
                    groups.
Proof.
  induction groups as [| g groups IH]; intros insights; cbn [fold_left flat_map].
  - rewrite app_nil_r. reflexivity.
  - rewrite IH, (analyzeGroup_app insights), app_assoc. reflexivity.
Qed.

Lemma insight_origin (entries : list UsageLog) (i : Mirror.MirrorInsight) :
  In i (Mirror.analyzeMirrorPatterns getHours (Some entries)) ->
  exists k ge,
    In (k, ge) (Mirror.groupByIntention (filter Mirror.hasIntention entries))
    /\ In i (Mirror.analyzeGroup getHours [] ge k).
Proof.
  unfold Mirror.analyzeMirrorPatterns.
  destruct entries as [| e es]; [intros [] |].
  destruct (length (filter Mirror.hasIntention (e :: es)) =? 0)%nat; [intros [] |].
  intros Hin. apply (Permutation_in _ (Permutation_sym (sort_perm _ _))) in Hin.
  rewrite analyzeGroups_flat in Hin. cbn [app] in Hin.
  apply in_flat_map in Hin. destruct Hin as ([k ge] & Hg & Hi).
  exists k, ge. split; assumption.
Qed.

Lemma filter_length_le {A} (f : A -> bool) (l : list A) :
  (length (filter f l) <= length l)%nat.
Proof.
  induction l as [| x l IH]; cbn [filter length]; [lia |].
  destruct (f x); cbn [length]; lia.
Qed.

Lemma ratio_range (n d : nat) :
  (n <= d)%nat -> (1 <= d)%nat ->
  (0 <= inject_Z (Z.of_nat n) / inject_Z (Z.of_nat d) <= 1)%Q.
Proof.
  intros Hn Hd.
  assert (Hpos : (0 < inject_Z (Z.of_nat d))%Q).
  { change 0%Q with (inject_Z 0). rewrite <- Zlt_Qlt. lia. }
  split.
  - apply Qle_shift_div_l; [exact Hpos |]. rewrite Qmult_0_l.
    change 0%Q with (inject_Z 0). rewrite <- Zle_Qle. lia.
  - apply Qle_shift_div_r; [exact Hpos |]. rewrite Qmult_1_l.
    rewrite <- Zle_Qle. lia.
Qed.

Lemma analyzeGroup_justified (ge : list UsageLog) (k : string) (i : Mirror.MirrorInsight) :
  ge <> [] ->
  In i (Mirror.analyzeGroup getHours [] ge k) ->
  MirrorSpec.justified i.
Proof.
  intros Hne.
  assert (Hcount : (1 <= Mirror.totalCountOf ge)%nat)
    by (unfold Mirror.totalCountOf; destruct ge; [congruence | cbn; lia]).
  assert (Hrate : (0 <= Mirror.foundItRateOf ge <= 1)%Q).
  { unfold Mirror.foundItRateOf. apply ratio_range; [| exact Hcount].
    apply filter_length_le. }
  assert (Hlate : (Mirror.lateNightCountOf getHours ge <= Mirror.totalCountOf ge)%nat)
    by apply filter_length_le.
  unfold Mirror.analyzeGroup. cbv zeta.
  destruct (JS.lt (Mirror.foundItRateOf ge) (5 # 10)
            && (3 <=? Mirror.totalCountOf ge)%nat) eqn:E1.
  { apply andb_prop in E1. destruct E1 as [H1 H3].
    apply lt_true in H1. apply Nat.leb_le in H3.
    intros [<- | []]. unfold MirrorSpec.justified.
    cbn [Mirror.count Mirror.foundItRate Mirror.lateNightCount Mirror.pattern
         Mirror.avgMinutes app].
    split; [exact Hcount | split; [exact Hrate | split; [exact Hlate |]]].
    left. split; [reflexivity | split; [exact H1 | exact H3]]. }
  destruct (JS.gt (Mirror.avgMinutesOf ge) 60
            && JS.lt (Mirror.foundItRateOf ge) (7 # 10)) eqn:E2.
  { apply andb_prop in E2. destruct E2 as [Havg H7].
    apply gt_true in Havg. apply lt_true in H7.
    intros [<- | []]. unfold MirrorSpec.justified.
    cbn [Mirror.count Mirror.foundItRate Mirror.lateNightCount Mirror.pattern
         Mirror.avgMinutes app].
    split; [exact Hcount | split; [exact Hrate | split; [exact Hlate |]]].
    right. left. split; [reflexivity | split; [exact H7 |]].
    change 60 with (JS.Math_round 60). apply Math_round_mono. lra. }
  destruct ((0 <? Mirror.lateNightCountOf getHours ge)%nat
            && JS.gt (inject_Z (Z.of_nat (Mirror.lateNightCountOf getHours ge))
                        / inject_Z (Z.of_nat (Mirror.totalCountOf ge))) (4 # 10)) eqn:E3.
  { apply andb_prop in E3. destruct E3 as [Hl H4].
    apply Nat.ltb_lt in Hl. apply gt_true in H4.
    intros [<- | []]. unfold MirrorSpec.justified.
    cbn [Mirror.count Mirror.foundItRate Mirror.lateNightCount Mirror.pattern
         Mirror.avgMinutes app].
    split; [exact Hcount | split; [exact Hrate | split; [exact Hlate |]]].
    right. right. split; [reflexivity | split; [lia | exact H4]]. }
  intros [].
Qed.

End MirrorInsights.

Lemma group_entries_tagged (entries : list UsageLog) (k : string) (ge : list UsageLog) :
  In (k, ge) (Mirror.groupByIntention (filter Mirror.hasIntention entries)) ->
  ge <> [] /\ forall e, In e ge -> In e entries /\ Mirror.hasIntention e = true.
Proof.
  intros Hg.
  destruct (groupByIntention_grouped (filter Mirror.hasIntention entries))
    as (_ & Hkeys & Hperm).
  split; [apply (Hkeys k ge Hg) |].
  intros e He. apply filter_In. apply (Permutation_in _ Hperm).
  apply in_concat. exists ge. split; [| exact He].
  apply in_map_iff. exists (k, ge). split; [reflexivity | exact Hg].
Qed.

(** X13. Every insight the analysis returns is backed by its group: the
    count is at least 1, the found-it rate lies between 0 and 1, the
    late-night count does not exceed the count, and the pattern is one of
    the three, with the condition that selects it: [not_found] with a rate
    below 0.5 and a count of at least 3, [long_session_not_found] with a
    rate below 0.7 and rounded average minutes of at least 60, [late_night]
    with at least one late-night entry and a late-night share above 0.4. *)
Theorem mirror_insights_justified :
  forall (getHours : Z -> Z) entries i,
    In i (Mirror.analyzeMirrorPatterns getHours (Some entries)) ->
    MirrorSpec.justified i.
Proof.
  intros getHours entries i Hin.
  destruct (insight_origin getHours entries i Hin) as (k & ge & Hg & Hi).
  destruct (group_entries_tagged entries k ge Hg) as [Hne _].
  apply (analyzeGroup_justified getHours ge k i Hne Hi).
Qed.

Lemma mirror_insights_justified_witness :
  Forall MirrorSpec.justified
         (Mirror.analyzeMirrorPatterns Sample.utcHours (Some Sample.relax3)).
Proof.
  apply Forall_forall. intros i Hin.
  apply (mirror_insights_justified Sample.utcHours Sample.relax3 i Hin).
Defined.

Lemma insert_byCount (x : Mirror.MirrorInsight) (l : list Mirror.MirrorInsight) :
  Sorted MirrorSpec.byCountDesc l ->
  Sorted MirrorSpec.byCountDesc
         (JS.insert (fun a b => (Mirror.count a <? Mirror.count b)%nat) x l).
Proof.
  induction 1 as [| y r Hr IH Hhd]; cbn [JS.insert].
  - repeat constructor.
  - destruct (Nat.ltb_spec (Mirror.count x) (Mirror.count y)) as [E | E].
    + constructor; [exact IH |].
      destruct r as [| z r]; cbn [JS.insert].
      * constructor. unfold MirrorSpec.byCountDesc. lia.
      * destruct (Mirror.count x <? Mirror.count z)%nat; constructor.
        -- inversion Hhd; assumption.
        -- unfold MirrorSpec.byCountDesc. lia.
    + constructor; [constructor; assumption |].
      constructor. unfold MirrorSpec.byCountDesc. lia.
Qed.

(** X14. The insights are returned by count, the largest group first. *)
Theorem mirror_sorted_by_count :
  forall (getHours : Z -> Z) entries,
    Sorted MirrorSpec.byCountDesc (Mirror.analyzeMirrorPatterns getHours entries).
Proof.
  intros getHours [[| e es] |]; cbn [Mirror.analyzeMirrorPatterns]; try constructor.
  unfold Mirror.analyzeMirrorPatterns.
  destruct (length (filter Mirror.hasIntention (e :: es)) =? 0)%nat; [constructor |].
  unfold JS.sort.
  induction (fold_left _ _ _) as [| a l IH]; cbn [fold_right]; [constructor |].
  apply insert_byCount, IH.
Qed.

Lemma filter_idempotent {A} (f : A -> bool) (l : list A) :
  filter f (filter f l) = filter f l.
Proof.
  induction l as [| x l IH]; cbn [filter]; [reflexivity |].
  destruct (f x) eqn:E; cbn [filter]; [rewrite E, IH |]; auto.
Qed.

(** X15. Entries without an intention, or whose [foundIt] is [null], do
    not take part: the analysis of the entries is the analysis of the
    tagged ones, and it is empty when no entry is tagged or when the
    entries are absent. *)
Theorem mirror_ignores_untagged :
  forall (getHours : Z -> Z) entries,
    Mirror.analyzeMirrorPatterns getHours (Some entries)
    = Mirror.analyzeMirrorPatterns getHours (Some (filter Mirror.hasIntention entries))
    /\ ((forall e, In e entries -> Mirror.hasIntention e = false) ->
        Mirror.analyzeMirrorPatterns getHours (Some entries) = [])
    /\ Mirror.analyzeMirrorPatterns getHours None = [].
Proof.
  intros getHours entries.
  assert (Hmain : Mirror.analyzeMirrorPatterns getHours (Some entries)
                  = Mirror.analyzeMirrorPatterns getHours
                      (Some (filter Mirror.hasIntention entries))).
  { unfold Mirror.analyzeMirrorPatterns.
    destruct entries as [| e es]; [reflexivity |].
    pose proof (filter_idempotent Mirror.hasIntention (e :: es)) as Hidem.
    destruct (filter Mirror.hasIntention (e :: es)) as [| x xs]; [reflexivity |].
    rewrite Hidem. reflexivity. }
  split; [exact Hmain |]. split; [| reflexivity].
  intros Hnone. rewrite Hmain. clear Hmain.
  replace (filter Mirror.hasIntention entries) with (@nil UsageLog); [reflexivity |].
  symmetry. induction entries as [| e es IH]; cbn [filter]; [reflexivity |].
  rewrite (Hnone e) by (left; reflexivity).
  apply IH. intros e' He'. apply Hnone. right. exact He'.
Qed.

Lemma mirror_ignores_untagged_witness :
  Mirror.analyzeMirrorPatterns Sample.utcHours (Some Sample.week60) = [].
Proof.
  apply (proj1 (proj2 (mirror_ignores_untagged Sample.utcHours Sample.week60))).
  intros e He. vm_compute in He.
  repeat (destruct He as [<- | He]; [reflexivity |]). contradiction.
Defined.

(** X16. Only entries with a creation time count as late-night: when no
    entry has one, every insight has a late-night count of 0 and none has
    the pattern [late_night]. *)
Theorem mirror_late_night_needs_createdAt :
  forall (getHours : Z -> Z) entries,
    (forall e, In e entries -> createdAt e = None) ->
    forall i,
      In i (Mirror.analyzeMirrorPatterns getHours (Some entries)) ->
      Mirror.lateNightCount i = 0%nat /\ Mirror.pattern i <> "late_night"%string.
Proof.
  intros getHours entries Hnone i Hin.
  destruct (insight_origin getHours entries i Hin) as (k & ge & Hg & Hi).
  destruct (group_entries_tagged entries k ge Hg) as [_ Hge].
  assert (Hzero : Mirror.lateNightCountOf getHours ge = 0%nat).
  { unfold Mirror.lateNightCountOf.
    replace (filter (Mirror.isLateNight getHours) ge) with (@nil UsageLog);
      [reflexivity |].
    symmetry. clear Hi Hg. induction ge as [| e ge IH]; cbn [filter]; [reflexivity |].
    unfold Mirror.isLateNight at 1.
    rewrite (Hnone e) by (apply Hge; left; reflexivity).
    apply IH. intros e' He'. apply Hge. right. exact He'. }
  revert Hi. unfold Mirror.analyzeGroup. cbv zeta. rewrite Hzero.
  cbn [Nat.ltb Nat.leb andb].
  split_if; cbn [app];
    first [ intros [<- | []]; cbn [Mirror.lateNightCount Mirror.pattern]; split;
            first [reflexivity | discriminate]
          | intros [] ].
Qed.

Lemma mirror_late_night_needs_createdAt_witness :
  Forall (fun i => Mirror.lateNightCount i = 0%nat
                   /\ Mirror.pattern i <> "late_night"%string)
         (Mirror.analyzeMirrorPatterns Sample.utcHours (Some Sample.relax3)).
Proof.
  apply Forall_forall.
  apply (mirror_late_night_needs_createdAt Sample.utcHours Sample.relax3).
  intros e He. vm_compute in He.
  repeat (destruct He as [<- | He]; [reflexivity |]). contradiction.
Defined.

(** * Properties of the simulator inputs *)

(** X17. The simulator runs no analysis without entries or without
    dashboard data; otherwise it runs [analyzeRegretPatterns] on the
    signals it derives, and these are within their ranges: both frequencies
    lie between 0 and 1, the intent-drift frequency is 0 when no entry is
    tagged, the honesty score is the digital honesty score of the entries
    and lies between 0 and 100, and the trend is one of [increasing],
    [stable_high] and [stable]. *)
Theorem simulator_signals_in_range :
  forall (getHours : Z -> Z) entries dashboardData,
    (Simulator.regretDataOf getHours entries dashboardData = None
     <-> entries = [] \/ dashboardData = None)
    /\ (forall d,
           entries <> [] -> dashboardData = Some d ->
           Simulator.regretDataOf getHours entries dashboardData
           = Some (Regret.analyzeRegretPatterns
                     (Simulator.signalsOf getHours entries d)))
    /\ (forall d,
           let data := Simulator.signalsOf getHours entries d in
           Regret.entries data = entries
           /\ Regret.lateNightFrequency data
              = Simulator.lateNightFrequencyOf getHours entries
           /\ Regret.intentDriftFrequency data
              = Simulator.intentDriftFrequencyOf entries
           /\ (0 <= Regret.lateNightFrequency data <= 1)%Q
           /\ (0 <= Regret.intentDriftFrequency data <= 1)%Q
           /\ (filter Mirror.hasIntention entries = [] ->
               Regret.intentDriftFrequency data = 0%Q)
           /\ Regret.honestyScore data
              = inject_Z (Honesty.calculateDigitalHonestyScore (Some entries))
           /\ (0 <= Regret.honestyScore data <= 100)%Q
           /\ (Regret.riskScoreTrend data = "increasing"%string
               \/ Regret.riskScoreTrend data = "stable_high"%string
               \/ Regret.riskScoreTrend data = "stable"%string)).
Proof.
  intros getHours entries dashboardData.
  assert (Hdrift : (0 <= Simulator.intentDriftFrequencyOf entries <= 1)%Q).
  { unfold Simulator.intentDriftFrequencyOf. cbv zeta.
    destruct (Nat.ltb_spec 0 (length (filter Mirror.hasIntention entries))) as [H | H].
    - apply ratio_range; [apply filter_length_le | lia].
    - split; discriminate. }
  assert (Hlate : (0 <= Simulator.lateNightFrequencyOf getHours entries <= 1)%Q).
  { unfold Simulator.lateNightFrequencyOf. cbv zeta.
    destruct (Nat.ltb_spec 0 (length entries)) as [H | H].
    - apply ratio_range; [apply filter_length_le | lia].
    - split; discriminate. }
  split.
  { unfold Simulator.regretDataOf.
    destruct entries as [| e es]; [split; [left; reflexivity | reflexivity] |].
    destruct dashboardData as [d |]; [| split; [right; reflexivity | reflexivity]].
    split; [discriminate | intros [C | C]; discriminate]. }
  split.
  { intros d Hne ->. unfold Simulator.regretDataOf.
    destruct entries as [| e es]; [contradiction | reflexivity]. }
  intros d data. subst data. unfold Simulator.signalsOf. cbv zeta.
  cbn [Regret.entries Regret.lateNightFrequency Regret.intentDriftFrequency
       Regret.honestyScore Regret.riskScoreTrend].
  split; [reflexivity |]. split; [reflexivity |]. split; [reflexivity |].
  split; [exact Hlate |]. split; [exact Hdrift |].
  split.
  { intros H. unfold Simulator.intentDriftFrequencyOf. rewrite H. reflexivity. }
  split; [reflexivity |].
  split.
  - pose proof (honestyScore_range (Some entries)) as [Hlo Hhi].
    split.
    + change 0%Q with (inject_Z 0). rewrite <- Zle_Qle. exact Hlo.
    + change 100%Q with (inject_Z 100). rewrite <- Zle_Qle. exact Hhi.
  - destruct (option_map Analytics.trend (Simulator.weekly d)) as [[| |] |];
      [left; reflexivity | | |];
      (destruct (Simulator.riskScore d) as [rs |];
       [destruct (Analytics.score rs >? 60); [right; left | right; right]
       | right; right];
       reflexivity).
Qed.

Lemma simulator_signals_in_range_witness :
  Simulator.regretDataOf Sample.utcHours Sample.week60
    (Some (Simulator.mkDashboard None None))
  = Some (Regret.analyzeRegretPatterns
            (Simulator.signalsOf Sample.utcHours Sample.week60
                                 (Simulator.mkDashboard None None)))
  /\ Regret.intentDriftFrequency
       (Simulator.signalsOf Sample.utcHours Sample.week60
                            (Simulator.mkDashboard None None)) = 0%Q.
Proof.
  split.
  - apply (proj1 (proj2 (simulator_signals_in_range
                           Sample.utcHours Sample.week60
                           (Some (Simulator.mkDashboard None None))))).
    + discriminate.
    + reflexivity.
  - apply (proj2 (proj2 (simulator_signals_in_range
                           Sample.utcHours Sample.week60 None))
                 (Simulator.mkDashboard None None)).
    reflexivity.
Defined.

(** * Properties of the before/after comparison *)

Lemma sorted_last_greatest (l : list UsageLog) :
  Sorted Spec.byDate l ->
  forall e, In e l -> date e <= date (nth (length l - 1) l Honesty.noEntry).
Proof.
  induction l as [| a r IH]; intros Hs e He; [contradiction |].
  destruct r as [| b r'].
  - destruct He as [<- | []]. cbn. lia.
  - change (nth (length (a :: b :: r') - 1) (a :: b :: r') Honesty.noEntry)
      with (nth (length r') (b :: r') Honesty.noEntry).
    assert (Hlast : In (nth (length r') (b :: r') Honesty.noEntry) (b :: r'))
      by (apply nth_In; cbn; lia).
    destruct He as [<- | He].
    + apply (byDate_head_least a (b :: r') Hs). right. exact Hlast.
    + replace (length r') with (length (b :: r') - 1)%nat by (cbn; lia).
      apply IH; [inversion Hs; assumption | exact He].
Qed.

Lemma filter_all {A} (f : A -> bool) (l : list A) :
  (forall x, In x l -> f x = true) -> filter f l = l.
Proof.
  induction l as [| x l IH]; intros H; cbn [filter]; [reflexivity |].
  rewrite (H x) by (left; reflexivity). f_equal. apply IH.
  intros y Hy. apply H. right. exact Hy.
Qed.

Lemma filter_none {A} (f : A -> bool) (l : list A) :
  (forall x, In x l -> f x = false) -> filter f l = [].
Proof.
  induction l as [| x l IH]; intros H; cbn [filter]; [reflexivity |].
  rewrite (H x) by (left; reflexivity). apply IH.
  intros y Hy. apply H. right. exact Hy.
Qed.

Lemma sorted_head_In (e : UsageLog) (es : list UsageLog) :
  let sorted := Honesty.sortByDate (e :: es) in
  In (nth 0 sorted Honesty.noEntry) sorted
  /\ In (nth (length sorted - 1) sorted Honesty.noEntry) sorted.
Proof.
  cbv zeta.
  assert (Hlen : length (Honesty.sortByDate (e :: es)) = S (length es))
    by (unfold Honesty.sortByDate; rewrite sort_length; reflexivity).
  split; apply nth_In; lia.
Qed.

Lemma days_nonneg (a b : Z) : a <= b -> 0 <= (b - a) / JS.msPerDay.
Proof. intros H. apply Z.div_pos; [lia | reflexivity]. Qed.

Section BeforeAfterFacts.
Variable getHours : Z -> Z.

(** X18. The comparison is absent exactly when there is nothing to
    compare: for absent or empty entries, or a number of days that is not
    positive.  The number of days defaults to 7. *)
Theorem beforeAfter_null_iff :
  forall entries daysToCompare,
    (BeforeAfter.calculateBeforeAfter getHours (Some entries) (Some daysToCompare) = None
     <-> entries = [] \/ daysToCompare <= 0)
    /\ BeforeAfter.calculateBeforeAfter getHours None (Some daysToCompare) = None
    /\ BeforeAfter.calculateBeforeAfter getHours (Some entries) None
       = BeforeAfter.calculateBeforeAfter getHours (Some entries) (Some 7).
Proof.
  intros entries n. split; [| split; reflexivity].
  destruct entries as [| e es].
  { split; [left; reflexivity | reflexivity]. }
  unfold BeforeAfter.calculateBeforeAfter. cbv zeta.
  fold (Honesty.sortByDate (e :: es)).
  set (sorted := Honesty.sortByDate (e :: es)).
  pose proof (sortByDate_sorted (e :: es)) as Hs. fold sorted in Hs.
  destruct (sorted_head_In e es) as [Hfirst Hlast]. fold sorted in Hfirst, Hlast.
  set (firstE := nth 0 sorted Honesty.noEntry) in *.
  set (lastE := nth (length sorted - 1) sorted Honesty.noEntry) in *.
  destruct (Z_lt_le_dec 0 n) as [Hn | Hn].
  - assert (H1 : In firstE (filter (fun entry =>
                     (date entry - date firstE) / JS.msPerDay <? n) sorted)).
    { apply filter_In. split; [exact Hfirst |].
      rewrite Z.sub_diag. apply Z.ltb_lt. exact Hn. }
    assert (H2 : In lastE (filter (fun entry =>
                     (date lastE - date entry) / JS.msPerDay <? n) sorted)).
    { apply filter_In. split; [exact Hlast |].
      rewrite Z.sub_diag. apply Z.ltb_lt. exact Hn. }
    destruct (filter _ sorted) as [| x xs]; [contradiction |].
    destruct (filter _ sorted) as [| y ys]; [contradiction |].
    cbn [length Nat.eqb orb].
    split; [discriminate | intros [C | C]; [discriminate | lia]].
  - rewrite (filter_none (fun entry => (date entry - date firstE) / JS.msPerDay <? n)).
    + split; [intros _; right; exact Hn | reflexivity].
    + intros x Hx. apply Z.ltb_ge.
      assert (Hge : date firstE <= date x).
      { destruct sorted as [| s0 rest]; [contradiction |].
        apply (byDate_head_least s0 rest Hs x Hx). }
      pose proof (days_nonneg _ _ Hge). lia.
Qed.

End BeforeAfterFacts.

Lemma beforeAfter_null_iff_witness :
  BeforeAfter.calculateBeforeAfter Sample.utcHours (Some Sample.week60) (Some 0) = None.
Proof.
  apply (proj1 (beforeAfter_null_iff Sample.utcHours Sample.week60 0)).
  right. lia.
Defined.

(** ** The metrics of a window *)

Lemma grouped_length {K} (key : UsageLog -> K)
    (groups : list (K * list UsageLog)) (es : list UsageLog) :
  MirrorSpec.grouped key groups es ->
  (length groups <= length es)%nat /\ (es <> [] -> (1 <= length groups)%nat).
Proof.
  intros (_ & Hkeys & Hperm).
  rewrite <- (Permutation_length Hperm).
  assert (Hle : (length groups <= length (concat (map snd groups)))%nat).
  { clear Hperm. induction groups as [| [k ge] groups IH]; cbn [map snd concat length];
      [lia |].
    rewrite length_app.
    assert (Hge : ge <> []) by (apply (Hkeys k ge); left; reflexivity).
    assert (IH' : (length groups <= length (concat (map snd groups)))%nat)
      by (apply IH; intros k' ge' H; apply Hkeys; right; exact H).
    destruct ge; [congruence | cbn [length]; lia]. }
  split; [exact Hle |].
  intros Hne. destruct groups as [| g groups]; [| cbn; lia].
  cbn in Hperm. apply Permutation_nil in Hperm. congruence.
Qed.

Lemma fold_count_le {A} (f : A -> bool) (l : list A) :
  forall n,
    (fold_left (fun count x => if f x then S count else count) l n
     <= n + length l)%nat.
Proof.
  induction l as [| x l IH]; intros n; cbn [fold_left length]; [lia |].
  destruct (f x); [specialize (IH (S n)) | specialize (IH n)]; lia.
Qed.

Lemma round2_mono (x y : Q) :
  (x <= y)%Q -> (Analytics.round2 x <= Analytics.round2 y)%Q.
Proof.
  intros H. unfold Analytics.round2.
  assert (Hr : JS.Math_round (x * 100) <= JS.Math_round (y * 100))
    by (apply Math_round_mono; lra).
  rewrite Zle_Qle in Hr. unfold Qdiv. change (/ 100)%Q with (1 # 100)%Q. lra.
Qed.

Lemma round2_unit (x : Q) :
  (0 <= x <= 1)%Q -> (0 <= Analytics.round2 x <= 1)%Q.
Proof.
  intros [H0 H1]. split.
  - apply round2_nonneg, H0.
  - apply (Qle_trans _ (Analytics.round2 1)); [apply round2_mono, H1 |].
    vm_compute. discriminate.
Qed.

Lemma simpleRisk_range (avg : Q) (days : nat) :
  (1 <= days)%nat ->
  (90 # 7 <= BeforeAfter.simpleRisk avg days <= 100)%Q.
Proof.
  intros Hd. unfold BeforeAfter.simpleRisk. cbv zeta.
  assert (Hq : (1 <= inject_Z (Z.of_nat days))%Q).
  { change 1%Q with (inject_Z 1). rewrite <- Zle_Qle. lia. }
  unfold Qdiv. change (/ 7)%Q with (1 # 7)%Q.
  split; [| apply Q.le_min_l].
  apply Q.min_glb; [lra |].
  split_ge; lra.
Qed.

Section MetricsFacts.
Variable getHours : Z -> Z.

Lemma metrics_inRange (e : UsageLog) (es : list UsageLog) :
  CompareSpec.inRange (BeforeAfter.calculateMetrics getHours (e :: es))
  /\ (BeforeAfter.daysActive (BeforeAfter.calculateMetrics getHours (e :: es))
      <= length (e :: es))%nat.
Proof.
  unfold BeforeAfter.calculateMetrics, CompareSpec.inRange. cbv zeta.
  cbn [BeforeAfter.riskScore BeforeAfter.honestyScore BeforeAfter.lateNightFrequency
       BeforeAfter.daysActive].
  set (dateMap := fold_left _ (e :: es) []).
  assert (Hg : MirrorSpec.grouped date dateMap ([] ++ e :: es)).
  { apply (fold_pushUnder_grouped Z.eqb Z.eqb_spec date (e :: es) [] []).
    split; [constructor | split; [intros k ge [] | constructor]]. }
  destruct (grouped_length date dateMap _ Hg) as [Hle Hge].
  assert (Hdays : (1 <= JS.size dateMap)%nat) by (apply Hge; discriminate).
  unfold JS.size in *. cbn [app] in Hle.
  repeat split.
  - change 13 with (JS.Math_round (90 # 7)). apply Math_round_mono.
    apply simpleRisk_range, Hdays.
  - change 100 with (JS.Math_round 100). apply Math_round_mono.
    apply simpleRisk_range, Hdays.
  - rewrite Math_round_integer. lia.
  - rewrite Math_round_integer. lia.
  - apply round2_unit.
    change (0 <? length (e :: es))%nat with true. cbv iota.
    apply ratio_range; [| cbn; lia].
    apply (fold_count_le (Mirror.isLateNight getHours) (e :: es) 0).
  - apply round2_unit.
    change (0 <? length (e :: es))%nat with true. cbv iota.
    apply ratio_range; [| cbn; lia].
    apply (fold_count_le (Mirror.isLateNight getHours) (e :: es) 0).
  - exact Hdays.
  - exact Hle.
Qed.

(** X19. When a comparison is returned, both windows hold entries and
    their metrics are in range: the simplified risk score between 13 and
    100, the honesty score between 0 and 100, the late-night frequency
    between 0 and 1, at least one active day; so the risk score changes by
    at most 87 points and the honesty score by at most 100, and
    [daysCompared] is the number of days asked for. *)
Theorem beforeAfter_metrics_in_range :
  forall entries daysToCompare c,
    BeforeAfter.calculateBeforeAfter getHours (Some entries) (Some daysToCompare)
    = Some c ->
    CompareSpec.inRange (BeforeAfter.before c)
    /\ CompareSpec.inRange (BeforeAfter.after c)
    /\ -87 <= BeforeAfter.Changes.riskScore (BeforeAfter.changes c) <= 87
    /\ -100 <= BeforeAfter.Changes.honestyScore (BeforeAfter.changes c) <= 100
    /\ BeforeAfter.daysCompared c = daysToCompare.
Proof.
  intros entries n c. unfold BeforeAfter.calculateBeforeAfter. cbv zeta.
  destruct entries as [| e es]; [discriminate |].
  destruct (filter _ _) as [| x xs]; [discriminate |].
  destruct (filter _ _) as [| y ys]; [cbn; discriminate |].
  cbn [length Nat.eqb orb].
  destruct (metrics_inRange x xs) as [Hb _].
  destruct (metrics_inRange y ys) as [Ha _].
  set (mb := BeforeAfter.calculateMetrics getHours (x :: xs)) in *.
  set (ma := BeforeAfter.calculateMetrics getHours (y :: ys)) in *.
  clearbody mb ma. intros [= <-].
  cbn [BeforeAfter.before BeforeAfter.after BeforeAfter.changes BeforeAfter.daysCompared
       BeforeAfter.Changes.riskScore BeforeAfter.Changes.honestyScore].
  split; [exact Hb |]. split; [exact Ha |].
  destruct Hb as (Hb1 & Hb2 & _). destruct Ha as (Ha1 & Ha2 & _).
  repeat split; lia.
Qed.

End MetricsFacts.

Lemma beforeAfter_metrics_in_range_witness :
  option_map BeforeAfter.daysCompared
    (BeforeAfter.calculateBeforeAfter Sample.utcHours (Some Sample.week60) (Some 2))
  = Some 2.
Proof.
  destruct (BeforeAfter.calculateBeforeAfter Sample.utcHours (Some Sample.week60)
                                             (Some 2)) as [c |] eqn:Hc.
  - cbn [option_map]. f_equal.
    apply (beforeAfter_metrics_in_range Sample.utcHours Sample.week60 2 c Hc).
  - vm_compute in Hc. discriminate Hc.
Defined.

Section ShortSpan.
Variable getHours : Z -> Z.

(** X20. When all entries lie within fewer days than are compared, the
    two windows are the same, namely all entries, and every change is
    zero. *)
Theorem beforeAfter_short_span :
  forall entries daysToCompare,
    entries <> [] ->
    (forall e1 e2, In e1 entries -> In e2 entries ->
                   (date e2 - date e1) / JS.msPerDay < daysToCompare) ->
    exists c,
      BeforeAfter.calculateBeforeAfter getHours (Some entries) (Some daysToCompare)
      = Some c
      /\ BeforeAfter.before c
         = BeforeAfter.calculateMetrics getHours (Honesty.sortByDate entries)
      /\ BeforeAfter.after c = BeforeAfter.before c
      /\ (BeforeAfter.Changes.dailyUsage (BeforeAfter.changes c) == 0)%Q
      /\ (BeforeAfter.Changes.lateNightUsage (BeforeAfter.changes c) == 0)%Q
      /\ BeforeAfter.Changes.riskScore (BeforeAfter.changes c) = 0
      /\ BeforeAfter.Changes.honestyScore (BeforeAfter.changes c) = 0.
Proof.
  intros entries n Hne Hspan.
  destruct entries as [| e es]; [congruence |].
  unfold BeforeAfter.calculateBeforeAfter. cbv zeta.
  fold (Honesty.sortByDate (e :: es)).
  set (sorted := Honesty.sortByDate (e :: es)).
  destruct (sorted_head_In e es) as [Hfirst Hlast]. fold sorted in Hfirst, Hlast.
  assert (Hin : forall x, In x sorted -> In x (e :: es)).
  { intros x Hx. apply (Permutation_in _ (Permutation_sym (sortByDate_perm _)) Hx). }
  rewrite (filter_all (fun entry =>
             (date entry - date (nth 0 sorted Honesty.noEntry)) / JS.msPerDay <? n)).
  2: { intros x Hx. apply Z.ltb_lt. apply Hspan; apply Hin; assumption. }
  rewrite (filter_all (fun entry =>
             (date (nth (length sorted - 1) sorted Honesty.noEntry) - date entry)
               / JS.msPerDay <? n)).
  2: { intros x Hx. apply Z.ltb_lt. apply Hspan; apply Hin; assumption. }
  assert (Hlen : length sorted = S (length es))
    by (unfold sorted, Honesty.sortByDate; rewrite sort_length; reflexivity).
  rewrite Hlen. cbn [Nat.eqb orb].
  set (m := BeforeAfter.calculateMetrics getHours sorted). clearbody m.
  eexists. split; [reflexivity |].
  cbn [BeforeAfter.before BeforeAfter.after BeforeAfter.changes
       BeforeAfter.Changes.dailyUsage BeforeAfter.Changes.lateNightUsage
       BeforeAfter.Changes.riskScore BeforeAfter.Changes.honestyScore].
  repeat split; try lia; try lra.
Qed.

End ShortSpan.

Lemma beforeAfter_short_span_witness :
  exists c,
    BeforeAfter.calculateBeforeAfter Sample.utcHours (Some Sample.week60) (Some 7)
    = Some c
    /\ BeforeAfter.after c = BeforeAfter.before c.
Proof.
  destruct (beforeAfter_short_span Sample.utcHours Sample.week60 7) as (c & Hc & _ & Ha & _).
  - discriminate.
  - intros e1 e2 H1 H2. vm_compute in H1, H2.
    repeat (destruct H1 as [<- | H1];
            [repeat (destruct H2 as [<- | H2]; [reflexivity |]); contradiction |]).
    contradiction.
  - exists c. split; assumption.
Defined.

(** ** The simplified honesty score of a window *)

Lemma baGapBody_at (pre : list Z) (a b : Z) (rest : list Z) (score : Z) :
  BeforeAfter.gapBody (pre ++ a :: b :: rest) score (S (length pre))
  = score - Spec.gapPenalty (Spec.dayGap a b).
Proof.
  unfold BeforeAfter.gapBody, Spec.gapPenalty, Spec.dayGap.
  replace (S (length pre) - 1)%nat with (length pre) by lia.
  rewrite nth_middle.
  replace (pre ++ a :: b :: rest) with ((pre ++ [a]) ++ b :: rest)
    by (rewrite <- app_assoc; reflexivity).
  replace (S (length pre)) with (length (pre ++ [a]))
    by (rewrite length_app; cbn; lia).
  rewrite nth_middle.
  destruct ((b - a) / JS.msPerDay >? 7); lia.
Qed.

Lemma baGapLoop_from (rest : list Z) :
  forall (pre : list Z) (a : Z) (score : Z),
    fold_left (BeforeAfter.gapBody (pre ++ a :: rest))
              (seq (S (length pre)) (length rest)) score
    = score - Spec.gapPenalties (a :: rest).
Proof.
  induction rest as [| b rest IH]; intros pre a score.
  - cbn. lia.
  - cbn [length seq fold_left]. rewrite baGapBody_at.
    specialize (IH (pre ++ [a]) b (score - Spec.gapPenalty (Spec.dayGap a b))).
    rewrite <- app_assoc in IH. cbn [app] in IH.
    rewrite length_app in IH. cbn [length] in IH.
    rewrite Nat.add_1_r in IH. rewrite IH.
    cbn [Spec.gapPenalties]. lia.
Qed.

Lemma baGapLoop_sum (dates : list Z) (score : Z) :
  Honesty.forRange 1 (length dates) (BeforeAfter.gapBody dates) score
  = score - Spec.gapPenalties dates.
Proof.
  unfold Honesty.forRange.
  destruct dates as [| a rest]; [cbn; lia |].
  cbn [length]. replace (S (length rest) - 1)%nat with (length rest) by lia.
  apply (baGapLoop_from rest [] a score).
Qed.

Lemma insert_keys_sorted (x : Z) (l : list Z) :
  Sorted Z.le l -> Sorted Z.le (JS.insert (fun a b => a >? b) x l).
Proof.
  induction 1 as [| y r Hr IH Hhd]; cbn [JS.insert].
  - repeat constructor.
  - destruct (x >? y) eqn:E.
    + apply Z.gtb_lt in E. constructor; [exact IH |].
      destruct r as [| z r]; cbn [JS.insert].
      * constructor. lia.
      * destruct (x >? z); constructor; [inversion Hhd; assumption | lia].
    + rewrite Z.gtb_ltb in E. apply Z.ltb_ge in E.
      constructor; [constructor; assumption | constructor; exact E].
Qed.

Lemma sortKeys_sorted (keys : list Z) : Sorted Z.le (BeforeAfter.sortKeys keys).
Proof.
  unfold BeforeAfter.sortKeys, JS.sort.
  induction keys as [| k keys IH]; cbn [fold_right]; [constructor |].
  apply insert_keys_sorted, IH.
Qed.

Lemma strictly_sorted (l : list Z) :
  StronglySorted Z.le l -> NoDup l -> StronglySorted Z.lt l.
Proof.
  induction 1 as [| a r Hr IH Hall]; intros Hnd; [constructor |].
  inversion Hnd as [| x xs Hx Hxs]; subst.
  constructor; [apply IH, Hxs |].
  rewrite Forall_forall in *. intros y Hy.
  specialize (Hall y Hy).
  assert (a <> y) by (intros ->; contradiction). lia.
Qed.

Lemma gap_zero (d : Z) : Spec.gapPenalty (Spec.dayGap d d) = 0.
Proof. unfold Spec.gapPenalty, Spec.dayGap. rewrite Z.sub_diag. reflexivity. Qed.

Lemma gaps_same_dates (D : list Z) :
  StronglySorted Z.le D ->
  forall U,
    StronglySorted Z.lt U ->
    (forall x, In x D <-> In x U) ->
    Spec.gapPenalties D = Spec.gapPenalties U.
Proof.
  induction 1 as [| d D' HD' IH HallD]; intros U HU Hset.
  - destruct U as [| u U']; [reflexivity |].
    exfalso. apply (proj2 (Hset u)). left. reflexivity.
  - destruct U as [| u U'];
      [exfalso; apply (proj1 (Hset d)); left; reflexivity |].
    inversion HU as [| u0 U0 HU' HallU]; subst.
    rewrite Forall_forall in HallD, HallU.
    assert (Hdu : d = u).
    { apply Z.le_antisymm.
      - destruct (proj2 (Hset u) (or_introl eq_refl)) as [E | E]; [lia |].
        apply HallD, E.
      - destruct (proj1 (Hset d) (or_introl eq_refl)) as [E | E]; [lia |].
        specialize (HallU d E). lia. }
    subst u.
    destruct D' as [| d' D''].
    + destruct U' as [| x U'']; [reflexivity |].
      exfalso.
      assert (Hx : d < x) by (apply HallU; left; reflexivity).
      destruct (proj2 (Hset x) (or_intror (or_introl eq_refl))) as [E | []]. lia.
    + assert (Hd' : d <= d') by (apply HallD; left; reflexivity).
      destruct (Z.eq_dec d d') as [<- | Hne].
      * change (Spec.gapPenalties (d :: d :: D''))
          with (Spec.gapPenalty (Spec.dayGap d d) + Spec.gapPenalties (d :: D'')).
        rewrite gap_zero, Z.add_0_l.
        apply (IH (d :: U') HU).
        intros x. rewrite <- Hset. cbn [In]. tauto.
      * assert (HsetU' : forall x, In x (d' :: D'') <-> In x U').
        { intros x. split; intros Hx.
          - destruct (proj1 (Hset x) (or_intror Hx)) as [E | E]; [| exact E].
            subst x. exfalso.
            inversion HD' as [| y ys _ Hally]; subst.
            rewrite Forall_forall in Hally.
            destruct Hx as [E | Hx]; [lia |]. specialize (Hally d Hx). lia.
          - destruct (proj2 (Hset x) (or_intror Hx)) as [E | E]; [| exact E].
            subst x. specialize (HallU d Hx). lia. }
        destruct U' as [| u' U''];
          [exfalso; apply (proj1 (HsetU' d')); left; reflexivity |].
        assert (Hu' : d' = u').
        { inversion HD' as [| y ys _ Hally]; subst.
          inversion HU' as [| z zs _ Hallz]; subst.
          rewrite Forall_forall in Hally, Hallz.
          apply Z.le_antisymm.
          - destruct (proj2 (HsetU' u') (or_introl eq_refl)) as [E | E]; [lia |].
            apply Hally, E.
          - destruct (proj1 (HsetU' d') (or_introl eq_refl)) as [E | E]; [lia |].
            specialize (Hallz d' E). lia. }
        subst u'.
        change (Spec.gapPenalties (d :: d' :: D''))
          with (Spec.gapPenalty (Spec.dayGap d d') + Spec.gapPenalties (d' :: D'')).
        change (Spec.gapPenalties (d :: d' :: U''))
          with (Spec.gapPenalty (Spec.dayGap d d') + Spec.gapPenalties (d' :: U'')).
        f_equal. apply (IH (d' :: U'') HU' HsetU').
Qed.

Lemma forRange_le (from to : nat) (body : Z -> nat -> Z) (score : Z) :
  (forall s i, body s i <= s) -> Honesty.forRange from to body score <= score.
Proof.
  unfold Honesty.forRange. intros H.
  generalize (seq from (to - from)) as l. intros l. revert score.
  induction l as [| i l IH]; intros score; cbn [fold_left]; [lia |].
  specialize (IH (body score i)). specialize (H score i). lia.
Qed.

Lemma spikeLoop_le (l : list UsageLog) (score : Z) : Honesty.spikeLoop l score <= score.
Proof.
  unfold Honesty.spikeLoop.
  destruct (4 <=? length l)%nat; [| destruct (2 <=? length l)%nat; [| lia]].
  - apply forRange_le. intros s i.
    destruct (spikeBodyLong_cases l s i) as [(E & _) | E]; lia.
  - apply forRange_le. intros s i.
    destruct (spikeBodyShort_cases l s i) as [(E & _) | E]; lia.
Qed.

Lemma grouped_keys {K} (key : UsageLog -> K)
    (groups : list (K * list UsageLog)) (es : list UsageLog) :
  MirrorSpec.grouped key groups es ->
  forall k, In k (map fst groups) <-> In k (map key es).
Proof.
  intros (_ & Hkeys & Hperm) k. split.
  - intros Hin. apply in_map_iff in Hin. destruct Hin as ([k' ge] & <- & Hg).
    destruct (Hkeys k' ge Hg) as [Hne Hk].
    destruct ge as [| e ge]; [congruence |].
    cbn [fst]. rewrite <- (Hk e (or_introl eq_refl)).
    apply in_map, (Permutation_in _ Hperm), in_concat.
    exists (e :: ge). split; [| left; reflexivity].
    apply in_map_iff. exists (k', e :: ge). split; [reflexivity | exact Hg].
  - intros Hin. apply in_map_iff in Hin. destruct Hin as (e & <- & He).
    apply (Permutation_in _ (Permutation_sym Hperm)) in He.
    apply in_concat in He. destruct He as (ge & Hge & He).
    apply in_map_iff in Hge. destruct Hge as ([k' ge'] & <- & Hg). cbn [snd] in He.
    destruct (Hkeys k' ge' Hg) as [_ Hk]. rewrite (Hk e He).
    apply (in_map fst _ _ Hg).
Qed.

Lemma sorted_dates (l : list UsageLog) :
  Sorted Spec.byDate l -> StronglySorted Z.le (map date l).
Proof.
  intros H. apply Sorted_StronglySorted; [intros x y z; lia |].
  induction H as [| a r Hr IH Hhd]; cbn [map]; constructor; [exact IH |].
  destruct Hhd as [| b r' Hab]; cbn [map]; constructor. exact Hab.
Qed.

Section SimplifiedHonesty.
Variable getHours : Z -> Z.

Lemma metrics_honesty (l : list UsageLog) :
  BeforeAfter.honestyScore (BeforeAfter.calculateMetrics getHours l)
  = Spec.clamp (100 - Spec.gapPenalties (map date (Honesty.sortByDate l))
                - 10 * Z.of_nat (Spec.countUnrealistic l)).
Proof.
  destruct l as [| e es]; [reflexivity |].
  unfold BeforeAfter.calculateMetrics. cbv zeta. cbn [BeforeAfter.honestyScore].
  set (dateMap := fold_left _ (e :: es) []).
  assert (Hg : MirrorSpec.grouped date dateMap ([] ++ e :: es)).
  { apply (fold_pushUnder_grouped Z.eqb Z.eqb_spec date (e :: es) [] []).
    split; [constructor | split; [intros k ge [] | constructor]]. }
  cbn [app] in Hg.
  pose proof (grouped_keys date dateMap _ Hg) as Hkeys.
  destruct Hg as (Hnd & _ & _).
  rewrite Math_round_integer, baGapLoop_sum.
  change (fold_left BeforeAfter.unrealisticBody (e :: es))
    with (Honesty.unrealisticLoop (e :: es)).
  rewrite unrealisticLoop_count.
  set (keys := map fst dateMap) in *.
  assert (Hperm : Permutation keys (BeforeAfter.sortKeys keys)) by apply sort_perm.
  rewrite <- (gaps_same_dates (map date (Honesty.sortByDate (e :: es)))).
  - reflexivity.
  - apply sorted_dates, sortByDate_sorted.
  - apply strictly_sorted.
    + apply Sorted_StronglySorted; [intros x y z; lia | apply sortKeys_sorted].
    + apply (Permutation_NoDup Hperm Hnd).
  - intros x. rewrite <- (Permutation_in' (eq_refl x) Hperm), (Hkeys x).
    apply Permutation_in', Permutation_map, Permutation_sym, sortByDate_perm.
    reflexivity.
Qed.

(** X21. The simplified honesty score of a window is 100 less the gap
    penalties between its dates and 10 for every entry over 960 minutes,
    clamped to 0..100: the digital honesty score without the spike
    penalties.  For two entries or more it is therefore never below the
    digital honesty score of the same entries. *)
Theorem simplified_honesty_bounds_full :
  forall l,
    BeforeAfter.honestyScore (BeforeAfter.calculateMetrics getHours l)
    = Spec.clamp (100 - Spec.gapPenalties (map date (Honesty.sortByDate l))
                  - 10 * Z.of_nat (Spec.countUnrealistic l))
    /\ ((2 <= length l)%nat ->
        Honesty.calculateDigitalHonestyScore (Some l)
        <= BeforeAfter.honestyScore (BeforeAfter.calculateMetrics getHours l)).
Proof.
  intros l. split; [apply metrics_honesty |].
  intros Hlen. rewrite metrics_honesty.
  destruct l as [| e1 [| e2 es]]; cbn [length] in Hlen; try lia.
  rewrite honestyScore_unfold. cbv zeta.
  rewrite unrealisticLoop_count, countUnrealistic_sorted.
  pose proof (spikeLoop_le (Honesty.sortByDate (e1 :: e2 :: es))
                (100 - Spec.gapPenalties (map date (Honesty.sortByDate (e1 :: e2 :: es)))
                 - 10 * Z.of_nat (Spec.countUnrealistic (e1 :: e2 :: es)))) as Hle.
  unfold Spec.clamp. lia.
Qed.

End SimplifiedHonesty.

Lemma simplified_honesty_bounds_full_witness :
  Honesty.calculateDigitalHonestyScore (Some (Sample.daily [1; 1; 1; 900]%Q))
  <= BeforeAfter.honestyScore
       (BeforeAfter.calculateMetrics Sample.utcHours (Sample.daily [1; 1; 1; 900]%Q)).
Proof.
  apply (proj2 (simplified_honesty_bounds_full Sample.utcHours _)).
  cbn. lia.
Defined.

(** X22. A single entry is never penalised by the digital honesty score,
    whatever it holds; the simplified score of a window does penalise it:
    a window of one entry over 960 minutes scores 90, and 100 otherwise. *)
Theorem single_entry_honesty :
  forall (getHours : Z -> Z) e,
    Honesty.calculateDigitalHonestyScore (Some [e]) = 100
    /\ ((960 < minutesSpent e)%Q ->
        BeforeAfter.honestyScore (BeforeAfter.calculateMetrics getHours [e]) = 90)
    /\ ((minutesSpent e <= 960)%Q ->
        BeforeAfter.honestyScore (BeforeAfter.calculateMetrics getHours [e]) = 100).
Proof.
  intros getHours e. split; [reflexivity |].
  rewrite metrics_honesty.
  unfold Spec.countUnrealistic, Honesty.sortByDate. cbn [JS.sort fold_right JS.insert
    map Spec.gapPenalties filter].
  split; intros H.
  - destruct (Qle_bool (minutesSpent e) 960) eqn:E.
    + apply Qle_bool_iff in E. exfalso. apply (Qlt_not_le _ _ H E).
    + reflexivity.
  - apply Qle_bool_iff in H. rewrite H. reflexivity.
Qed.

Lemma single_entry_honesty_witness :
  BeforeAfter.honestyScore
    (BeforeAfter.calculateMetrics Sample.utcHours [Sample.overlong]) = 90.
Proof.
  apply (proj1 (proj2 (single_entry_honesty Sample.utcHours Sample.overlong))).
  reflexivity.
Defined.

(** * The order of the daily totals *)

Lemma strongly_sorted_snoc (l : list Z) (x : Z) :
  StronglySorted Z.lt l -> Forall (fun k => k < x) l ->
  StronglySorted Z.lt (l ++ [x]).
Proof.
  induction 1 as [| a r Hr IH Hall]; intros Hlt; cbn [app].
  - repeat constructor.
  - inversion Hlt as [| y ys Hax Hrx]; subst.
    constructor; [apply IH, Hrx |].
    apply Forall_app. split; [exact Hall | constructor; [exact Hax | constructor]].
Qed.

Lemma dateStep_chronological (logs : list UsageLog) :
  forall acc,
    StronglySorted Z.lt (map fst acc) ->
    StronglySorted Z.le (map Analytics.dateKey logs) ->
    (forall k r, In k (map fst acc) -> In r logs -> k <= Analytics.dateKey r) ->
    StronglySorted Z.lt (map fst (fold_left Analytics.dateStep logs acc)).
Proof.
  induction logs as [| r logs IH]; intros acc Hacc Hlogs Hbefore; cbn [fold_left];
    [exact Hacc |].
  cbn [map] in Hlogs. inversion Hlogs as [| x xs Hxs Hall]; subst.
  rewrite Forall_forall in Hall.
  unfold Analytics.dateStep at 2.
  destruct (in_dec Z.eq_dec (Analytics.dateKey r) (map fst acc)) as [Hin | Hout].
  - apply IH; [| exact Hxs |].
    + rewrite addMinutes_keys_in by exact Hin. exact Hacc.
    + intros k r' Hk Hr'. rewrite addMinutes_keys_in in Hk by exact Hin.
      apply Hbefore; [exact Hk | right; exact Hr'].
  - rewrite addMinutes_new by exact Hout.
    apply IH; [| exact Hxs |].
    + rewrite map_app. cbn [map fst]. apply strongly_sorted_snoc; [exact Hacc |].
      apply Forall_forall. intros k Hk.
      assert (Hle : k <= Analytics.dateKey r)
        by (apply Hbefore; [exact Hk | left; reflexivity]).
      assert (Hne : k <> Analytics.dateKey r) by (intros ->; contradiction).
      lia.
    + intros k r' Hk Hr'. rewrite map_app, in_app_iff in Hk. cbn in Hk.
      destruct Hk as [Hk | [<- | []]].
      * apply Hbefore; [exact Hk | right; exact Hr'].
      * apply Hall, in_map, Hr'.
Qed.

Lemma Forall2_fst_snd {A B : Type} (P : A -> B -> Prop) (m : list (A * B)) :
  (forall k v, In (k, v) m -> P k v) -> Forall2 P (map fst m) (map snd m).
Proof.
  induction m as [| [k v] m IH]; intros H; cbn [map fst snd]; constructor.
  - apply H. left. reflexivity.
  - apply IH. intros k' v' Hin. apply H. right. exact Hin.
Qed.

Lemma groupByDate_days (logs : list UsageLog) :
  map fst (Analytics.groupByDate logs)
  = StatSpec.firstOccurrences Z.eqb (map Analytics.dateKey logs).
Proof.
  pose proof (fold_set_keys Z.eqb Z.eqb_spec Analytics.dateKey
                (fun found log =>
                   (match found with
                    | Some v => JS.orZero v
                    | None => 0
                    end + minutesSpent log)%Q) logs []) as H.
  cbn [map fst app existsb negb] in H.
  rewrite filter_every in H by reflexivity. exact H.
Qed.

(** X23. The date map of the weekly statistics holds one total for each
    distinct UTC day of the logs, in the order in which the days first
    occur in the logs, whatever the order of the logs; each total is the
    sum of the minutes of its day.  Logs given by ascending day give the
    days in ascending order, so that the trend compares the earlier days
    with the later ones; logs given latest first do not. *)
Theorem daily_totals_in_order_of_first_occurrence :
  forall logs,
    (forall log, Analytics.dateKey log = date log / 86400000)
    /\ map fst (Analytics.groupByDate logs)
       = StatSpec.firstOccurrences Z.eqb (map Analytics.dateKey logs)
    /\ Forall2 (fun day total =>
                  (total == StatSpec.bucketMinutes Z.eqb Analytics.dateKey day logs)%Q)
               (StatSpec.firstOccurrences Z.eqb (map Analytics.dateKey logs))
               (Spec.dailyTotals logs)
    /\ length (Spec.dailyTotals logs) = Spec.distinctDays logs
    /\ (StronglySorted Z.le (map Analytics.dateKey logs) ->
        StronglySorted Z.lt (map fst (Analytics.groupByDate logs))).
Proof.
  intros logs.
  split; [intros log; reflexivity |].
  split; [apply groupByDate_days |].
  split.
  { rewrite <- groupByDate_days. unfold Spec.dailyTotals, JS.values.
    apply Forall2_fst_snd. intros k v Hin.
    apply (group_entry Z.eqb Z.eqb_spec Analytics.dateKey logs k v Hin). }
  split; [apply groupByDate_size |].
  intros Hsorted. unfold Analytics.groupByDate.
  apply dateStep_chronological; [constructor | exact Hsorted | intros k r []].
Qed.

Lemma daily_totals_in_order_of_first_occurrence_witness :
  StronglySorted Z.lt (map fst (Analytics.groupByDate Sample.rising))
  /\ map fst (Analytics.groupByDate (Sample.onDays [3; 0; 1; 2; 3; 0]))
     = [3; 0; 1; 2].
Proof.
  split.
  - assert (H : StronglySorted Z.le (map Analytics.dateKey Sample.rising)).
    { vm_compute. repeat constructor; discriminate. }
    exact (proj2 (proj2 (proj2 (proj2
             (daily_totals_in_order_of_first_occurrence Sample.rising)))) H).
  - rewrite (proj1 (proj2 (daily_totals_in_order_of_first_occurrence
                             (Sample.onDays [3; 0; 1; 2; 3; 0])))).
    reflexivity.
Defined.
